(** * The configuration tree of tardis/gui.py

    A shallow embedding of the configuration editor of [tardis/gui.py]:
    [ConfigEditor.matchDicts] (the merge of a user configuration into the
    template), the [Node] class, [TreeModel] (tree construction, the
    disabled-node list, serialisation back to a dictionary) and the choice
    branch of [TreeDelegate.setModelData].

    Python objects with identity (the nodes) live in an arena: a node is
    the index of its record in a list, allocated in creation order. *)

From Stdlib Require Import ZArith String Ascii List Lia.
From stdpp Require Import base list strings.
Import ListNotations.
Local Open Scope string_scope.
Local Open Scope list_scope.
Local Open Scope Z_scope.
Local Open Scope nat_scope.
Set Warnings "-register-all".

(** ** Python values and exceptions *)

(** The values [yaml.load] produces and the template literal holds.  A dict
    is the list of its items; its keys are strings and pairwise distinct
    (see [wf_dicts]).  A loop over a dict goes through the list from its
    head.  The program is Python 2, where a dict iterates in an order of its
    own, by the hashes of its keys: the order of the list stands for that
    order, whichever it is, and what is proved for every list of items holds
    for it.  A float is inert in this code and is kept as the text of its
    literal. *)
Inductive pyval : Type :=
| PNone
| PBool (b : bool)
| PInt (z : Z)
| PFloat (lit : string)
| PStr (s : string)
| PList (l : list pyval)
| PDict (items : list (string * pyval)).

(** The exceptions of the code.  [IntegerKey] is none of Python's: it marks
    the one place where a call goes on past what the embedding can hold,
    [matchDicts] storing an entry of the template under an integer key (see
    there).  A result [Raise IntegerKey] says that the run leaves the
    embedding, not that the code raises. *)
Inductive exn : Type :=
| IOError
| TypeError
| IndexError
| KeyError
| AttributeError
| RecursionLimit
| IntegerKey.

(** A computation either returns or raises. *)
Inductive result (A : Type) : Type :=
| Ok (a : A)
| Raise (e : exn).
Arguments Ok {A} a.
Arguments Raise {A} e.

Definition bind {A B : Type} (m : result A) (k : A -> result B) : result B :=
  match m with
  | Ok a => k a
  | Raise e => Raise e
  end.

Notation "'let*' x ':=' m 'in' k" := (bind m (fun x => k))
  (at level 10, x pattern, m at level 100, k at level 200).

(** [for x in xs: st = body(x, st)], stopping at the first exception. *)
Fixpoint for_each {A S : Type} (body : A -> S -> result S) (xs : list A) (st : S)
  : result S :=
  match xs with
  | [] => Ok st
  | x :: rest => let* st' := body x st in for_each body rest st'
  end.

(** [[f(x) for x in xs]]. *)
Fixpoint map_result {A B : Type} (f : A -> result B) (xs : list A) : result (list B) :=
  match xs with
  | [] => Ok []
  | x :: rest => let* y := f x in let* ys := map_result f rest in Ok (y :: ys)
  end.

(** *** Lists *)

(** [l[i]] with Python's negative indices. *)
Definition py_index {A : Type} (l : list A) (i : Z) : result A :=
  let n := Z.of_nat (length l) in
  let j := if (i <? 0)%Z then (i + n)%Z else i in
  if ((j <? 0) || (n <=? j))%Z then Raise IndexError
  else match l !! Z.to_nat j with
       | Some x => Ok x
       | None => Raise IndexError
       end.

(** [l.index(x)] as an option: the position of the first occurrence. *)
Fixpoint index_of {A : Type} `{EqDecision A} (x : A) (l : list A) : option nat :=
  match l with
  | [] => None
  | y :: rest => if decide (x = y) then Some 0 else S <$> index_of x rest
  end.

(** [l.remove(x)] on a list that holds [x]: the first occurrence goes. *)
Fixpoint remove_first {A : Type} `{EqDecision A} (x : A) (l : list A) : list A :=
  match l with
  | [] => []
  | y :: rest => if decide (x = y) then rest else y :: remove_first x rest
  end.

(** *** Dictionaries with string keys *)

Section Dict.
Context {V : Type}.

Fixpoint dict_get (k : string) (d : list (string * V)) : option V :=
  match d with
  | [] => None
  | (k', v) :: rest => if decide (k = k') then Some v else dict_get k rest
  end.

(** [d[k] = v]: an existing key keeps its place, as it does in Python; a new
    one is added.  Where a new key comes in the iteration order of a Python 2
    dict is a matter of its hash; the list takes it at its end, and no
    statement about the merge says where a new key stands: they go through
    [dict_get] and the set of keys. *)
Fixpoint dict_set (k : string) (v : V) (d : list (string * V)) : list (string * V) :=
  match d with
  | [] => [(k, v)]
  | (k', v') :: rest =>
      if decide (k = k') then (k, v) :: rest else (k', v') :: dict_set k v rest
  end.

Definition dict_keys (d : list (string * V)) : list string := map fst d.
End Dict.

(** *** [str.split] with a non-empty separator *)

(** [skip] counts the characters of a separator that was just recognised and
    is still to be passed over; [cur] is the piece being read. *)
Fixpoint split_from (sep : string) (skip : nat) (cur : string) (s : string)
  : list string :=
  match s with
  | EmptyString => [cur]
  | String c s' =>
      match skip with
      | S k => split_from sep k cur s'
      | O =>
          if String.prefix sep s
          then cur :: split_from sep (String.length sep - 1) "" s'
          else split_from sep 0 (cur ++ String c "")%string s'
      end
  end.

Definition py_split (sep s : string) : list string := split_from sep 0 "" s.

(** The delimiter of the option strings: [name|_:_|param|_:_|param]. *)
Definition delim : string := "|_:_|".

(** [x.split('|_:_|')] for a field [x]; only strings have [split]. *)
Definition split_field (x : pyval) : result (list string) :=
  match x with
  | PStr s => Ok (py_split delim s)
  | _ => Raise AttributeError
  end.

(** [x.split('|_:_|')[0]]. *)
Definition option_name (x : pyval) : result string :=
  let* parts := split_field x in Ok (hd "" parts).

(** [x in options] and [options.index(x)] for a list of strings: only a
    string compares equal to one. *)
Definition index_in_names (x : pyval) (options : list string) : option nat :=
  match x with
  | PStr s => index_of s options
  | _ => None
  end.

(** ** class Node *)

(** [parent] and the members of [children] and [siblings] are node
    references: indices into the arena of the tree model. *)
Record Node : Type := mkNode {
  parent : option nat;
  children : list nat;
  data : list pyval;
  siblings : list (string * list nat)
}.

(** [Node(data)]: no parent, no children, no siblings. *)
Definition Node_init (d : list pyval) : Node := mkNode None [] d [].

Definition with_parent (p : option nat) (n : Node) : Node :=
  mkNode p (children n) (data n) (siblings n).
Definition with_children (cs : list nat) (n : Node) : Node :=
  mkNode (parent n) cs (data n) (siblings n).
Definition with_data (d : list pyval) (n : Node) : Node :=
  mkNode (parent n) (children n) d (siblings n).
Definition with_siblings (s : list (string * list nat)) (n : Node) : Node :=
  mkNode (parent n) (children n) (data n) s.

Definition numChildren (n : Node) : nat := length (children n).
Definition numColumns (n : Node) : nat := length (data n).

(** [getChild]: [None] at or past the end; below the end the list is
    subscripted as Python does it, negative indices included. *)
Definition getChild (n : Node) (i : Z) : result (option nat) :=
  if (i <? Z.of_nat (numChildren n))%Z
  then let* c := py_index (children n) i in Ok (Some c)
  else Ok None.

(** [getData]: the [IndexError] of the subscript is caught and turned into
    [None]. *)
Definition getData (n : Node) (i : Z) : pyval :=
  match py_index (data n) i with
  | Ok x => x
  | Raise _ => PNone
  end.

(** [setData] returns its success flag together with the node after the
    call. *)
Definition setData (n : Node) (column : Z) (value : pyval) : bool * Node :=
  if ((column <? 0) || (Z.of_nat (numColumns n) <=? column))%Z
  then (false, n)
  else (true, with_data (<[Z.to_nat column := value]> (data n)) n).

(** ** ConfigEditor.matchDicts *)

(** The one-character strings a [for] loop over a str goes through. *)
Fixpoint characters (s : string) : list string :=
  match s with
  | EmptyString => []
  | String c rest => String c EmptyString :: characters rest
  end.

(** One round of the loop of [matchDicts] for a key with which [dict1]
    cannot be subscripted: a str with one of its characters, a list with a
    str.  [dict1[key]] raises [TypeError] wherever the round comes to
    evaluate it: as the argument of the recursive call, as [optionselected]
    once the option names are split off, on the right of either assignment.
    The round goes by only at a list entry whose second element is no list:
    no branch is taken there and [dict1[key]] is not asked for. *)
Definition merge_unsubscripted (key : string) (dict2 : list (string * pyval))
  : result (list (string * pyval)) :=
  match dict_get key dict2 with
  | Some (PList entry) =>
      let* second := py_index entry 1 in
      match second with
      | PList available =>
          let* options := map_result option_name available in
          Raise TypeError
      | _ => Ok dict2
      end
  | _ => Raise TypeError
  end.

(** One round of the loop of [matchDicts] over a list [dict1], for its
    element [key].  A list or a dict cannot be hashed for [key in dict2].
    [None], a float, a number and a bool are no keys of [dict2], whose keys
    are strings, so the round comes to [dict1[key]]: a list is subscripted
    with integers only, a bool being the integer 0 or 1.  With an integer in
    range the source stores [[False, dict1[key]]] under the integer; the
    dicts of the embedding have no place for such a key, and the embedding
    ends there with [IntegerKey]. *)
Definition merge_list_item (dict1 : list pyval) (key : pyval)
    (dict2 : list (string * pyval)) : result (list (string * pyval)) :=
  match key with
  | PList _ | PDict _ => Raise TypeError
  | PStr k => merge_unsubscripted k dict2
  | PNone | PFloat _ => Raise TypeError
  | PInt i => let* value1 := py_index dict1 i in Raise IntegerKey
  | PBool b => let* value1 := py_index dict1 (if b then 1 else 0)%Z in Raise IntegerKey
  end.

(** [matchDicts dict1 dict2] returns [dict2] as the call leaves it.  [dict2]
    is always a dict in the source (the template, or a value just tested with
    [isinstance(..., dict)]) and is passed as its item list.  [dict1] is
    whatever the user configuration holds at that place, and [for key in
    dict1] takes it as it comes: a number, a bool and [None] are not iterable
    ([TypeError]); a str is gone through character by character and a list
    element by element, so the empty str and the empty list leave [dict2] as
    it is.

    Over a dict the loop runs through the items of [dict1]; its keys are
    distinct, so [dict1[key]] is the value paired with [key]. *)
Fixpoint matchDicts (dict1 : pyval) (dict2 : list (string * pyval)) {struct dict1}
  : result (list (string * pyval)) :=
  match dict1 with
  | PDict items1 =>
      (fix loop (items : list (string * pyval)) (dict2 : list (string * pyval))
         {struct items} : result (list (string * pyval)) :=
         match items with
         | [] => Ok dict2
         | (key, value1) :: rest =>
             let* dict2' :=
               match dict_get key dict2 with
               | Some (PDict sub2) =>
                   let* sub2' := matchDicts value1 sub2 in
                   Ok (dict_set key (PDict sub2') dict2)
               | Some (PList entry) =>
                   let* second := py_index entry 1 in
                   match second with
                   | PList available =>
                       let* options := map_result option_name available in
                       match index_in_names value1 options with
                       | Some indexofselected =>
                           let* temp := py_index available 0 in
                           let* chosen := py_index available (Z.of_nat indexofselected) in
                           let available' :=
                             <[indexofselected := temp]> (<[0 := chosen]> available) in
                           Ok (dict_set key (PList (<[1 := PList available']> entry)) dict2)
                       | None => Raise IOError
                       end
                   | _ => Ok dict2
                   end
               | Some _ => Ok (dict_set key value1 dict2)
               | None => Ok (dict_set key (PList [PBool false; value1]) dict2)
               end in
             loop rest dict2'
         end) items1 dict2
  | PStr s => for_each merge_unsubscripted (characters s) dict2
  | PList l => for_each (merge_list_item l) l dict2
  | PNone | PBool _ | PInt _ | PFloat _ => Raise TypeError
  end.

(** ** class TreeModel *)

(** The arena of nodes together with the attributes of the model. *)
Record TreeModel : Type := mkModel {
  nodes : list Node;
  root : nat;
  disabledNodes : list nat;
  typenodes : list nat
}.

Definition with_nodes (ns : list Node) (m : TreeModel) : TreeModel :=
  mkModel ns (root m) (disabledNodes m) (typenodes m).
Definition with_disabled (ds : list nat) (m : TreeModel) : TreeModel :=
  mkModel (nodes m) (root m) ds (typenodes m).
Definition with_typenodes (ts : list nat) (m : TreeModel) : TreeModel :=
  mkModel (nodes m) (root m) (disabledNodes m) ts.

(** Following a reference.  [None] has no attributes; a reference that names
    no node of the arena is treated like it. *)
Definition node_at (m : TreeModel) (i : nat) : result Node :=
  match nodes m !! i with
  | Some n => Ok n
  | None => Raise AttributeError
  end.

Definition deref (m : TreeModel) (r : option nat) : result Node :=
  match r with
  | Some i => node_at m i
  | None => Raise AttributeError
  end.

Definition update_node (i : nat) (f : Node -> Node) (m : TreeModel) : TreeModel :=
  with_nodes (alter f i (nodes m)) m.

(** [Node(d)]: the new node takes the next free index. *)
Definition new_node (d : list pyval) (m : TreeModel) : nat * TreeModel :=
  (length (nodes m), with_nodes (nodes m ++ [Node_init d]) m).

(** [parent.appendChild(child)]. *)
Definition appendChild (p child : nat) (m : TreeModel) : TreeModel :=
  update_node child (with_parent (Some p))
    (update_node p (fun n => with_children (children n ++ [child]) n) m).

(** [range(a, b)] as Python integers. *)
Definition py_range (a b : nat) : list Z := map Z.of_nat (seq a (b - a)).

(** [TreeModel.treeFromNode].  In Python the leaf of a list of options
    holds the list object of the template itself, so the later [setData] on
    the leaf writes into the template; the template is not read again once
    the tree is built, and the leaf here has the fields as a value of its
    own. *)
Fixpoint treeFromNode (dictionary : pyval) (root : nat) (m : TreeModel)
  {struct dictionary} : result TreeModel :=
  match dictionary with
  | PDict items =>
      (fix loop (items : list (string * pyval)) (m : TreeModel) {struct items}
         : result TreeModel :=
         match items with
         | [] => Ok m
         | (key, value) :: rest =>
             let (child, m1) := new_node [PStr key] m in
             let m2 := appendChild root child m1 in
             let* m3 :=
               match value with
               | PDict _ => treeFromNode value child m2
               | PList entry =>
                   let* second := py_index entry 1 in
                   let (leaf, m') :=
                     match second with
                     | PList options => new_node options m2
                     | _ => new_node [second] m2
                     end in
                   let m'' := appendChild child leaf m' in
                   if decide (key = "type")
                   then Ok (with_typenodes (typenodes m'' ++ [child]) m'')
                   else Ok m''
               | _ => Ok m2
               end in
             loop rest m3
         end) items m
  | _ => Raise TypeError
  end.

(** [sibsdict[k] = c] for a key [k] read off a node.  The dict is only ever
    asked for strings, so an entry under another hashable key is never seen
    and is not recorded; a list or a dict cannot be a key. *)
Definition sibsdict_set (k : pyval) (c : nat) (sibsdict : list (string * nat))
  : result (list (string * nat)) :=
  match k with
  | PStr s => Ok (dict_set s c sibsdict)
  | PList _ | PDict _ => Raise TypeError
  | _ => Ok sibsdict
  end.

(** [node.siblings[k]]: the keys of [siblings] are strings. *)
Definition siblings_get (n : Node) (k : pyval) : result (list nat) :=
  match k with
  | PStr s =>
      match dict_get s (siblings n) with
      | Some l => Ok l
      | None => Raise KeyError
      end
  | PList _ | PDict _ => Raise TypeError
  | _ => Raise KeyError
  end.

(** The first inner loop of [dictToTree]: the name-to-node map of the
    children of [parent]. *)
Definition make_sibsdict (m : TreeModel) (parent : Node) : result (list (string * nat)) :=
  for_each
    (fun i sibsdict =>
       let* c1 := getChild parent i in
       let* n1 := deref m c1 in
       let* c2 := getChild parent i in
       match c2 with
       | Some c => sibsdict_set (getData n1 0) c sibsdict
       | None => Ok sibsdict
       end)
    (py_range 0 (numChildren parent)) [].

(** [sibslist] of one option: the siblings its parameters name. *)
Fixpoint make_sibslist (sibsdict : list (string * nat)) (params : list string)
  : list nat :=
  match params with
  | [] => []
  | p :: rest =>
      match dict_get p sibsdict with
      | Some nd => nd :: make_sibslist sibsdict rest
      | None => make_sibslist sibsdict rest
      end
  end.

(** The second inner loop: field [i] of the leaf is cut down to the option
    name and the option's siblings are recorded under that name. *)
Definition split_options (sibsdict : list (string * nat)) (typesleaf : Node)
  : result Node :=
  for_each
    (fun i leaf =>
       let* sibstrings := split_field (getData leaf i) in
       let name := hd "" sibstrings in
       let leaf' := snd (setData leaf i (PStr name)) in
       let sibslist := make_sibslist sibsdict (tl sibstrings) in
       Ok (with_siblings (dict_set name sibslist (siblings leaf')) leaf'))
    (py_range 0 (numColumns typesleaf)) typesleaf.

(** The third inner loop: the siblings of every option but the first are
    appended to the disabled nodes. *)
Definition disable_unselected (typesleaf : Node) (disabled : list nat)
  : result (list nat) :=
  for_each
    (fun i disabled =>
       let key := getData typesleaf i in
       let* sibs := siblings_get typesleaf key in
       Ok (disabled ++ sibs))
    (py_range 1 (numColumns typesleaf)) disabled.

(** The body of [for node in self.typenodes]. *)
Definition link_typenode (node : nat) (m : TreeModel) : result TreeModel :=
  let* n := node_at m node in
  let* parent := deref m (parent n) in
  let* sibsdict := make_sibsdict m parent in
  let* leafref := getChild n 0 in
  let* typesleaf := deref m leafref in
  let* typesleaf' := split_options sibsdict typesleaf in
  let m' := match leafref with
            | Some l => update_node l (fun _ => typesleaf') m
            | None => m
            end in
  let* disabled := disable_unselected typesleaf' (disabledNodes m') in
  Ok (with_disabled disabled m').

(** [TreeModel.dictToTree]. *)
Definition dictToTree (dictionary : pyval) (root : nat) (m : TreeModel)
  : result TreeModel :=
  let* m1 := treeFromNode dictionary root m in
  for_each link_typenode (typenodes m1) m1.

(** [TreeModel.__init__]. *)
Definition TreeModel_init (dictionary : pyval) : result TreeModel :=
  let m0 := mkModel [Node_init [PStr "column A"]] 0 [] [] in
  dictToTree dictionary (root m0) m0.

(** [dictionary[k] = v] for a key [k] read off a node.  Keys are strings
    throughout the embedding, and every key node built by [treeFromNode]
    holds one; a list or a dict cannot be a key. *)
Definition pydict_set (k : pyval) (v : pyval) (dictionary : list (string * pyval))
  : result (list (string * pyval)) :=
  match k with
  | PStr s => Ok (dict_set s v dictionary)
  | _ => Raise TypeError
  end.

(** [x in self.disabledNodes] for what [getChild] returned. *)
Definition is_disabled (m : TreeModel) (r : option nat) : bool :=
  match r with
  | Some i => bool_decide (i ∈ disabledNodes m)
  | None => false
  end.

(** [TreeModel.dictFromNode].  [depth] bounds the nesting of the calls, as
    the interpreter's recursion limit does; a node without children falls
    off the end of the method and yields [None]. *)
Fixpoint dictFromNode (depth : nat) (m : TreeModel) (node : option nat)
  : result pyval :=
  match depth with
  | O => Raise RecursionLimit
  | S depth' =>
      let* n := deref m node in
      let* children := map_result (getChild n) (py_range 0 (numChildren n)) in
      if 1 <? length children then
        let* dictionary :=
          for_each
            (fun nd dictionary =>
               if is_disabled m nd then Ok dictionary
               else
                 let* v := dictFromNode depth' m nd in
                 let* child := deref m nd in
                 pydict_set (getData child 0) v dictionary)
            children [] in
        Ok (PDict dictionary)
      else if length children =? 1 then
        let* first := py_index children 0 in
        let* child := deref m first in
        Ok (getData child 0)
      else Ok PNone
  end.

(** ** class TreeDelegate *)

(** What [setModelData] reads off the combo box. *)
Record QComboBox : Type := mkCombo {
  currentIndex : Z;
  currentText : string
}.

(** The combo box [createEditor] fills with the fields of [node], after the
    user picked entry [i]. *)
Definition choose (node : Node) (i : nat) : option QComboBox :=
  match data node !! i with
  | Some (PStr s) => Some (mkCombo (Z.of_nat i) s)
  | _ => None
  end.

(** [for nd in itemsToEnable: if nd in disabled: disabled.remove(nd)]. *)
Fixpoint enable_all (itemsToEnable : list nat) (disabled : list nat) : list nat :=
  match itemsToEnable with
  | [] => disabled
  | nd :: rest =>
      enable_all rest
        (if bool_decide (nd ∈ disabled) then remove_first nd disabled else disabled)
  end.

(** [str(firstItem)] for the field that is then used as a key of
    [siblings]: a string is its own [str]; for any other value the
    subscript [node.siblings[firstItem]] raises, whatever was stored before
    it is evaluated. *)
Definition str_key (firstItem : pyval) : result string :=
  match firstItem with
  | PStr s => Ok s
  | PList _ | PDict _ => Raise TypeError
  | _ => Raise KeyError
  end.

(** [node.getParent().getData(0) == 'type']. *)
Definition under_type (m : TreeModel) (n : Node) : result bool :=
  let* p := deref m (parent n) in
  match getData p 0 with
  | PStr s => Ok (bool_decide (s = "type"))
  | _ => Ok false
  end.

(** [TreeDelegate.setModelData] for a combo box, on the branch
    [elif node.numColumns() > 1 and node.getParent().getData(0) == 'type'].
    [Ok None] says that another branch of the method handles the node. *)
Definition setModelData (editor : QComboBox) (model : TreeModel) (node : nat)
  : result (option TreeModel) :=
  let* n := node_at model node in
  if negb (1 <? numColumns n) then Ok None
  else
    let* is_type := under_type model n in
    if negb is_type then Ok None
    else
      let selectedIndex := currentIndex editor in
      let firstItem := getData n 0 in
      let* old := str_key firstItem in
      let n1 := snd (setData n 0 (PStr (currentText editor))) in
      let n2 := snd (setData n1 selectedIndex (PStr old)) in
      let* itemsToDisable := siblings_get n2 firstItem in
      let* itemsToEnable := siblings_get n2 (PStr (currentText editor)) in
      let disabled := enable_all itemsToEnable (disabledNodes model ++ itemsToDisable) in
      Ok (Some (with_disabled disabled (update_node node (fun _ => n2) model))).

(** ** class ConfigEditor *)

(** The two-element lists [[True, v]] and [[False, v]] of the template. *)
Definition required (v : pyval) : pyval := PList [PBool true; v].
Definition optional (v : pyval) : pyval := PList [PBool false; v].

(** The template literal of [ConfigEditor.__init__], items in the order of
    the literal. *)
Definition templatedictionary : list (string * pyval) :=
  [ ("tardis_config_version", required (PStr "v1.0"));
    ("supernova", PDict
      [ ("luminosity_requested", required (PStr "1 solLum"));
        ("time_explosion", required PNone);
        ("distance", optional PNone);
        ("luminosity_wavelength_start", optional (PStr "0 angstrom"));
        ("luminosity_wavelength_end", optional (PStr "inf angstrom")) ]);
    ("atom_data", required (PStr "File Browser"));
    ("plasma", PDict
      [ ("initial_t_inner", optional (PStr "-1K"));
        ("initial_t_rad", optional (PStr "10000K"));
        ("disable_electron_scattering", optional (PBool false));
        ("ionization", required PNone);
        ("excitation", required PNone);
        ("radiative_rates_type", required PNone);
        ("line_interaction_type", required PNone);
        ("w_epsilon", optional (PFloat "1e-10"));
        ("delta_treatment", optional PNone);
        ("nlte", PDict
          [ ("species", optional (PList []));
            ("coronal_approximation", optional (PBool false));
            ("classical_nebular", optional (PBool false)) ]) ]);
    ("model", PDict
      [ ("structure", PDict
          [ ("type", required (PList
              [ PStr "file|_:_|filename|_:_|filetype|_:_|v_inner_boundary|_:_|v_outer_boundary";
                PStr "specific|_:_|velocity|_:_|density" ]));
            ("filename", required PNone);
            ("filetype", required PNone);
            ("v_inner_boundary", optional (PStr "0 km/s"));
            ("v_outer_boundary", optional (PStr "inf km/s"));
            ("velocity", required PNone);
            ("density", PDict
              [ ("type", required (PList
                  [ PStr "branch85_w7|_:_|w7_time_0|_:_|w7_time_0|_:_|w7_time_0";
                    PStr "exponential|_:_|time_0|_:_|rho_0|_:_|v_0";
                    PStr "power_law|_:_|time_0|_:_|rho_0|_:_|v_0|_:_|exponent";
                    PStr "uniform|_:_|value" ]));
                ("w7_time_0", optional (PStr "0.000231481 day"));
                ("w7_rho_0", optional (PStr "3e29 g/cm^3"));
                ("w7_v_0", optional (PStr "1 km/s"));
                ("time_0", required PNone);
                ("rho_0", required PNone);
                ("v_0", required PNone);
                ("exponent", required PNone);
                ("value", required PNone) ]) ]);
        ("abundances", PDict
          [ ("type", required (PList
              [ PStr "file|_:_|filetype|_:_|filename"; PStr "uniform" ]));
            ("filename", required PNone);
            ("filetype", optional PNone) ]) ]);
    ("montecarlo", PDict
      [ ("seed", optional (PInt 23111963));
        ("no_of_packets", required PNone);
        ("iterations", required PNone);
        ("black_body_sampling", PDict
          [ ("start", PStr "1 angstrom");
            ("stop", PStr "1000000 angstrom");
            ("num", PStr "1.e+6") ]);
        ("last_no_of_packets", optional (PInt (-1)));
        ("no_of_virtual_packets", optional (PInt 0));
        ("enable_reflective_inner_boundary", optional (PBool false));
        ("inner_boundary_albedo", optional (PFloat "0.0"));
        ("convergence_strategy", PDict
          [ ("type", required (PList
              [ PStr "damped|_:_|damping_constant|_:_|t_inner|_:_|t_rad|_:_|w|_:_|lock_t_inner_cycles|_:_|t_inner_update_exponent";
                PStr "specific|_:_|threshold|_:_|fraction|_:_|hold_iterations|_:_|t_inner|_:_|t_rad|_:_|w|_:_|lock_t_inner_cycles|_:_|damping_constant|_:_|t_inner_update_exponent" ]));
            ("t_inner_update_exponent", optional (PFloat "-0.5"));
            ("lock_t_inner_cycles", optional (PInt 1));
            ("hold_iterations", required (PInt 3));
            ("fraction", required (PFloat "0.8"));
            ("damping_constant", optional (PFloat "0.5"));
            ("threshold", required PNone);
            ("t_inner", PDict
              [ ("damping_constant", optional (PFloat "0.5"));
                ("threshold", optional PNone) ]);
            ("t_rad", PDict
              [ ("damping_constant", optional (PFloat "0.5"));
                ("threshold", required PNone) ]);
            ("w", PDict
              [ ("damping_constant", optional (PFloat "0.5"));
                ("threshold", required PNone) ]) ]) ]);
    ("spectrum", required PNone) ].

(** [ConfigEditor.__init__], from the parsed configuration to the tree
    model: the merge comes first and nothing catches what it raises. *)
Definition ConfigEditor_init (configDict : pyval) : result TreeModel :=
  let* merged := matchDicts configDict templatedictionary in
  TreeModel_init (PDict merged).

(** The serialisation of the whole tree. *)
Definition toMapping (depth : nat) (m : TreeModel) : result pyval :=
  dictFromNode depth m (Some (root m)).

(** ** Definitions used by the statements *)

(** Every dict of a value has pairwise distinct keys. *)
Fixpoint wf_dicts (v : pyval) : bool :=
  match v with
  | PList l => forallb wf_dicts l
  | PDict items =>
      bool_decide (NoDup (dict_keys items))
      && forallb (fun kv => wf_dicts (snd kv)) items
  | _ => true
  end.

(** [d[k1][k2]...] through nested dicts. *)
Fixpoint lookup_path (path : list string) (v : pyval) : option pyval :=
  match path with
  | [] => Some v
  | k :: rest =>
      match v with
      | PDict items =>
          match dict_get k items with
          | Some v' => lookup_path rest v'
          | None => None
          end
      | _ => None
      end
  end.

(** The body of the loop of [matchDicts], for one item of [dict1]. *)
Definition merge_item (kv : string * pyval) (dict2 : list (string * pyval))
  : result (list (string * pyval)) :=
  let (key, value1) := kv in
  match dict_get key dict2 with
  | Some (PDict sub2) =>
      let* sub2' := matchDicts value1 sub2 in
      Ok (dict_set key (PDict sub2') dict2)
  | Some (PList entry) =>
      let* second := py_index entry 1 in
      match second with
      | PList available =>
          let* options := map_result option_name available in
          match index_in_names value1 options with
          | Some indexofselected =>
              let* temp := py_index available 0 in
              let* chosen := py_index available (Z.of_nat indexofselected) in
              let available' :=
                <[indexofselected := temp]> (<[0 := chosen]> available) in
              Ok (dict_set key (PList (<[1 := PList available']> entry)) dict2)
          | None => Raise IOError
          end
      | _ => Ok dict2
      end
  | Some _ => Ok (dict_set key value1 dict2)
  | None => Ok (dict_set key (PList [PBool false; value1]) dict2)
  end.




Definition is_str (x : pyval) : bool :=
  match x with
  | PStr _ => true
  | _ => false
  end.



(** How often a node occurs in a list of nodes. *)
Fixpoint count (x : nat) (l : list nat) : nat :=
  match l with
  | [] => 0
  | y :: rest => (if decide (x = y) then 1 else 0) + count x rest
  end.

(** The siblings recorded for the options of a choice leaf other than the
    first, in the order of the fields, as the third inner loop of
    [dictToTree] reads them. *)
Definition unselected_siblings (typesleaf : Node) : list nat :=
  flat_map (fun i => match siblings_get typesleaf (getData typesleaf i) with
                     | Ok sibs => sibs
                     | Raise _ => []
                     end)
           (py_range 1 (numColumns typesleaf)).

(** The siblings recorded for the first field of a choice leaf, the
    current selection. *)
Definition selected_siblings (typesleaf : Node) : list nat :=
  match siblings_get typesleaf (getData typesleaf 0) with
  | Ok sibs => sibs
  | Raise _ => []
  end.

(** The choice leaf of a type node: its first child. *)
Definition typesleaf_of (m : TreeModel) (node : nat) : option (nat * Node) :=
  match nodes m !! node with
  | Some n =>
      match children n !! 0 with
      | Some l =>
          match nodes m !! l with
          | Some leaf => Some (l, leaf)
          | None => None
          end
      | None => None
      end
  | None => None
  end.

(** The reference of the choice leaf of a type node. *)
Definition leaf_id (m : TreeModel) (node : nat) : option nat :=
  fst <$> typesleaf_of m node.

(** The siblings of the unselected options of a type node, empty when the
    node has no choice leaf. *)
Definition unselected_of (m : TreeModel) (node : nat) : list nat :=
  match typesleaf_of m node with
  | Some (_, leaf) => unselected_siblings leaf
  | None => []
  end.

(** Two states of the model hold the same tree: the same references, and
    every node with the same parent and children. *)
Definition same_tree (m m' : TreeModel) : Prop :=
  typenodes m' = typenodes m /\ root m' = root m /\
  length (nodes m') = length (nodes m) /\
  forall x n, nodes m !! x = Some n ->
    exists n', nodes m' !! x = Some n' /\ children n' = children n /\ parent n' = parent n.

(** The body of the loop of [treeFromNode], for one item of the dict. *)
Definition tree_item (root : nat) (kv : string * pyval) (m : TreeModel)
  : result TreeModel :=
  let (key, value) := kv in
  let (child, m1) := new_node [PStr key] m in
  let m2 := appendChild root child m1 in
  match value with
  | PDict _ => treeFromNode value child m2
  | PList entry =>
      let* second := py_index entry 1 in
      let (leaf, m') :=
        match second with
        | PList options => new_node options m2
        | _ => new_node [second] m2
        end in
      let m'' := appendChild child leaf m' in
      if decide (key = "type")
      then Ok (with_typenodes (typenodes m'' ++ [child]) m'')
      else Ok m''
  | _ => Ok m2
  end.

(** The fields [treeFromNode] gives the leaf of a list entry. *)
Definition leaf_data (second : pyval) : list pyval :=
  match second with
  | PList options => options
  | _ => [second]
  end.

(** The part of the arena that [treeFromNode] builds for a key [k] with
    value [v] under the node [r]: the key node [c], its leaf right behind it
    for a list entry, and the key nodes of a nested dict as its children.
    [lo] bounds the references of the part from below. *)
Fixpoint key_built (m : TreeModel) (lo r c : nat) (k : string) (v : pyval)
  {struct v} : Prop :=
  lo <= c /\
  exists nc, nodes m !! c = Some nc /\ data nc = [PStr k] /\ parent nc = Some r /\
    match v with
    | PDict items =>
        (c ∉ typenodes m) /\
        (fix items_built (items : list (string * pyval)) (cs : list nat)
           {struct items} : Prop :=
           match items with
           | [] => cs = []
           | (k', v') :: items' =>
               match cs with
               | c' :: cs' => key_built m lo c c' k' v' /\ items_built items' cs'
               | [] => False
               end
           end) items (children nc)
    | PList (_ :: second :: _) =>
        children nc = [S c] /\
        (c ∈ typenodes m <-> k = "type") /\
        exists nl, nodes m !! S c = Some nl /\ children nl = [] /\
                   parent nl = Some c /\ data nl = leaf_data second
    | PList _ => False
    | _ => children nc = [] /\ c ∉ typenodes m
    end.

(** The key nodes [cs] of the items of a dict under the node [r]. *)
Fixpoint items_built (m : TreeModel) (lo r : nat) (items : list (string * pyval))
  (cs : list nat) {struct items} : Prop :=
  match items with
  | [] => cs = []
  | (k, v) :: items' =>
      match cs with
      | c :: cs' => key_built m lo r c k v /\ items_built m lo r items' cs'
      | [] => False
      end
  end.

(** The key-to-value shape of a template, in the words of the
    specification: a dict is the dict of the shapes of its entries, a scalar
    leaf is its value, a choice leaf is the name of its selected option, the
    first one. *)
Fixpoint template_shape (v : pyval) : pyval :=
  match v with
  | PDict items => PDict (map (fun kv => (fst kv, template_shape (snd kv))) items)
  | PList (_ :: PList (PStr s :: _) :: _) => PStr (hd "" (py_split delim s))
  | PList (_ :: second :: _) => second
  | _ => PNone
  end.

(** The templates the serialisation gives back: every dict has at least two
    keys, every other entry is a list [[required, value]]; a list of options
    is a non-empty list of strings under a key named [type], and that key
    holds nothing else. *)
Fixpoint roundtrip_ok (v : pyval) : bool :=
  match v with
  | PDict items =>
      (2 <=? length items) && bool_decide (NoDup (dict_keys items))
      && forallb (fun kv =>
                    match snd kv with
                    | PDict _ => roundtrip_ok (snd kv)
                    | PList (_ :: PList (PStr s :: options) :: _) =>
                        bool_decide (fst kv = "type") && forallb is_str options
                    | PList (_ :: PList _ :: _) => false
                    | PList (_ :: _ :: _) => negb (bool_decide (fst kv = "type"))
                    | _ => false
                    end) items
  | _ => false
  end.

(** The nesting of the calls of [dictFromNode] on the tree of a template. *)
Fixpoint height (v : pyval) : nat :=
  match v with
  | PDict items => S (list_max (map (fun kv => height (snd kv)) items))
  | _ => 1
  end.

(** A type node [t] as [treeFromNode] leaves it: its only child is the
    choice leaf allocated right behind it. *)
Definition typenode_linked (m : TreeModel) (t : nat) : Prop :=
  exists nt nl, nodes m !! t = Some nt /\ children nt = [S t] /\
                nodes m !! S t = Some nl /\ parent nl = Some t /\
                data nt = [PStr "type"] /\ children nl = [] /\ siblings nl = [].

(** What a call of [treeFromNode] on the dict [items] with the node [r] does
    to the model: [r] gets the key nodes [cs] as further children, the part
    of the arena behind the old end is built for the items, the older nodes
    other than [r] are as before, and the new type nodes [ts] are
    registered. *)
Definition tree_post (r : nat) (m m' : TreeModel) (items : list (string * pyval))
  : Prop :=
  exists nr cs ts,
    nodes m !! r = Some nr /\
    nodes m' !! r = Some (with_children (children nr ++ cs) nr) /\
    items_built m' (length (nodes m)) r items cs /\
    (forall i, i < length (nodes m) -> i <> r -> nodes m' !! i = nodes m !! i) /\
    length (nodes m) <= length (nodes m') /\
    root m' = root m /\ disabledNodes m' = disabledNodes m /\
    typenodes m' = typenodes m ++ ts /\ NoDup ts /\
    forall t, t ∈ ts -> length (nodes m) <= t /\ typenode_linked m' t.

(** No sibling recorded for the selected option of a type node is
    disabled. *)
Definition selected_siblings_enabled (m : TreeModel) : Prop :=
  forall t l leaf x,
    t ∈ typenodes m -> typesleaf_of m t = Some (l, leaf) ->
    x ∈ selected_siblings leaf -> x ∉ disabledNodes m.

(** The condition of [roundtrip_ok] on one entry of a dict. *)
Definition entry_ok (k : string) (v : pyval) : bool :=
  match v with
  | PDict _ => roundtrip_ok v
  | PList (_ :: PList (PStr s :: options) :: _) =>
      bool_decide (k = "type") && forallb is_str options
  | PList (_ :: PList _ :: _) => false
  | PList (_ :: _ :: _) => negb (bool_decide (k = "type"))
  | _ => false
  end.




(** A choice leaf after the second inner loop of [dictToTree]: every field
    is an option name with an entry in [siblings]. *)
Definition choice_ready (typesleaf : Node) : Prop :=
  forall i x, data typesleaf !! i = Some x ->
    exists name sibs, x = PStr name /\ dict_get name (siblings typesleaf) = Some sibs.

(** Parents and children agree: a node is among the children of its
    parent, and the parent of a child of a node is that node. *)
Definition tree_consistent (m : TreeModel) : Prop :=
  (forall c nc p, nodes m !! c = Some nc -> parent nc = Some p ->
     exists np, nodes m !! p = Some np /\ c ∈ children np) /\
  (forall p np c, nodes m !! p = Some np -> c ∈ children np ->
     exists nc, nodes m !! c = Some nc /\ parent nc = Some p).

(** [x] is the sibling of the node [t] called [param]: a child of the
    parent of [t] whose first field is [param]. *)
Definition sibling_called (m : TreeModel) (t : nat) (param : string) (x : nat)
  : Prop :=
  exists nt p np nx,
    nodes m !! t = Some nt /\ parent nt = Some p /\ nodes m !! p = Some np /\
    x ∈ children np /\ nodes m !! x = Some nx /\ getData nx 0 = PStr param.

(** The name of an option string, and the siblings its parameters name in
    [sibsdict]. *)
Definition field_name (x : pyval) : string :=
  match x with
  | PStr s => hd "" (py_split delim s)
  | _ => ""
  end.


(** ** Sample configurations *)

(** The model of a template when its construction returns. *)
Definition built (dictionary : pyval) : TreeModel :=
  match TreeModel_init dictionary with
  | Ok m => m
  | Raise _ => mkModel [] 0 [] []
  end.

(** A density section with the choice already merged: [exponential] is
    selected. *)
Definition density_template : pyval :=
  PDict [("density", PDict
    [("type", required (PList [PStr "exponential|_:_|time_0|_:_|rho_0";
                               PStr "uniform|_:_|value"]));
     ("value", required PNone);
     ("time_0", required PNone);
     ("rho_0", required PNone)])].

(** Three options with parameters of their own. *)
Definition three_way_template : pyval :=
  PDict [("type", required (PList [PStr "A|_:_|a1|_:_|a2"; PStr "B|_:_|b1";
                                   PStr "C|_:_|c1"]));
         ("a1", required PNone);
         ("a2", required PNone);
         ("b1", required PNone);
         ("c1", required PNone)].



(** A template the serialisation gives back. *)
Definition roundtrip_template : pyval :=
  PDict [("type", required (PList [PStr "uniform"; PStr "file|_:_|filename"]));
         ("value", required (PInt 5));
         ("nlte", PDict [("coronal_approximation", optional (PBool false));
                         ("classical_nebular", optional (PBool false))])].

(** A template whose top level has a single key. *)
Definition single_key_template : pyval :=
  PDict [("density", PDict [("value", required (PInt 5));
                            ("time_0", required (PInt 2))])].


(** Induction over values, through the lists and dicts they nest. *)
Section pyval_induction.
Variable P : pyval -> Prop.
Hypothesis HNone : P PNone.
Hypothesis HBool : forall b, P (PBool b).
Hypothesis HInt : forall z, P (PInt z).
Hypothesis HFloat : forall s, P (PFloat s).
Hypothesis HStr : forall s, P (PStr s).
Hypothesis HList : forall l, Forall P l -> P (PList l).
Hypothesis HDict : forall items, Forall (fun kv => P (snd kv)) items -> P (PDict items).

Fixpoint pyval_nested_ind (v : pyval) : P v :=
  match v with
  | PNone => HNone
  | PBool b => HBool b
  | PInt z => HInt z
  | PFloat s => HFloat s
  | PStr s => HStr s
  | PList l =>
      HList l
        ((fix go (l : list pyval) : Forall P l :=
            match l with
            | [] => List.Forall_nil P
            | x :: r => List.Forall_cons P x r (pyval_nested_ind x) (go r)
            end) l)
  | PDict items =>
      HDict items
        ((fix go (items : list (string * pyval))
            : Forall (fun kv => P (snd kv)) items :=
            match items with
            | [] => List.Forall_nil _
            | kv :: r => List.Forall_cons _ kv r (pyval_nested_ind (snd kv)) (go r)
            end) items)
  end.
End pyval_induction.

(** * The model interface, the delegate and the table model

    The rest of the classes of the configuration editor: the remaining
    methods of [Node], the methods by which a Qt view reads and writes a
    [TreeModel], the whole of [TreeDelegate.setModelData], and the data side
    of [SimpleTableModel]. *)

(** ** class Node: the remaining methods *)

(** [Node.getParent]. *)
Definition getParent (n : Node) : option nat := parent n.

(** The outcome of a method that searches a list with [list.index], which
    raises [ValueError] when the element is missing. *)
Inductive search (A : Type) : Type :=
| Found (a : A)
| ValueError
| Fails (e : exn).
Arguments Found {A} a.
Arguments ValueError {A}.
Arguments Fails {A} e.

(** [Node.getIndexOfSelf]: the place of the node among the children of its
    parent, and 0 for a node without parent.  A node is an object without
    [__len__] or [__nonzero__], so [if self.parent] asks whether the parent
    is [None]; [index] compares nodes by identity. *)
Definition getIndexOfSelf (m : TreeModel) (self : nat) : search nat :=
  match node_at m self with
  | Ok n =>
      match parent n with
      | Some p =>
          match node_at m p with
          | Ok np =>
              match index_of self (children np) with
              | Some i => Found i
              | None => ValueError
              end
          | Raise e => Fails e
          end
      | None => Found 0
      end
  | Raise e => Fails e
  end.

(** ** QModelIndex *)

(** What the code uses of a [QModelIndex]: its row, its column and the node
    it points to.  The default [QModelIndex()] is invalid; an index made by
    [createIndex] belongs to the model and is valid when neither its row nor
    its column is negative. *)
Record QModelIndex : Type := mkIndex {
  index_row : Z;
  index_column : Z;
  internalPointer : option nat;
  of_model : bool
}.

Definition QModelIndex_init : QModelIndex := mkIndex (-1) (-1) None false.

Definition createIndex (row column : Z) (ptr : option nat) : QModelIndex :=
  mkIndex row column ptr true.

Definition isValid (index : QModelIndex) : bool :=
  (0 <=? index_row index)%Z && (0 <=? index_column index)%Z && of_model index.

Inductive ItemDataRole : Type := DisplayRole | EditRole | OtherRole.
Inductive Orientation : Type := Horizontal | Vertical.

Definition is_DisplayRole (role : ItemDataRole) : bool :=
  match role with DisplayRole => true | _ => false end.
Definition is_EditRole (role : ItemDataRole) : bool :=
  match role with EditRole => true | _ => false end.
Definition is_Horizontal (o : Orientation) : bool :=
  match o with Horizontal => true | Vertical => false end.

(** The item flags the model hands out. *)
Record ItemFlags : Type := mkFlags {
  ItemIsEditable : bool;
  ItemIsEnabled : bool;
  ItemIsSelectable : bool
}.
Definition NoItemFlags : ItemFlags := mkFlags false false false.

(** The signals the models emit. *)
Inductive Signal : Type :=
| dataChanged (topLeft bottomRight : QModelIndex)
| headerDataChanged (orientation : Orientation) (first last : Z).

(** ** class TreeModel: the interface of the view *)

(** [TreeModel.getItem]. *)
Definition TreeModel_getItem (m : TreeModel) (index : QModelIndex) : nat :=
  if isValid index then
    match internalPointer index with
    | Some item => item
    | None => root m
    end
  else root m.

(** [TreeModel.columnCount]. *)
Definition TreeModel_columnCount (m : TreeModel) (index : QModelIndex) : result nat :=
  if isValid index then
    let* n := deref m (internalPointer index) in Ok (numColumns n)
  else
    let* r := node_at m (root m) in Ok (numColumns r).

(** [TreeModel.data]. *)
Definition TreeModel_data (m : TreeModel) (index : QModelIndex) (role : ItemDataRole)
  : result pyval :=
  if negb (isValid index) then Ok PNone
  else if negb (is_DisplayRole role) then Ok PNone
  else
    let* item := deref m (internalPointer index) in
    Ok (getData item (index_column index)).

(** [TreeModel.flags].  [None in self.disabledNodes] is false: the list
    holds nodes. *)
Definition TreeModel_flags (m : TreeModel) (index : QModelIndex) : result ItemFlags :=
  if negb (isValid index) then Ok NoItemFlags
  else
    let* node := deref m (internalPointer index) in
    if is_disabled m (getParent node) || is_disabled m (internalPointer index)
    then Ok NoItemFlags
    else if numChildren node =? 0 then Ok (mkFlags true true true)
    else Ok (mkFlags false true true).

(** [TreeModel.headerData]. *)
Definition TreeModel_headerData (m : TreeModel) (section : Z) (orientation : Orientation)
    (role : ItemDataRole) : result pyval :=
  if is_Horizontal orientation && is_DisplayRole role then
    let* r := node_at m (root m) in Ok (getData r section)
  else Ok PNone.

(** [TreeModel.index]. *)
Definition TreeModel_index (m : TreeModel) (row column : Z) (parent : QModelIndex)
  : result QModelIndex :=
  if isValid parent && negb (index_column parent =? 0)%Z then Ok QModelIndex_init
  else
    let parentItem := TreeModel_getItem m parent in
    let* n := node_at m parentItem in
    let* childItem := getChild n row in
    match childItem with
    | Some c => Ok (createIndex row column (Some c))
    | None => Ok QModelIndex_init
    end.

(** [TreeModel.parent]. *)
Definition TreeModel_parent (m : TreeModel) (index : QModelIndex) : search QModelIndex :=
  if negb (isValid index) then Found QModelIndex_init
  else
    match deref m (internalPointer index) with
    | Ok childItem =>
        match getParent childItem with
        | Some parentItem =>
            if decide (parentItem = root m) then Found QModelIndex_init
            else
              match getIndexOfSelf m parentItem with
              | Found i => Found (createIndex (Z.of_nat i) 0 (Some parentItem))
              | ValueError => ValueError
              | Fails e => Fails e
              end
        | None => Fails AttributeError
        end
    | Raise e => Fails e
    end.

(** [TreeModel.rowCount]. *)
Definition TreeModel_rowCount (m : TreeModel) (parent : QModelIndex) : result nat :=
  let* n := node_at m (TreeModel_getItem m parent) in Ok (numChildren n).

(** [TreeModel.setData]: the success flag, the model after the call and the
    signals emitted. *)
Definition TreeModel_setData (m : TreeModel) (index : QModelIndex) (value : pyval)
    (role : ItemDataRole) : result (bool * TreeModel * list Signal) :=
  if negb (is_EditRole role) then Ok (false, m, [])
  else
    let item := TreeModel_getItem m index in
    let* n := node_at m item in
    let (result, n') := setData n (index_column index) value in
    if result
    then Ok (true, update_node item (fun _ => n') m, [dataChanged index index])
    else Ok (false, m, []).

(** [TreeModel.setHeaderData]. *)
Definition TreeModel_setHeaderData (m : TreeModel) (section : Z)
    (orientation : Orientation) (value : pyval) (role : ItemDataRole)
  : result (bool * TreeModel * list Signal) :=
  if negb (is_EditRole role) || negb (is_Horizontal orientation) then Ok (false, m, [])
  else
    let* r := node_at m (root m) in
    let (result, r') := setData r section value in
    if result
    then Ok (true, update_node (root m) (fun _ => r') m,
             [headerDataChanged orientation section section])
    else Ok (false, m, []).

(** ** class TreeDelegate: the whole of setModelData *)

(** The editors [createEditor] makes. *)
Inductive QWidget : Type :=
| ComboBox (combobox : QComboBox)
| LineEdit (text : string).

(** What [setModelData] did: it changed the model itself, or left the call
    to [QStyledItemDelegate.setModelData]. *)
Inductive Handled : Type :=
| Done (model : TreeModel)
| Superclass.

Section Delegate.

(** [str(x)] for a field [x]; on a string it is the string. *)
Variable py_str : pyval -> string.

(** [TreeDelegate.setModelData].  Both branches for a node with several
    fields ask the editor for [currentIndex()], which a line edit does not
    have. *)
Definition TreeDelegate_setModelData (editor : QWidget) (model : TreeModel)
    (index : QModelIndex) : result Handled :=
  match internalPointer index with
  | None => Raise AttributeError
  | Some nd =>
      let* node := node_at model nd in
      if 1 <? numColumns node then
        let* p := deref model (getParent node) in
        let is_type := match getData p 0 with
                       | PStr s => bool_decide (s = "type")
                       | _ => false
                       end in
        match editor with
        | LineEdit _ => Raise AttributeError
        | ComboBox combobox =>
            let selectedIndex := currentIndex combobox in
            let firstItem := getData node 0 in
            let n1 := snd (setData node 0 (PStr (currentText combobox))) in
            let n2 := snd (setData n1 selectedIndex (PStr (py_str firstItem))) in
            if negb is_type then Ok (Done (update_node nd (fun _ => n2) model))
            else
              let* itemsToDisable := siblings_get n2 firstItem in
              let* itemsToEnable := siblings_get n2 (PStr (currentText combobox)) in
              let disabled :=
                enable_all itemsToEnable (disabledNodes model ++ itemsToDisable) in
              Ok (Done (with_disabled disabled (update_node nd (fun _ => n2) model)))
        end
      else
        match editor with
        | LineEdit text =>
            Ok (Done (update_node nd (fun _ => snd (setData node 0 (PStr text))) model))
        | ComboBox _ => Ok Superclass
        end
  end.

End Delegate.

(** ** class SimpleTableModel: the data *)

(** [l[i] = x] with Python's negative indices. *)
Definition py_setitem {A : Type} (l : list A) (i : Z) (x : A) : result (list A) :=
  let n := Z.of_nat (length l) in
  let j := if (i <? 0)%Z then (i + n)%Z else i in
  if ((j <? 0) || (n <=? j))%Z then Raise IndexError
  else Ok (<[Z.to_nat j := x]> l).

(** The table holds its data column by column.  A column is a list of its
    own here, as the callers in the file add them (a fresh [tolist()] or a
    list built for the table); one list object added as two columns would
    share its cells, which this record does not express. *)
Record SimpleTableModel : Type := mkTable {
  arraydata : list (list pyval)
}.

(** [SimpleTableModel.__init__] leaves the table without data. *)
Definition SimpleTableModel_init : SimpleTableModel := mkTable [].

(** [SimpleTableModel.addData]. *)
Definition addData (datain : list pyval) (t : SimpleTableModel) : SimpleTableModel :=
  mkTable (arraydata t ++ [datain]).

(** [SimpleTableModel.rowCount]: the length of the first column. *)
Definition SimpleTableModel_rowCount (t : SimpleTableModel) : result nat :=
  let* first := py_index (arraydata t) 0 in Ok (length first).

(** [SimpleTableModel.columnCount]. *)
Definition SimpleTableModel_columnCount (t : SimpleTableModel) : nat :=
  length (arraydata t).

(** [SimpleTableModel.data]. *)
Definition SimpleTableModel_data (t : SimpleTableModel) (index : QModelIndex)
    (role : ItemDataRole) : result pyval :=
  if negb (isValid index) then Ok PNone
  else if negb (is_DisplayRole role) then Ok PNone
  else
    let* col := py_index (arraydata t) (index_column index) in
    py_index col (index_row index).

(** [SimpleTableModel.setData]. *)
Definition SimpleTableModel_setData (t : SimpleTableModel) (index : QModelIndex)
    (value : pyval) (role : ItemDataRole)
  : result (bool * SimpleTableModel * list Signal) :=
  if negb (isValid index) then Ok (false, t, [])
  else if negb (is_EditRole role) then Ok (false, t, [])
  else
    let* col := py_index (arraydata t) (index_column index) in
    let* col' := py_setitem col (index_row index) value in
    let* arraydata' := py_setitem (arraydata t) (index_column index) col' in
    Ok (true, mkTable arraydata', [dataChanged index index]).

(** The body of the inner loop of [updateTable]: the cell at row [r] and
    column [c] is written to with the value it holds. *)
Definition updateTable_cell (r c : Z) (st : SimpleTableModel * list Signal)
  : result (SimpleTableModel * list Signal) :=
  let (t, signals) := st in
  let index := createIndex r c None in
  let* col := py_index (arraydata t) c in
  let* value := py_index col r in
  let* res := SimpleTableModel_setData t index value EditRole in
  let '(_, t', emitted) := res in
  Ok (t', signals ++ emitted).

(** The body of the outer loop: [for c in range(self.columnCount())]. *)
Definition updateTable_row (r : Z) (st : SimpleTableModel * list Signal)
  : result (SimpleTableModel * list Signal) :=
  for_each (updateTable_cell r) (py_range 0 (SimpleTableModel_columnCount (fst st))) st.

(** [SimpleTableModel.updateTable]: the table after the call and the signals
    emitted, in order. *)
Definition SimpleTableModel_updateTable (t : SimpleTableModel)
  : result (SimpleTableModel * list Signal) :=
  let* rows := SimpleTableModel_rowCount t in
  for_each updateTable_row (py_range 0 rows) (t, []).

(** ** Definitions used by the statements *)

(** The tree of a model: parents and children agree, no node is twice among
    the children of a node, the root is node 0 and the only node without a
    parent. *)
Definition well_formed_tree (m : TreeModel) : Prop :=
  tree_consistent m /\
  (forall p np, nodes m !! p = Some np -> NoDup (children np)) /\
  root m = 0 /\
  (forall c nc, nodes m !! c = Some nc -> parent nc = None <-> c = 0) /\
  is_Some (nodes m !! 0).

(** An index of the model as [TreeModel.index] makes them. *)
Definition index_of_model (m : TreeModel) (index : QModelIndex) : Prop :=
  exists row column parent,
    TreeModel_index m row column parent = Ok index /\ isValid index = true.


(** Every type node has its choice leaf right behind it, a leaf under a
    node called 'type' whose fields are option names with an entry in
    [siblings] each. *)
Definition choice_leaves_ready (m : TreeModel) : Prop :=
  forall t, t ∈ typenodes m ->
    exists leaf,
      typesleaf_of m t = Some (S t, leaf) /\
      parent leaf = Some t /\ children leaf = [] /\
      under_type m leaf = Ok true /\ choice_ready leaf.

(** One [dataChanged] for every cell of a table of [rows] rows and [cols]
    columns, row by row. *)
Definition cell_signals (rows cols : nat) : list Signal :=
  flat_map (fun r => map (fun c => dataChanged (createIndex r c None) (createIndex r c None))
                         (py_range 0 cols))
           (py_range 0 rows).

(** Every list entry of a dict, at any depth of the nested dicts, has its
    two elements. *)
Fixpoint entries_paired (v : pyval) : bool :=
  match v with
  | PDict items => forallb (fun kv => entries_paired (snd kv)) items
  | PList (_ :: _ :: _) => true
  | PList _ => false
  | _ => true
  end.

(** The options of every list entry under a key called [type], at any depth
    of the nested dicts, are strings: the fields of the choice leaf that
    [treeFromNode] makes for the entry. *)
Fixpoint options_are_strings (v : pyval) : bool :=
  match v with
  | PDict items =>
      forallb (fun kv =>
                 match snd kv with
                 | PDict _ => options_are_strings (snd kv)
                 | PList (_ :: second :: _) =>
                     negb (bool_decide (fst kv = "type")) || forallb is_str (leaf_data second)
                 | _ => true
                 end) items
  | _ => true
  end.

(** The condition of [options_are_strings] on one entry of a dict. *)
Definition item_strings (k : string) (v : pyval) : bool :=
  match v with
  | PDict _ => options_are_strings v
  | PList (_ :: second :: _) =>
      negb (bool_decide (k = "type")) || forallb is_str (leaf_data second)
  | _ => true
  end.

(** A key node: its one field is the key. *)
Definition keyed (m : TreeModel) (c : nat) : Prop :=
  exists nc k, nodes m !! c = Some nc /\ data nc = [PStr k].

(** Every child of the node [r] is a key node. *)
Definition keyed_children (m : TreeModel) (r : nat) : Prop :=
  exists nr, nodes m !! r = Some nr /\ forall c, c ∈ children nr -> keyed m c.

(** The node [t] has a parent, and its siblings are key nodes. *)
Definition parent_keyed (m : TreeModel) (t : nat) : Prop :=
  exists nt p, nodes m !! t = Some nt /\ parent nt = Some p /\ keyed_children m p.

(** The fields of the leaf behind the type node [t] are strings. *)
Definition leaf_strings (m : TreeModel) (t : nat) : bool :=
  match nodes m !! S t with
  | Some leaf => forallb is_str (data leaf)
  | None => false
  end.

(** Every node is still there, with the fields it had. *)
Definition data_kept (m m' : TreeModel) : Prop :=
  forall i n, nodes m !! i = Some n ->
    exists n', nodes m' !! i = Some n' /\ data n' = data n.

(** What the user configuration puts in the place of an entry of the
    template that is neither a section nor a list: the merge stores the
    user value as it is, so a list among these values has to have its two
    elements. *)
Fixpoint user_paired (U : pyval) (T : list (string * pyval)) : bool :=
  match U with
  | PDict items =>
      forallb (fun kv =>
                 match dict_get (fst kv) T with
                 | Some (PDict sub) => user_paired (snd kv) sub
                 | Some (PList _) => true
                 | Some _ => entries_paired (snd kv)
                 | None => true
                 end) items
  | _ => true
  end.

(** The keys called [type] that the user configuration brings along, under
    a key that the template does not have in that section or in a value
    stored as it is, hold a string or a list of strings. *)
Fixpoint user_strings (U : pyval) (T : list (string * pyval)) : bool :=
  match U with
  | PDict items =>
      forallb (fun kv =>
                 match dict_get (fst kv) T with
                 | Some (PDict sub) => user_strings (snd kv) sub
                 | Some (PList _) => true
                 | Some _ => item_strings (fst kv) (snd kv)
                 | None => negb (bool_decide (fst kv = "type"))
                           || forallb is_str (leaf_data (snd kv))
                 end) items
  | _ => true
  end.

(** The entry of a dict at a path of rows: row [i] of a dict is its [i]-th
    item, and the rows after it lead through the dict this item holds. *)
Fixpoint entry_at (items : list (string * pyval)) (rows : list nat)
  : option (string * pyval) :=
  match rows with
  | [] => None
  | i :: rest =>
      match items !! i with
      | Some (k, v) =>
          match rest, v with
          | [], _ => Some (k, v)
          | _ :: _, PDict sub => entry_at sub rest
          | _ :: _, _ => None
          end
      | None => None
      end
  end.

(** [index(row, 0, parent)] along a path of rows, as a view descends. *)
Fixpoint index_path (m : TreeModel) (rows : list nat) (parent : QModelIndex)
  : result QModelIndex :=
  match rows with
  | [] => Ok parent
  | i :: rest =>
      let* index := TreeModel_index m (Z.of_nat i) 0 parent in
      index_path m rest index
  end.

(** The rows a view finds below the key of an entry: the keys of a section,
    the one leaf of a list entry. *)
Definition rows_below (v : pyval) : nat :=
  match v with
  | PDict sub => length sub
  | PList _ => 1
  | _ => 0
  end.

(** ** Sample inputs *)

(** [str] on strings, for the examples; they hold no other fields. *)
Definition str_of_field (x : pyval) : string :=
  match x with
  | PStr s => s
  | _ => ""
  end.

(** A list of values under a key that is not called [type], and a number. *)
Definition list_template : pyval :=
  PDict [("lines", required (PList [PStr "scatter"; PStr "downbranch"; PStr "macroatom"]));
         ("seed", required (PInt 1))].

(** * Properties *)

(** ** Tools *)

Example split_option :
  py_split delim "exponential|_:_|time_0|_:_|rho_0" = ["exponential"; "time_0"; "rho_0"].
Proof. reflexivity. Qed.

Example split_plain : py_split delim "uniform" = ["uniform"].
Proof. reflexivity. Qed.

Example split_edges : py_split delim "|_:_|a|_:|_:_|" = [""; "a|_:"; ""].
Proof. reflexivity. Qed.

Example matchDicts_choice :
  matchDicts
    (PDict [("type", PStr "exponential"); ("time_0", PInt 5)])
    [("type", PList [PBool true; PList [PStr "uniform|_:_|value";
                                       PStr "exponential|_:_|time_0|_:_|rho_0"]]);
     ("value", PList [PBool true; PNone]);
     ("time_0", PList [PBool true; PNone])]
  = Ok [("type", PList [PBool true; PList [PStr "exponential|_:_|time_0|_:_|rho_0";
                                          PStr "uniform|_:_|value"]]);
        ("value", PList [PBool true; PNone]);
        ("time_0", PList [PBool true; PNone])].
Proof. vm_compute. reflexivity. Qed.

Section DictFacts.
Context {V : Type}.
Implicit Types (d : list (string * V)) (k : string) (v : V).

Lemma dict_get_set_eq d k v : dict_get k (dict_set k v d) = Some v.
Proof.
  induction d as [|[k' v'] d IH]; simpl.
  - by rewrite decide_True.
  - destruct (decide (k = k')) as [->|Hne]; simpl.
    + by rewrite decide_True.
    + by rewrite decide_False.
Qed.

Lemma dict_get_set_ne d k k' v : k <> k' -> dict_get k' (dict_set k v d) = dict_get k' d.
Proof.
  intros Hne. induction d as [|[k0 v0] d IH]; simpl.
  - rewrite decide_False; [done | congruence].
  - destruct (decide (k = k0)) as [->|Hk]; simpl.
    + rewrite !decide_False; [done | congruence | congruence].
    + destruct (decide (k' = k0)); [done | apply IH].
Qed.


Lemma dict_get_None_keys d k : dict_get k d = None <-> k ∉ dict_keys d.
Proof.
  induction d as [|[k' v'] d IH]; simpl.
  - split; [intros _ H; inversion H | done].
  - rewrite not_elem_of_cons. destruct (decide (k = k')) as [->|Hne].
    + split; [done | intros [? _]; done].
    + rewrite IH. tauto.
Qed.


End DictFacts.

Lemma bind_Ok {A B} (m : result A) (k : A -> result B) (b : B) :
  bind m k = Ok b -> exists a, m = Ok a /\ k a = Ok b.
Proof. destruct m; simpl; [eauto | discriminate]. Qed.

Lemma for_each_app {A S} (body : A -> S -> result S) xs ys st :
  for_each body (xs ++ ys) st = let* st' := for_each body xs st in for_each body ys st'.
Proof.
  revert st. induction xs as [|x xs IH]; intros st; simpl; [done|].
  destruct (body x st); simpl; [apply IH | done].
Qed.

(** A property kept by every round of a loop that returns is kept by the
    loop. *)
Lemma for_each_invariant {A S} (body : A -> S -> result S) (I : S -> Prop) xs :
  (forall x st st', x ∈ xs -> I st -> body x st = Ok st' -> I st') ->
  forall st st', I st -> for_each body xs st = Ok st' -> I st'.
Proof.
  induction xs as [|x xs IH]; intros Hstep st st' HI Hrun; simpl in Hrun.
  - by inversion Hrun; subst.
  - apply bind_Ok in Hrun as (st1 & Hx & Hrest).
    eapply IH; [ | | exact Hrest].
    + intros y s s' Hy. apply Hstep. by apply list_elem_of_further.
    + eapply Hstep; [apply list_elem_of_here | exact HI | exact Hx].
Qed.

Lemma matchDicts_items items dict2 :
  matchDicts (PDict items) dict2 = for_each merge_item items dict2.
Proof.
  revert dict2. induction items as [|[key value1] items IH]; intros dict2; [done|].
  simpl. destruct (dict_get key dict2) as [[]|]; simpl;
    try apply IH; try (destruct (matchDicts value1 _); simpl; [apply IH | done]).
  destruct (py_index l 1) as [[]|]; simpl; try apply IH; try done.
  destruct (map_result option_name l0); simpl; [|done].
  destruct (index_in_names value1 a); simpl; [|done].
  destruct (py_index l0 0); simpl; [|done].
  destruct (py_index l0 _); simpl; [apply IH | done].
Qed.

(** ** Navigation past the end of a node *)

Lemma py_index_nat {A} (l : list A) (i : nat) (x : A) :
  l !! i = Some x -> py_index l (Z.of_nat i) = Ok x.
Proof.
  intros H. pose proof (lookup_lt_Some _ _ _ H) as Hlt. unfold py_index.
  destruct (Z.ltb_spec (Z.of_nat i) 0); [lia|].
  destruct (Z.ltb_spec (Z.of_nat i) 0); [lia|].
  destruct (Z.leb_spec (Z.of_nat (length l)) (Z.of_nat i)); [lia|].
  simpl. by rewrite Nat2Z.id, H.
Qed.

Lemma py_index_past {A} (l : list A) (i : Z) :
  (Z.of_nat (length l) <= i)%Z -> py_index l i = Raise IndexError.
Proof.
  intros H. unfold py_index.
  destruct (Z.ltb_spec i 0); [lia|].
  destruct (Z.ltb_spec i 0); [lia|].
  destruct (Z.leb_spec (Z.of_nat (length l)) i); [done | lia].
Qed.

Lemma py_index_0 {A} (l : list A) (x : A) : l !! 0 = Some x -> py_index l 0 = Ok x.
Proof. apply (py_index_nat l 0). Qed.

Lemma py_index_1 {A} (l : list A) (x : A) : l !! 1 = Some x -> py_index l 1 = Ok x.
Proof. apply (py_index_nat l 1). Qed.

(** C8.  For every node and index: [getChild] at or past the number of
    children returns [None] and does not raise; [getData] at or past the
    number of fields returns [None]; [setData] at a negative column or at or
    past the number of fields returns false and leaves the node as it was;
    [setData] at a column in range returns true and overwrites that field,
    and only that field. *)
Theorem out_of_range_is_absent (n : Node) (i : Z) (value : pyval) :
  ((Z.of_nat (numChildren n) <= i)%Z -> getChild n i = Ok None) /\
  ((Z.of_nat (numColumns n) <= i)%Z -> getData n i = PNone) /\
  ((i < 0)%Z \/ (Z.of_nat (numColumns n) <= i)%Z -> setData n i value = (false, n)) /\
  ((0 <= i < Z.of_nat (numColumns n))%Z ->
     exists n', setData n i value = (true, n') /\
       data n' !! Z.to_nat i = Some value /\
       (forall j, j <> Z.to_nat i -> data n' !! j = data n !! j) /\
       numColumns n' = numColumns n /\
       children n' = children n /\ parent n' = parent n /\ siblings n' = siblings n).
Proof.
  repeat split.
  - intros H. unfold getChild. destruct (Z.ltb_spec i (Z.of_nat (numChildren n))); [lia | done].
  - intros H. unfold getData. by rewrite py_index_past.
  - intros H. unfold setData.
    destruct (Z.ltb_spec i 0); [done|].
    destruct (Z.leb_spec (Z.of_nat (numColumns n)) i); [done | lia].
  - intros [H0 H1]. unfold setData.
    destruct (Z.ltb_spec i 0); [lia|].
    destruct (Z.leb_spec (Z.of_nat (numColumns n)) i); [lia|]. simpl.
    eexists; split; [done|]. simpl. unfold numColumns in *. simpl.
    repeat split.
    + apply list_lookup_insert_eq. lia.
    + intros j Hj. by apply list_lookup_insert_ne.
    + apply length_insert.
Qed.

Lemma out_of_range_is_absent_witness :
  let n := mkNode None [1; 2] [PStr "uniform"; PStr "exponential"] [] in
  getChild n 2 = Ok None /\ getData n 5 = PNone /\
  setData n (-1) PNone = (false, n) /\ setData n 2 PNone = (false, n) /\
  exists n', setData n 1 (PStr "file") = (true, n') /\ data n' !! 1 = Some (PStr "file").
Proof.
  intros n.
  split; [apply (out_of_range_is_absent n 2 PNone); unfold n, numChildren; simpl; lia|].
  split; [apply (out_of_range_is_absent n 5 PNone); unfold n, numColumns; simpl; lia|].
  split; [apply (out_of_range_is_absent n (-1) PNone); left; lia|].
  split; [apply (out_of_range_is_absent n 2 PNone); right; unfold n, numColumns; simpl; lia|].
  destruct (out_of_range_is_absent n 1 (PStr "file")) as (_ & _ & _ & H).
  destruct H as (n' & Hset & Hget & _); [unfold n, numColumns; simpl; lia|].
  exists n'. split; [exact Hset | exact Hget].
Defined.

(** ** The merge *)

(** C1.  A user value for a key whose template entry is a pair
    [[required, default]] with a default that is not a list is dropped: the
    assignment of [matchDicts] sits on the [else] of the outer [isinstance]
    chain, so it is reached only by entries that are neither a dict nor a
    list.  The merge of [{'time_0': u}] into [{'time_0': [True, None]}]
    returns and leaves the template as it was, for every user value [u]; for
    the scenario of the merged density configuration the two user values 5
    and 2 are lost and only the choice is recorded. *)
Theorem matchDicts_keeps_default_of_pair :
  (forall u : pyval,
     matchDicts (PDict [("time_0", u)]) [("time_0", required PNone)]
     = Ok [("time_0", required PNone)]) /\
  matchDicts
    (PDict [("density", PDict [("type", PStr "exponential");
                               ("time_0", PInt 5); ("rho_0", PInt 2)])])
    [("density", PDict
       [("type", required (PList [PStr "uniform|_:_|value";
                                  PStr "exponential|_:_|time_0|_:_|rho_0"]));
        ("value", required PNone);
        ("time_0", required PNone);
        ("rho_0", required PNone)])]
  = Ok [("density", PDict
       [("type", required (PList [PStr "exponential|_:_|time_0|_:_|rho_0";
                                  PStr "uniform|_:_|value"]));
        ("value", required PNone);
        ("time_0", required PNone);
        ("rho_0", required PNone)])].
Proof. split; [intros u|]; reflexivity. Qed.

(** Taking a returned computation apart. *)
Ltac inv_ok :=
  repeat match goal with
  | H : Ok _ = Ok _ |- _ => inversion H; subst; clear H
  | H : Raise _ = Ok _ |- _ => discriminate H
  | H : Ok _ = Raise _ |- _ => discriminate H
  | H : bind _ _ = Ok _ |- _ => apply bind_Ok in H as (? & ? & H)
  | H : (match ?x with _ => _ end) = Ok _ |- _ => destruct x eqn:?; try discriminate H
  | H : (if ?x then _ else _) = Ok _ |- _ => destruct x eqn:?; try discriminate H
  end.

(** One round of the merge touches the entry of its own key only. *)
Lemma merge_item_frame k v d d' k' :
  merge_item (k, v) d = Ok d' -> k' <> k -> dict_get k' d' = dict_get k' d.
Proof.
  unfold merge_item. intros H Hne. inv_ok; try done;
    by rewrite dict_get_set_ne by congruence.
Qed.

Lemma merge_loop_frame items d d' k' :
  for_each merge_item items d = Ok d' -> k' ∉ dict_keys items ->
  dict_get k' d' = dict_get k' d.
Proof.
  revert d. induction items as [|[k v] items IH]; intros d Hrun Hk; simpl in *.
  - by inv_ok.
  - apply not_elem_of_cons in Hk as [Hne Hk].
    apply bind_Ok in Hrun as (d1 & H1 & Hrest).
    rewrite (IH _ Hrest Hk). eapply merge_item_frame; eauto.
Qed.

(** A key the template lacks is added with the flag [False]. *)
Lemma merge_loop_unknown items d d' k v :
  NoDup (dict_keys items) -> dict_get k items = Some v -> dict_get k d = None ->
  for_each merge_item items d = Ok d' ->
  dict_get k d' = Some (PList [PBool false; v]).
Proof.
  revert d. induction items as [|[k0 v0] items IH]; intros d Hnd Hget Hd Hrun;
    simpl in *; [done|].
  apply NoDup_cons in Hnd as [Hk0 Hnd].
  apply bind_Ok in Hrun as (d1 & H1 & Hrest).
  revert Hget. destruct (decide (k = k0)) as [->|Hne]; intros Hget.
  - inversion Hget; subst. rewrite (merge_loop_frame _ _ _ _ Hrest Hk0).
    unfold merge_item in H1. rewrite Hd in H1. inv_ok. apply dict_get_set_eq.
  - apply (IH d1 Hnd Hget); [|exact Hrest].
    by rewrite (merge_item_frame _ _ _ _ _ H1 Hne).
Qed.

(** A key whose template entry is a dict is merged by the recursive call. *)
Lemma merge_loop_nested items d d' k u sub :
  NoDup (dict_keys items) -> dict_get k items = Some u ->
  dict_get k d = Some (PDict sub) ->
  for_each merge_item items d = Ok d' ->
  exists sub', matchDicts u sub = Ok sub' /\ dict_get k d' = Some (PDict sub').
Proof.
  revert d. induction items as [|[k0 v0] items IH]; intros d Hnd Hget Hd Hrun;
    simpl in *; [done|].
  apply NoDup_cons in Hnd as [Hk0 Hnd].
  apply bind_Ok in Hrun as (d1 & H1 & Hrest).
  revert Hget. destruct (decide (k = k0)) as [->|Hne]; intros Hget.
  - inversion Hget; subst. rewrite (merge_loop_frame _ _ _ _ Hrest Hk0).
    unfold merge_item in H1. rewrite Hd in H1.
    apply bind_Ok in H1 as (sub' & Hsub & H1). inv_ok.
    exists sub'. split; [done | apply dict_get_set_eq].
  - apply (IH d1 Hnd Hget); [|exact Hrest].
    by rewrite (merge_item_frame _ _ _ _ _ H1 Hne).
Qed.

Lemma wf_dicts_PDict items :
  wf_dicts (PDict items) = true ->
  NoDup (dict_keys items) /\ forall k v, dict_get k items = Some v -> wf_dicts v = true.
Proof.
  simpl. intros [Hnd Hall]%andb_prop. split; [by apply bool_decide_eq_true in Hnd|].
  clear Hnd. induction items as [|[k0 v0] items IH]; simpl in *; [done|].
  apply andb_prop in Hall as [H0 Hall]. intros k v.
  destruct (decide (k = k0)); [by intros [= <-] | by apply IH].
Qed.

(** C9.  A key of the user configuration that the template lacks, at the
    top level or inside nested dicts that both hold, is in the merged
    template with the pair [[False, user value]]. *)
Theorem unknown_keys_are_kept (path : list string) :
  forall (U : pyval) (T T' d : list (string * pyval)) (k : string) (v : pyval),
  wf_dicts U = true ->
  matchDicts U T = Ok T' ->
  lookup_path (path ++ [k]) U = Some v ->
  lookup_path path (PDict T) = Some (PDict d) ->
  dict_get k d = None ->
  lookup_path (path ++ [k]) (PDict T') = Some (PList [PBool false; v]).
Proof.
  induction path as [|k0 path IH]; intros U T T' d k v Hwf Hrun HU HT Hk; simpl in *.
  - destruct U as [| | | | | |items]; try discriminate.
    destruct (dict_get k items) as [v'|] eqn:Hget; [|discriminate].
    inversion HU; inversion HT; subst.
    apply wf_dicts_PDict in Hwf as [Hnd _]. rewrite matchDicts_items in Hrun.
    by rewrite (merge_loop_unknown _ _ _ _ _ Hnd Hget Hk Hrun).
  - destruct U as [| | | | | |items]; try discriminate.
    destruct (dict_get k0 items) as [u0|] eqn:Hget; [|discriminate].
    destruct (dict_get k0 T) as [t0|] eqn:HgetT; [|discriminate].
    apply wf_dicts_PDict in Hwf as [Hnd Hsub]. rewrite matchDicts_items in Hrun.
    assert (exists sub, t0 = PDict sub) as [sub ->].
    { destruct path; simpl in HT; [inversion HT; eauto|]. destruct t0; try discriminate; eauto. }
    destruct (merge_loop_nested _ _ _ _ _ _ Hnd Hget HgetT Hrun) as (sub' & Hsubrun & ->).
    eapply IH; eauto.
Qed.

Lemma unknown_keys_are_kept_witness :
  lookup_path (["supernova"] ++ ["mass"])
    (PDict [("supernova", PDict [("distance", PNone);
                                 ("luminosity_requested", PStr "1 solLum");
                                 ("time_explosion", PNone);
                                 ("luminosity_wavelength_start", PStr "0 angstrom");
                                 ("luminosity_wavelength_end", PStr "inf angstrom");
                                 ("mass", PList [PBool false; PInt 3])])])
  = Some (PList [PBool false; PInt 3]).
Proof.
  apply (unknown_keys_are_kept ["supernova"]
           (PDict [("supernova", PDict [("distance", PNone); ("mass", PInt 3)])])
           [("supernova", PDict [("distance", PNone);
                                 ("luminosity_requested", PStr "1 solLum");
                                 ("time_explosion", PNone);
                                 ("luminosity_wavelength_start", PStr "0 angstrom");
                                 ("luminosity_wavelength_end", PStr "inf angstrom")])]
           _
           [("distance", PNone);
            ("luminosity_requested", PStr "1 solLum");
            ("time_explosion", PNone);
            ("luminosity_wavelength_start", PStr "0 angstrom");
            ("luminosity_wavelength_end", PStr "inf angstrom")]
           "mass" (PInt 3)); reflexivity.
Defined.

(** ** Rejection of an undeclared option *)











Lemma forallb_elem {A} (f : A -> bool) l x : forallb f l = true -> x ∈ l -> f x = true.
Proof.
  intros H Hx. apply list_elem_of_In in Hx.
  by apply (proj1 (forallb_forall f l) H).
Qed.





(** ** Changing the selection of a choice leaf *)

Lemma count_app x l1 l2 : count x (l1 ++ l2) = count x l1 + count x l2.
Proof. induction l1 as [|y l1 IH]; simpl; [done|]. rewrite IH. lia. Qed.

Lemma count_pos x l : 0 < count x l <-> x ∈ l.
Proof.
  induction l as [|y l IH]; simpl.
  - split; [lia | intros H; inversion H].
  - rewrite elem_of_cons. destruct (decide (x = y)); [split; [by left | lia]|].
    rewrite <- IH. split; [intros; right; lia | intros [|]; [done | lia]].
Qed.

Lemma count_zero x l : count x l = 0 <-> x ∉ l.
Proof. rewrite <- count_pos. lia. Qed.

Lemma count_remove_first_eq x l : count x (remove_first x l) = count x l - 1.
Proof.
  induction l as [|y l IH]; simpl; [done|].
  destruct (decide (x = y)); simpl; [lia|].
  rewrite decide_False by done. exact IH.
Qed.

Lemma count_remove_first_ne x y l : x <> y -> count x (remove_first y l) = count x l.
Proof.
  intros Hne. induction l as [|z l IH]; simpl; [done|].
  destruct (decide (y = z)) as [->|Hyz]; simpl.
  - by rewrite decide_False.
  - by rewrite IH.
Qed.

(** Each entry of the list to enable takes one occurrence of its node out
    of the disabled list, as long as there is one. *)
Lemma count_enable_all x itemsToEnable disabled :
  count x (enable_all itemsToEnable disabled) = count x disabled - count x itemsToEnable.
Proof.
  revert disabled. induction itemsToEnable as [|y l IH]; intros disabled; simpl; [lia|].
  rewrite IH. destruct (decide (x = y)) as [<-|Hne].
  - destruct (bool_decide_reflect (x ∈ disabled)) as [Hin|Hnin].
    + rewrite count_remove_first_eq. lia.
    + apply count_zero in Hnin. lia.
  - destruct (bool_decide (y ∈ disabled)); [|lia].
    rewrite count_remove_first_ne by done. lia.
Qed.

(** What the choice branch does to a choice leaf whose first field and new
    selection both have an entry in [siblings]. *)
Lemma setModelData_choice (editor : QComboBox) (m : TreeModel) (node : nat) (n : Node)
    (old : string) (itemsToDisable itemsToEnable : list nat) :
  nodes m !! node = Some n ->
  1 < numColumns n ->
  under_type m n = Ok true ->
  data n !! 0 = Some (PStr old) ->
  dict_get old (siblings n) = Some itemsToDisable ->
  dict_get (currentText editor) (siblings n) = Some itemsToEnable ->
  setModelData editor m node =
    Ok (Some (with_disabled
                (enable_all itemsToEnable (disabledNodes m ++ itemsToDisable))
                (update_node node
                   (fun _ => snd (setData (snd (setData n 0 (PStr (currentText editor))))
                                    (currentIndex editor) (PStr old))) m))).
Proof.
  intros Hn Hcols Htype H0 Hold Hnew. unfold setModelData, node_at. rewrite Hn. simpl bind.
  destruct (Nat.ltb_spec 1 (numColumns n)); [|lia]. simpl negb. cbv iota.
  rewrite Htype. simpl bind. simpl negb. cbv iota.
  assert (getData n 0 = PStr old) as ->.
  { unfold getData. by rewrite (py_index_0 _ _ H0). }
  simpl str_key. simpl bind.
  assert (forall n' c v, siblings (snd (setData n' c v)) = siblings n') as Hsib.
  { intros n' c v. unfold setData. by destruct ((c <? 0)%Z || _). }
  unfold siblings_get. rewrite !Hsib, Hold, Hnew. done.
Qed.

Lemma alter_const_id {A} (l : list A) i x : l !! i = Some x -> alter (fun _ => x) i l = l.
Proof.
  revert i. induction l as [|y l IH]; intros [|i] H; simpl in *; try done.
  - by inversion H.
  - f_equal. by apply IH.
Qed.

Lemma setData_data n c v :
  data (snd (setData n c v)) =
  if ((c <? 0)%Z || (Z.of_nat (numColumns n) <=? c)%Z) then data n
  else <[Z.to_nat c := v]> (data n).
Proof. unfold setData. by destruct ((c <? 0)%Z || _). Qed.

Lemma setData_rest n c v :
  parent (snd (setData n c v)) = parent n /\
  children (snd (setData n c v)) = children n /\
  siblings (snd (setData n c v)) = siblings n /\
  numColumns (snd (setData n c v)) = numColumns n.
Proof.
  unfold setData, numColumns. destruct ((c <? 0)%Z || _); simpl; [done|].
  by rewrite length_insert.
Qed.

Lemma under_type_parent m n p np :
  parent n = Some p -> nodes m !! p = Some np -> getData np 0 = PStr "type" ->
  under_type m n = Ok true.
Proof.
  intros Hp Hnp Hd. unfold under_type, deref, node_at. rewrite Hp, Hnp. simpl.
  by rewrite Hd.
Qed.

(** C6.  On a choice leaf, the selection change with the option that is
    already selected (entry 0 of the combo box, the leaf's first field)
    returns and leaves every node as often in the disabled list as before:
    membership is the same before and after, and so are the nodes. *)
Theorem reselecting_current_option
    (m : TreeModel) (node : nat) (n : Node) (current : string) (sibs : list nat) :
  nodes m !! node = Some n ->
  1 < numColumns n ->
  under_type m n = Ok true ->
  data n !! 0 = Some (PStr current) ->
  dict_get current (siblings n) = Some sibs ->
  exists editor m',
    choose n 0 = Some editor /\
    setModelData editor m node = Ok (Some m') /\
    (forall x, x ∈ disabledNodes m' <-> x ∈ disabledNodes m) /\
    (forall x, count x (disabledNodes m') = count x (disabledNodes m)) /\
    nodes m' = nodes m.
Proof.
  intros Hn Hcols Htype H0 Hsibs.
  exists (mkCombo 0 current). eexists. split; [unfold choose; by rewrite H0|].
  split; [by apply (setModelData_choice _ m node n current sibs sibs)|].
  assert (forall x, count x (enable_all sibs (disabledNodes m ++ sibs))
                    = count x (disabledNodes m)) as Hcount.
  { intros x. rewrite count_enable_all, count_app. lia. }
  simpl. split_and!; [|done|].
  - intros x. by rewrite <- !count_pos, Hcount.
  - rewrite alter_const_id; [done|]. rewrite Hn. f_equal.
    destruct n as [p cs d s]. unfold setData, numColumns in *. simpl in *.
    destruct d as [|d0 d]; [simpl in Hcols; lia|]. simpl in H0. inversion H0; subst.
    simpl. done.
Qed.

Lemma reselecting_current_option_witness :
  exists editor m',
    choose (mkNode (Some 2) [] [PStr "exponential"; PStr "uniform"]
              [("exponential", [6; 8]); ("uniform", [4])]) 0 = Some editor /\
    setModelData editor (built density_template) 3 = Ok (Some m') /\
    (forall x, x ∈ disabledNodes m' <-> x ∈ disabledNodes (built density_template)) /\
    (forall x, count x (disabledNodes m') = count x (disabledNodes (built density_template))) /\
    nodes m' = nodes (built density_template).
Proof.
  apply (reselecting_current_option (built density_template) 3 _ "exponential" [6; 8]);
    [reflexivity | vm_compute; lia | reflexivity | reflexivity | reflexivity].
Defined.

(** C7.  A choice leaf with the three options A, B, C, A selected, whose
    sibling lists are pairwise disjoint and whose siblings are in the
    disabled list as often as construction put them there (those of B and C
    as often as their lists name them, those of A not at all).  Selecting B
    returns, puts every sibling of A and of C in the disabled list and leaves
    no sibling of B in it, with the fields in the order B, A, C.  Selecting
    A again returns and gives back the original membership, every node as
    often as at the start, and the original nodes. *)
Theorem selecting_and_selecting_back
    (m : TreeModel) (node p : nat) (n np : Node) (A B C : string)
    (SA SB SC : list nat) :
  nodes m !! node = Some n ->
  data n = [PStr A; PStr B; PStr C] ->
  parent n = Some p -> p <> node -> nodes m !! p = Some np ->
  getData np 0 = PStr "type" ->
  dict_get A (siblings n) = Some SA ->
  dict_get B (siblings n) = Some SB ->
  dict_get C (siblings n) = Some SC ->
  (forall x, ~ (x ∈ SA /\ x ∈ SB)) ->
  (forall x, ~ (x ∈ SA /\ x ∈ SC)) ->
  (forall x, ~ (x ∈ SB /\ x ∈ SC)) ->
  (forall x, x ∈ SA ++ SB ++ SC -> count x (disabledNodes m) = count x (SB ++ SC)) ->
  exists e1 m1 n1 e2 m2,
    choose n 1 = Some e1 /\
    setModelData e1 m node = Ok (Some m1) /\
    (forall x, x ∈ SA \/ x ∈ SC -> x ∈ disabledNodes m1) /\
    (forall x, x ∈ SB -> x ∉ disabledNodes m1) /\
    nodes m1 !! node = Some n1 /\
    data n1 = [PStr B; PStr A; PStr C] /\
    choose n1 1 = Some e2 /\
    setModelData e2 m1 node = Ok (Some m2) /\
    (forall x, x ∈ disabledNodes m2 <-> x ∈ disabledNodes m) /\
    (forall x, count x (disabledNodes m2) = count x (disabledNodes m)) /\
    nodes m2 = nodes m.
Proof.
  intros Hn Hdata Hp Hpne Hnp Htype HA HB HC Hab Hac Hbc Hbuilt.
  set (n1 := snd (setData (snd (setData n 0 (PStr B))) 1 (PStr A))).
  set (D1 := enable_all SB (disabledNodes m ++ SA)).
  set (m1 := with_disabled D1 (update_node node (fun _ => n1) m)).
  set (n2 := snd (setData (snd (setData n1 0 (PStr A))) 1 (PStr B))).
  set (D2 := enable_all SA (D1 ++ SB)).
  set (m2 := with_disabled D2 (update_node node (fun _ => n2) m1)).
  assert (data n1 = [PStr B; PStr A; PStr C]) as Hdata1.
  { unfold n1. rewrite !setData_data. unfold numColumns.
    rewrite setData_data. unfold numColumns. rewrite Hdata. done. }
  assert (parent n1 = parent n /\ siblings n1 = siblings n) as [Hp1 Hs1].
  { unfold n1. destruct (setData_rest (snd (setData n 0 (PStr B))) 1 (PStr A)) as (-> & _ & -> & _).
    destruct (setData_rest n 0 (PStr B)) as (-> & _ & -> & _). done. }
  assert (n2 = n) as Hn2.
  { unfold n2.
    destruct (setData_rest (snd (setData n1 0 (PStr A))) 1 (PStr B)) as (Hq1 & Hq2 & Hq3 & _).
    destruct (setData_rest n1 0 (PStr A)) as (Hr1 & Hr2 & Hr3 & _).
    assert (children n1 = children n) as Hc1.
    { unfold n1. destruct (setData_rest (snd (setData n 0 (PStr B))) 1 (PStr A)) as (_ & -> & _).
      by destruct (setData_rest n 0 (PStr B)) as (_ & -> & _). }
    assert (data (snd (setData (snd (setData n1 0 (PStr A))) 1 (PStr B))) = data n) as Hd.
    { rewrite !setData_data. unfold numColumns. rewrite setData_data. unfold numColumns.
      rewrite Hdata1, Hdata. done. }
    destruct (snd (setData (snd (setData n1 0 (PStr A))) 1 (PStr B))) as [q1 q2 q3 q4].
    destruct n as [r1 r2 r3 r4]. simpl in *. congruence. }
  assert (nodes m1 !! node = Some n1) as Hn1.
  { unfold m1. simpl. by rewrite list_lookup_alter_eq, Hn. }
  assert (nodes m1 !! p = Some np) as Hnp1.
  { unfold m1. simpl. by rewrite list_lookup_alter_ne. }
  assert (forall x, count x D1 = count x (disabledNodes m) + count x SA - count x SB) as HD1.
  { intros x. unfold D1. by rewrite count_enable_all, count_app. }
  assert (forall x, count x D2 = count x D1 + count x SB - count x SA) as HD2.
  { intros x. unfold D2. by rewrite count_enable_all, count_app. }
  assert (forall x,
            (0 < count x SA -> count x SB = 0 /\ count x SC = 0) /\
            (0 < count x SB -> count x SC = 0) /\
            (0 < count x SA + count x SB + count x SC ->
             count x (disabledNodes m) = count x SB + count x SC)) as Hfacts.
  { intros x. split_and!.
    - rewrite count_pos, !count_zero. intros Ha.
      split; intros Hx; [apply (Hab x) | apply (Hac x)]; done.
    - rewrite count_pos, count_zero. intros Hb Hx. by apply (Hbc x).
    - intros Hpos. rewrite <- count_app. apply Hbuilt.
      apply count_pos. rewrite !count_app. lia. }
  exists (mkCombo 1 B), m1, n1, (mkCombo 1 A), m2.
  split_and!.
  - unfold choose. by rewrite Hdata.
  - apply (setModelData_choice (mkCombo 1 B) m node n A SA SB); try done.
    + unfold numColumns. rewrite Hdata. simpl. lia.
    + by eapply under_type_parent.
    + by rewrite Hdata.
  - intros x Hx. apply count_pos. rewrite HD1.
    destruct (Hfacts x) as (H1 & H2 & H3). rewrite <- !count_pos in Hx. lia.
  - intros x Hx. apply count_zero. rewrite HD1.
    destruct (Hfacts x) as (H1 & H2 & H3). rewrite <- !count_pos in Hx. lia.
  - done.
  - done.
  - unfold choose. by rewrite Hdata1.
  - apply (setModelData_choice (mkCombo 1 A) m1 node n1 B SB SA); try done.
    + unfold numColumns. rewrite Hdata1. simpl. lia.
    + eapply under_type_parent; [by rewrite Hp1 | done | done].
    + by rewrite Hdata1.
    + by rewrite Hs1.
    + by rewrite Hs1.
  - intros x. rewrite <- !count_pos. simpl. rewrite HD2, HD1.
    destruct (Hfacts x) as (H1 & H2 & H3). lia.
  - intros x. simpl. rewrite HD2, HD1.
    destruct (Hfacts x) as (H1 & H2 & H3). lia.
  - simpl. rewrite Hn2. rewrite list_alter_alter_eq. simpl. by apply alter_const_id.
Qed.

Lemma selecting_and_selecting_back_witness :
  let m := built three_way_template in
  let n := mkNode (Some 1) [] [PStr "A"; PStr "B"; PStr "C"]
             [("A", [3; 5]); ("B", [7]); ("C", [9])] in
  nodes m !! 2 = Some n /\ disabledNodes m = [7; 9] /\
  exists e1 m1 n1 e2 m2,
    choose n 1 = Some e1 /\
    setModelData e1 m 2 = Ok (Some m1) /\
    (forall x, x ∈ [3; 5] \/ x ∈ [9] -> x ∈ disabledNodes m1) /\
    (forall x, x ∈ [7] -> x ∉ disabledNodes m1) /\
    nodes m1 !! 2 = Some n1 /\
    data n1 = [PStr "B"; PStr "A"; PStr "C"] /\
    choose n1 1 = Some e2 /\
    setModelData e2 m1 2 = Ok (Some m2) /\
    (forall x, x ∈ disabledNodes m2 <-> x ∈ disabledNodes m) /\
    (forall x, count x (disabledNodes m2) = count x (disabledNodes m)) /\
    nodes m2 = nodes m.
Proof.
  intros m n. split; [reflexivity|]. split; [reflexivity|].
  apply (selecting_and_selecting_back m 2 1 n
           (mkNode (Some 0) [2] [PStr "type"] []) "A" "B" "C" [3; 5] [7] [9]);
    try reflexivity.
  - lia.
  - intros x [Ha Hb]. apply list_elem_of_singleton in Hb as ->.
    apply elem_of_cons in Ha as [|Ha]; [lia|].
    apply list_elem_of_singleton in Ha. lia.
  - intros x [Ha Hb]. apply list_elem_of_singleton in Hb as ->.
    apply elem_of_cons in Ha as [|Ha]; [lia|].
    apply list_elem_of_singleton in Ha. lia.
  - intros x [Ha Hb]. apply list_elem_of_singleton in Hb as ->.
    apply list_elem_of_singleton in Ha. lia.
Defined.

(** ** Linking the type nodes *)

Lemma py_index_Ok_nat {A} (l : list A) (i : nat) (x : A) :
  py_index l (Z.of_nat i) = Ok x -> l !! i = Some x.
Proof.
  unfold py_index. destruct (Z.ltb_spec (Z.of_nat i) 0); [lia|].
  destruct ((_ <? 0)%Z || _); [done|]. rewrite Nat2Z.id.
  destruct (l !! i); [by intros [= <-] | done].
Qed.

Lemma getChild_nat (n : Node) (i : nat) (r : option nat) :
  getChild n (Z.of_nat i) = Ok r -> r = children n !! i.
Proof.
  unfold getChild, numChildren.
  destruct (Z.ltb_spec (Z.of_nat i) (Z.of_nat (length (children n)))) as [Hlt|Hge].
  - intros H. apply bind_Ok in H as (c & Hc & Heq). injection Heq as <-.
    by rewrite (py_index_Ok_nat _ _ _ Hc).
  - intros [= <-]. symmetry. apply lookup_ge_None. lia.
Qed.

Lemma getData_nat (n : Node) (i : nat) (x : pyval) :
  data n !! i = Some x -> getData n (Z.of_nat i) = x.
Proof. intros H. unfold getData. by rewrite (py_index_nat _ _ _ H). Qed.

Lemma deref_Ok m r n : deref m r = Ok n -> exists i, r = Some i /\ nodes m !! i = Some n.
Proof.
  destruct r as [i|]; simpl; [|done]. unfold node_at.
  destruct (nodes m !! i) eqn:H; [|done]. intros [= <-]. eauto.
Qed.

Lemma disable_unselected_appends typesleaf disabled disabled' :
  disable_unselected typesleaf disabled = Ok disabled' ->
  disabled' = disabled ++ unselected_siblings typesleaf.
Proof.
  unfold disable_unselected, unselected_siblings.
  generalize (py_range 1 (numColumns typesleaf)). intros xs. revert disabled.
  induction xs as [|i xs IH]; intros disabled H; simpl in *.
  - inv_ok. by rewrite app_nil_r.
  - apply bind_Ok in H as (d1 & H1 & H).
    apply bind_Ok in H1 as (sibs & Hs & Heq). injection Heq as <-.
    rewrite Hs. rewrite (IH _ H). by rewrite app_assoc.
Qed.

(** The second inner loop keeps the place of the leaf in the tree and the
    number of its fields; it cuts fields [a] to [a + len - 1] down to their
    option names and leaves the other fields alone. *)
Lemma split_options_loop sibsdict len : forall a leaf leaf',
  for_each
    (fun i leaf =>
       let* sibstrings := split_field (getData leaf i) in
       let name := hd "" sibstrings in
       let leaf' := snd (setData leaf i (PStr name)) in
       let sibslist := make_sibslist sibsdict (tl sibstrings) in
       Ok (with_siblings (dict_set name sibslist (siblings leaf')) leaf'))
    (map Z.of_nat (seq a len)) leaf = Ok leaf' ->
  a + len <= numColumns leaf ->
  parent leaf' = parent leaf /\ children leaf' = children leaf /\
  numColumns leaf' = numColumns leaf /\
  (forall i, i < a \/ a + len <= i -> data leaf' !! i = data leaf !! i) /\
  (forall i x, a <= i < a + len -> data leaf !! i = Some x ->
     exists s, x = PStr s /\ data leaf' !! i = Some (PStr (hd "" (py_split delim s)))).
Proof.
  induction len as [|len IH]; intros a leaf leaf' Hrun Hlen; simpl in Hrun.
  - inv_ok. split_and!; try done. intros i x Hi. lia.
  - apply bind_Ok in Hrun as (leaf1 & Hstep & Hrun).
    apply bind_Ok in Hstep as (sibstrings & Hsplit & Hstep).
    injection Hstep as <-.
    destruct (lookup_lt_is_Some_2 (data leaf) a) as [xa Hxa]; [unfold numColumns in Hlen; lia|].
    rewrite (getData_nat _ _ _ Hxa) in Hsplit.
    destruct xa as [| | | |sa| |]; try discriminate. injection Hsplit as <-.
    set (leaf1 := with_siblings _ _) in Hrun.
    destruct (setData_rest leaf (Z.of_nat a) (PStr (hd "" (py_split delim sa))))
      as (Hp & Hc & Hs & Hn).
    assert (data leaf1 = <[a := PStr (hd "" (py_split delim sa))]> (data leaf)) as Hd1.
    { unfold leaf1. simpl. rewrite setData_data.
      destruct (Z.ltb_spec (Z.of_nat a) 0); [lia|].
      destruct (Z.leb_spec (Z.of_nat (numColumns leaf)) (Z.of_nat a)); [lia|].
      simpl. by rewrite Nat2Z.id. }
    assert (numColumns leaf1 = numColumns leaf) as Hn1.
    { unfold numColumns. rewrite Hd1. apply length_insert. }
    destruct (IH (S a) leaf1 leaf' Hrun) as (Hp' & Hc' & Hn' & Hout & Hin); [lia|].
    split_and!.
    + by rewrite Hp'.
    + by rewrite Hc'.
    + lia.
    + intros i Hi. rewrite Hout by lia. rewrite Hd1.
      apply list_lookup_insert_ne. lia.
    + intros i x Hi Hx. destruct (decide (i = a)) as [->|Hne].
      * rewrite Hxa in Hx. injection Hx as <-. exists sa. split; [done|].
        rewrite Hout by lia. rewrite Hd1. apply list_lookup_insert_eq.
        unfold numColumns in Hlen. lia.
      * apply (Hin i x); [lia|]. rewrite Hd1. by rewrite list_lookup_insert_ne.
Qed.

Lemma split_options_spec sibsdict leaf leaf' :
  split_options sibsdict leaf = Ok leaf' ->
  parent leaf' = parent leaf /\ children leaf' = children leaf /\
  numColumns leaf' = numColumns leaf /\
  (forall i x, data leaf !! i = Some x ->
     exists s, x = PStr s /\ data leaf' !! i = Some (PStr (hd "" (py_split delim s)))).
Proof.
  unfold split_options, py_range. rewrite Nat.sub_0_r. intros H.
  destruct (split_options_loop sibsdict _ 0 leaf leaf' H) as (Hp & Hc & Hn & _ & Hin); [lia|].
  split_and!; try done. intros i x Hx. apply (Hin i x); [|done].
  apply lookup_lt_Some in Hx. unfold numColumns. lia.
Qed.

(** One round of the loop over the type nodes rewrites the choice leaf, the
    first child of the type node, and appends the siblings of its
    unselected options to the disabled nodes. *)
Lemma link_typenode_spec t m m' :
  link_typenode t m = Ok m' ->
  exists l leaf leaf',
    typesleaf_of m t = Some (l, leaf) /\
    parent leaf' = parent leaf /\ children leaf' = children leaf /\
    numColumns leaf' = numColumns leaf /\
    (forall i x, data leaf !! i = Some x ->
       exists s, x = PStr s /\ data leaf' !! i = Some (PStr (hd "" (py_split delim s)))) /\
    m' = with_disabled (disabledNodes m ++ unselected_siblings leaf')
           (update_node l (fun _ => leaf') m).
Proof.
  unfold link_typenode, node_at. intros H.
  destruct (nodes m !! t) as [nt|] eqn:Hnt; [|done]. simpl in H.
  apply bind_Ok in H as (pn & _ & H). apply bind_Ok in H as (sibsdict & _ & H).
  apply bind_Ok in H as (leafref & Href & H). apply bind_Ok in H as (leaf & Hleaf & H).
  apply bind_Ok in H as (leaf' & Hsplit & H). apply bind_Ok in H as (D & HD & H).
  injection H as <-.
  apply (getChild_nat nt 0) in Href. apply deref_Ok in Hleaf as (l & -> & Hl).
  destruct (split_options_spec _ _ _ Hsplit) as (Hp & Hc & Hn & Hd).
  exists l, leaf, leaf'. split_and!; try done.
  - unfold typesleaf_of. by rewrite Hnt, <- Href, Hl.
  - by rewrite (disable_unselected_appends _ _ _ HD).
Qed.

Lemma same_tree_refl m : same_tree m m.
Proof. unfold same_tree. split_and!; try done. eauto. Qed.

Lemma same_tree_trans m1 m2 m3 : same_tree m1 m2 -> same_tree m2 m3 -> same_tree m1 m3.
Proof.
  intros (Ht & Hr & Hl & Hn) (Ht' & Hr' & Hl' & Hn'). unfold same_tree.
  split_and!; try congruence. intros x n Hx.
  destruct (Hn x n Hx) as (n2 & Hx2 & Hc & Hp).
  destruct (Hn' x n2 Hx2) as (n3 & Hx3 & Hc' & Hp').
  exists n3. split_and!; congruence.
Qed.

Lemma same_tree_leaf_id m m' t : same_tree m m' -> is_Some (leaf_id m t) ->
  leaf_id m' t = leaf_id m t.
Proof.
  intros (_ & _ & _ & Hn) [l Hl]. unfold leaf_id, typesleaf_of in *.
  destruct (nodes m !! t) as [nt|] eqn:Hnt; [|done].
  destruct (Hn t nt Hnt) as (nt' & -> & Hc & _). rewrite Hc.
  destruct (children nt !! 0) as [l0|]; [|done].
  destruct (nodes m !! l0) as [leaf|] eqn:Hleaf; [|done].
  by destruct (Hn l0 leaf Hleaf) as (leaf' & -> & _).
Qed.

Lemma typesleaf_of_leaf_id m t l leaf :
  typesleaf_of m t = Some (l, leaf) <-> leaf_id m t = Some l /\ nodes m !! l = Some leaf.
Proof.
  unfold leaf_id, typesleaf_of.
  destruct (nodes m !! t) as [nt|]; [|by split; [|intros []]].
  destruct (children nt !! 0) as [l0|]; [|by split; [|intros []]].
  destruct (nodes m !! l0) as [leaf0|] eqn:Hl0; simpl.
  - split.
    + by intros [= <- <-].
    + intros [[= <-] H]. congruence.
  - split; [done | intros [[=] _]].
Qed.

(** One round of the loop, as a change of the arena. *)
Lemma link_typenode_step t m m' :
  link_typenode t m = Ok m' ->
  exists l leaf leaf',
    typesleaf_of m t = Some (l, leaf) /\
    typesleaf_of m' t = Some (l, leaf') /\
    same_tree m m' /\
    (forall x, x <> l -> nodes m' !! x = nodes m !! x) /\
    disabledNodes m' = disabledNodes m ++ unselected_siblings leaf' /\
    (forall i x, data leaf !! i = Some x ->
       exists s, x = PStr s /\ data leaf' !! i = Some (PStr (hd "" (py_split delim s)))).
Proof.
  intros H. destruct (link_typenode_spec _ _ _ H)
    as (l & leaf & leaf' & Hleaf & Hp & Hc & Hn & Hd & ->).
  exists l, leaf, leaf'.
  apply typesleaf_of_leaf_id in Hleaf as Hleaf'. destruct Hleaf' as [Hid Hl].
  assert (same_tree m (with_disabled (disabledNodes m ++ unselected_siblings leaf')
                         (update_node l (fun _ => leaf') m))) as Hsame.
  { unfold same_tree. simpl. split_and!; try done.
    - apply length_alter.
    - intros x n Hx. destruct (decide (x = l)) as [->|Hne].
      + rewrite list_lookup_alter_eq, Hl. simpl. exists leaf'.
        rewrite Hl in Hx. injection Hx as <-. done.
      + rewrite list_lookup_alter_ne by done. eauto. }
  split_and!; try done.
  - apply typesleaf_of_leaf_id. split.
    + rewrite (same_tree_leaf_id _ _ _ Hsame); [done | by rewrite Hid].
    + simpl. by rewrite list_lookup_alter_eq, Hl.
  - intros x Hx. simpl. by rewrite list_lookup_alter_ne.
Qed.

(** The loop over the type nodes: the tree keeps its shape, nodes that are
    no choice leaf of the list are untouched, and the siblings of the
    unselected options of every type node of the list end up disabled. *)
Lemma link_loop ts : forall m m',
  for_each link_typenode ts m = Ok m' ->
  same_tree m m' /\
  (forall x, Some x ∉ leaf_id m <$> ts -> nodes m' !! x = nodes m !! x) /\
  (exists D, disabledNodes m' = disabledNodes m ++ D) /\
  (forall t, t ∈ ts -> is_Some (typesleaf_of m t)) /\
  (forall t x, t ∈ ts -> x ∈ unselected_of m' t -> x ∈ disabledNodes m').
Proof.
  induction ts as [|t0 ts IH]; intros m m' Hrun; simpl in Hrun.
  - inv_ok. split_and!; [apply same_tree_refl | done | exists []; by rewrite app_nil_r | |].
    + intros t Ht. inversion Ht.
    + intros t x Ht. inversion Ht.
  - apply bind_Ok in Hrun as (m1 & Hstep & Hrun).
    destruct (link_typenode_step _ _ _ Hstep)
      as (l0 & leaf0 & leaf0' & Hleaf0 & Hleaf0' & Hsame1 & Hother & HD & _).
    destruct (IH m1 m' Hrun) as (Hsame & Hframe & (D & HD') & Hsome & Hdis).
    assert (forall t, t ∈ ts -> leaf_id m1 t = leaf_id m t) as Hids.
    { intros t Ht. destruct (Hsome t Ht) as [[l leaf] Hl].
      apply typesleaf_of_leaf_id in Hl as [Hl _].
      destruct (leaf_id m t) as [l'|] eqn:Hl'.
      - rewrite <- Hl'. apply same_tree_leaf_id; [done | by rewrite Hl'].
      - exfalso. unfold leaf_id, typesleaf_of in Hl, Hl'.
        destruct Hsame1 as (_ & _ & Hlen & Hn).
        destruct (nodes m !! t) as [nt|] eqn:Hnt.
        + destruct (Hn t nt Hnt) as (nt' & Hnt' & Hc & _). rewrite Hnt', Hc in Hl.
          destruct (children nt !! 0) as [c|]; [|done].
          destruct (nodes m !! c) as [nc|] eqn:Hnc; [done|].
          apply lookup_ge_None in Hnc. rewrite <- Hlen in Hnc.
          apply lookup_ge_None in Hnc. by rewrite Hnc in Hl.
        + apply lookup_ge_None in Hnt. rewrite <- Hlen in Hnt.
          apply lookup_ge_None in Hnt. by rewrite Hnt in Hl. }
    split_and!.
    + by eapply same_tree_trans.
    + intros x Hx. simpl in Hx. apply not_elem_of_cons in Hx as [Hx0 Hx].
      rewrite Hframe.
      * apply Hother. intros ->. apply Hx0.
        apply typesleaf_of_leaf_id in Hleaf0 as [-> _]. done.
      * intros Hin. apply Hx. apply list_elem_of_fmap in Hin as (t & Ht & Hin).
        apply list_elem_of_fmap. exists t. split; [|done]. by rewrite <- Hids.
    + exists (unselected_siblings leaf0' ++ D). by rewrite HD', HD, app_assoc.
    + intros t Ht. apply elem_of_cons in Ht as [->|Ht]; [by rewrite Hleaf0|].
      destruct (Hsome t Ht) as [[l leaf] Hl].
      apply typesleaf_of_leaf_id in Hl as [Hl _]. rewrite (Hids t Ht) in Hl.
      unfold leaf_id in Hl. destruct (typesleaf_of m t); [done | discriminate].
    + intros t x Ht Hx. apply elem_of_cons in Ht as [->|Ht]; [|by apply (Hdis t)].
      (* the leaf of [t0]: either a later round rewrote it, or it is as the
         first round left it *)
      destruct (decide (Some l0 ∈ leaf_id m1 <$> ts)) as [Hin|Hnin].
      * apply list_elem_of_fmap in Hin as (t & Ht & Hin).
        apply (Hdis t x Hin). unfold unselected_of in *.
        assert (leaf_id m' t0 = Some l0) as Hid0.
        { rewrite (same_tree_leaf_id m1 m' t0 Hsame).
          - by apply typesleaf_of_leaf_id in Hleaf0' as [-> _].
          - apply typesleaf_of_leaf_id in Hleaf0' as [-> _]. done. }
        assert (leaf_id m' t = Some l0) as Hidt.
        { rewrite (same_tree_leaf_id m1 m' t Hsame); [done | by rewrite <- Ht]. }
        destruct (typesleaf_of m' t0) as [[l1 leaf1]|] eqn:H1;
          [|by apply elem_of_nil in Hx].
        apply typesleaf_of_leaf_id in H1 as [H1 H1'].
        rewrite Hid0 in H1. injection H1 as <-.
        assert (typesleaf_of m' t = Some (l0, leaf1)) as ->.
        { by apply typesleaf_of_leaf_id. }
        done.
      * rewrite HD'. apply elem_of_app. left. rewrite HD. apply elem_of_app. right.
        unfold unselected_of in Hx.
        assert (typesleaf_of m' t0 = Some (l0, leaf0')) as Heq.
        { apply typesleaf_of_leaf_id. apply typesleaf_of_leaf_id in Hleaf0' as [Hid Hl].
          split.
          - rewrite (same_tree_leaf_id m1 m' t0 Hsame); [done | by rewrite Hid].
          - by rewrite (Hframe l0 Hnin). }
        by rewrite Heq in Hx.
Qed.

Lemma same_tree_leaf_id_eq m m' t : same_tree m m' -> leaf_id m' t = leaf_id m t.
Proof.
  intros Hsame. destruct (leaf_id m t) as [l|] eqn:Hl.
  - rewrite <- Hl. apply same_tree_leaf_id; [done | by rewrite Hl].
  - destruct Hsame as (_ & _ & Hlen & Hn). unfold leaf_id, typesleaf_of in *.
    assert (forall x, nodes m !! x = None -> nodes m' !! x = None) as Hnone.
    { intros x Hx. apply lookup_ge_None. rewrite Hlen. by apply lookup_ge_None. }
    destruct (nodes m !! t) as [nt|] eqn:Hnt; [|by rewrite (Hnone t Hnt)].
    destruct (Hn t nt Hnt) as (nt' & -> & -> & _).
    destruct (children nt !! 0) as [c|]; [|done].
    destruct (nodes m !! c) as [nc|] eqn:Hnc; [done|]. by rewrite (Hnone c Hnc).
Qed.

(** When the type nodes of the list have choice leaves of their own, the
    disabled list grows by exactly the siblings of their unselected options,
    type node after type node, and each choice leaf holds the option names
    of the strings it held. *)
Lemma link_loop_exact ts : forall m m',
  for_each link_typenode ts m = Ok m' ->
  NoDup (leaf_id m <$> ts) ->
  disabledNodes m' = disabledNodes m ++ flat_map (unselected_of m') ts /\
  (forall t l leaf, t ∈ ts -> typesleaf_of m t = Some (l, leaf) ->
     exists leaf', nodes m' !! l = Some leaf' /\
       forall i x, data leaf !! i = Some x ->
         exists s, x = PStr s /\ data leaf' !! i = Some (PStr (hd "" (py_split delim s)))).
Proof.
  induction ts as [|t0 ts IH]; intros m m' Hrun Hnd; simpl in Hrun.
  - inv_ok. split; [by rewrite app_nil_r|]. intros t l leaf Ht. inversion Ht.
  - apply bind_Ok in Hrun as (m1 & Hstep & Hrun).
    destruct (link_typenode_step _ _ _ Hstep)
      as (l0 & leaf0 & leaf0' & Hleaf0 & Hleaf0' & Hsame1 & Hother & HD & Hdata0).
    rewrite fmap_cons in Hnd. apply NoDup_cons in Hnd as [Hfresh Hnd].
    assert (leaf_id m1 <$> ts = leaf_id m <$> ts) as Hids.
    { apply list_fmap_ext. intros _ t _. by apply same_tree_leaf_id_eq. }
    destruct (IH m1 m' Hrun) as (HD' & Hdata); [by rewrite Hids|].
    destruct (link_loop _ _ _ Hrun) as (Hsame & Hframe & _).
    apply typesleaf_of_leaf_id in Hleaf0 as Hl0. destruct Hl0 as [Hid0 Hl0].
    apply typesleaf_of_leaf_id in Hleaf0' as Hl0'. destruct Hl0' as [Hid0' Hl0'].
    assert (nodes m' !! l0 = Some leaf0') as Hfinal.
    { rewrite Hframe; [done|]. rewrite Hids, <- Hid0. exact Hfresh. }
    split.
    + rewrite HD', HD. simpl. rewrite <- app_assoc. do 2 f_equal.
      unfold unselected_of.
      assert (typesleaf_of m' t0 = Some (l0, leaf0')) as ->; [|done].
      apply typesleaf_of_leaf_id. split; [|done].
      by rewrite (same_tree_leaf_id_eq m1 m' t0 Hsame).
    + intros t l leaf Ht Hleaf. apply typesleaf_of_leaf_id in Hleaf as Hl.
      destruct Hl as [Hid Hl]. destruct (decide (l = l0)) as [->|Hne].
      * rewrite Hl0 in Hl. injection Hl as <-. eauto.
      * apply elem_of_cons in Ht as [->|Ht]; [congruence|].
        apply (Hdata t l leaf Ht). apply typesleaf_of_leaf_id. split.
        -- by rewrite (same_tree_leaf_id_eq m m1 t Hsame1).
        -- by rewrite Hother.
Qed.

(** ** Building the tree *)

Lemma bind_ext {A B} (m : result A) (k k' : A -> result B) :
  (forall a, k a = k' a) -> bind m k = bind m k'.
Proof. intros H. destruct m; simpl; [apply H | done]. Qed.

Lemma treeFromNode_items items r m :
  treeFromNode (PDict items) r m = for_each (tree_item r) items m.
Proof.
  revert m. induction items as [|[key value] items IH]; intros m; [done|].
  change (treeFromNode (PDict ((key, value) :: items)) r m)
    with (bind (tree_item r (key, value) m) (fun m3 => treeFromNode (PDict items) r m3)).
  cbn [for_each]. apply bind_ext. intros m3. apply IH.
Qed.

Lemma key_built_dict m lo r c k items :
  key_built m lo r c k (PDict items) <->
  lo <= c /\
  exists nc, nodes m !! c = Some nc /\ data nc = [PStr k] /\ parent nc = Some r /\
             (c ∉ typenodes m) /\ items_built m lo c items (children nc).
Proof.
  simpl. apply and_iff_compat_l. apply exist_proper. intros nc.
  do 4 apply and_iff_compat_l.
  generalize (children nc). induction items as [|[k' v'] items IH]; intros cs; [done|].
  destruct cs as [|c' cs]; [done|]. simpl. by rewrite IH.
Qed.

(** The built part of the arena is not affected by what is allocated and
    registered later. *)
Lemma key_built_stable v : forall m m' lo lo' r c k,
  key_built m lo r c k v ->
  lo' <= lo ->
  (forall i, lo <= i -> i < length (nodes m) -> nodes m' !! i = nodes m !! i) ->
  (forall t, t < length (nodes m) -> t ∈ typenodes m' <-> t ∈ typenodes m) ->
  key_built m' lo' r c k v.
Proof.
  induction v as [| | | | |entry _|items IH] using pyval_nested_ind;
    intros m m' lo lo' r c k Hb Hlo Hframe Htn;
    try (destruct Hb as (Hc & nc & Hnc & Hd & Hp & Hcs & Ht);
         pose proof (lookup_lt_Some _ _ _ Hnc) as Hlt;
         split; [lia|]; exists nc; rewrite Hframe by done;
         split_and!; try done; by rewrite Htn).
  - (* a list entry *)
    destruct entry as [|a [|second rest]]; try (by destruct Hb as (_ & ? & _ & _ & _ & [])).
    destruct Hb as (Hc & nc & Hnc & Hd & Hp & Hcs & Ht & nl & Hnl & Hl).
    pose proof (lookup_lt_Some _ _ _ Hnc) as Hlt.
    pose proof (lookup_lt_Some _ _ _ Hnl) as Hlt'.
    split; [lia|]. exists nc. rewrite Hframe by done. split_and!; try done.
    + by rewrite Htn.
    + exists nl. rewrite Hframe by (done || lia). done.
  - (* a nested dict *)
    apply key_built_dict in Hb as (Hc & nc & Hnc & Hd & Hp & Ht & Hitems).
    pose proof (lookup_lt_Some _ _ _ Hnc) as Hlt.
    apply key_built_dict. split; [lia|]. exists nc. rewrite Hframe by done.
    split_and!; try done; [by rewrite Htn|].
    clear Hnc Hd Hp. revert Hitems. generalize (children nc).
    induction items as [|[k' v'] items IHitems]; intros cs; [done|].
    apply Forall_cons in IH as [IH0 IH].
    destruct cs as [|c' cs]; [done|]. simpl. intros [Hk Hrest].
    split; [by eapply IH0 | by apply IHitems].
Qed.

Lemma items_built_stable items : forall m m' lo lo' r cs,
  items_built m lo r items cs ->
  lo' <= lo ->
  (forall i, lo <= i -> i < length (nodes m) -> nodes m' !! i = nodes m !! i) ->
  (forall t, t < length (nodes m) -> t ∈ typenodes m' <-> t ∈ typenodes m) ->
  items_built m' lo' r items cs.
Proof.
  induction items as [|[k v] items IH]; intros m m' lo lo' r cs Hb Hlo Hframe Htn; [done|].
  destruct cs as [|c cs]; [done|]. destruct Hb as [Hk Hrest]. split.
  - by eapply key_built_stable.
  - by eapply IH.
Qed.

(** [Node(d)] followed by [r.appendChild] of the new node. *)
Lemma attach_spec m r nr d :
  nodes m !! r = Some nr ->
  let c := length (nodes m) in
  let m2 := appendChild r c (with_nodes (nodes m ++ [Node_init d]) m) in
  nodes m2 !! r = Some (with_children (children nr ++ [c]) nr) /\
  nodes m2 !! c = Some (mkNode (Some r) [] d []) /\
  (forall i, i < c -> i <> r -> nodes m2 !! i = nodes m !! i) /\
  length (nodes m2) = S c /\
  typenodes m2 = typenodes m /\ root m2 = root m /\ disabledNodes m2 = disabledNodes m.
Proof.
  intros Hr c m2. pose proof (lookup_lt_Some _ _ _ Hr) as Hlt.
  unfold m2, appendChild, update_node. simpl. split_and!; try done.
  - rewrite list_lookup_alter_ne by (unfold c; lia).
    rewrite list_lookup_alter_eq, lookup_app_l, Hr by done. done.
  - rewrite list_lookup_alter_eq, list_lookup_alter_ne by (unfold c; lia).
    unfold c. rewrite list_lookup_middle by done. done.
  - intros i Hi Hne. rewrite !list_lookup_alter_ne by (unfold c in *; lia).
    by rewrite lookup_app_l.
  - rewrite !length_alter, length_app. simpl. unfold c. lia.
Qed.

Lemma py_index_1_inv {A} (entry : list A) (second : A) :
  py_index entry 1 = Ok second -> exists a rest, entry = a :: second :: rest.
Proof.
  intros H. apply (py_index_Ok_nat entry 1) in H.
  destruct entry as [|a [|b rest]]; try done. injection H as ->. eauto.
Qed.

Lemma typenode_linked_frame m m' t :
  typenode_linked m t ->
  (forall i, i = t \/ i = S t -> nodes m' !! i = nodes m !! i) ->
  typenode_linked m' t.
Proof.
  intros (nt & nl & Hnt & Hc & Hnl & Hp & Hd & Hcl & Hs) Hframe. exists nt, nl.
  rewrite !Hframe by auto. done.
Qed.

(** One round of the loop of [treeFromNode], for the key [k] with value
    [v], given what the recursive call does. *)
Lemma tree_item_spec k v r m m3 nr :
  (forall r m m', treeFromNode v r m = Ok m' -> r < length (nodes m) ->
                  (forall t, t ∈ typenodes m -> t < length (nodes m)) ->
                  exists sub, v = PDict sub /\ tree_post r m m' sub) ->
  tree_item r (k, v) m = Ok m3 ->
  nodes m !! r = Some nr ->
  (forall t, t ∈ typenodes m -> t < length (nodes m)) ->
  let c := length (nodes m) in
  exists ts,
    nodes m3 !! r = Some (with_children (children nr ++ [c]) nr) /\
    key_built m3 c r c k v /\
    (forall i, i < c -> i <> r -> nodes m3 !! i = nodes m !! i) /\
    S c <= length (nodes m3) /\
    root m3 = root m /\ disabledNodes m3 = disabledNodes m /\
    typenodes m3 = typenodes m ++ ts /\ NoDup ts /\
    forall t, t ∈ ts -> c <= t /\ typenode_linked m3 t.
Proof.
  intros IH Hitem Hr Hts c.
  pose proof (lookup_lt_Some _ _ _ Hr) as Hlt.
  unfold tree_item, new_node in Hitem. fold c in Hitem.
  destruct (attach_spec m r nr [PStr k] Hr) as (A1 & A2 & A3 & A4 & A5 & A6 & A7).
  fold c in A1, A2, A3, A4, A5, A6, A7.
  set (m2 := appendChild r c (with_nodes (nodes m ++ [Node_init [PStr k]]) m)) in *.
  clearbody m2.
  assert (forall t, t ∈ typenodes m -> t <> c) as Hold.
  { intros t Ht. apply Hts in Ht. unfold c. lia. }
  destruct v as [| | | | |entry|sub];
    try (injection Hitem as <-; exists []; rewrite app_nil_r;
         split_and!; try done; [| lia | apply NoDup_nil_2 | intros t Ht; inversion Ht];
         split; [done|]; eexists; split; [exact A2|]; simpl; split_and!; try done;
         try rewrite A5; intros Hin; by apply (Hold c)).
  - (* a list entry: the leaf *)
    apply bind_Ok in Hitem as (second & Hsecond & Hitem).
    apply py_index_1_inv in Hsecond as (a & rest & ->).
    assert ((let (leaf, m') :=
               match second with
               | PList options => (length (nodes m2), with_nodes (nodes m2 ++ [Node_init options]) m2)
               | _ => (length (nodes m2), with_nodes (nodes m2 ++ [Node_init [second]]) m2)
               end in
             if decide (k = "type")
             then Ok (with_typenodes (typenodes (appendChild c leaf m') ++ [c]) (appendChild c leaf m'))
             else Ok (appendChild c leaf m'))
            = (let m'' := appendChild c (length (nodes m2))
                            (with_nodes (nodes m2 ++ [Node_init (leaf_data second)]) m2) in
               if decide (k = "type")
               then Ok (with_typenodes (typenodes m'' ++ [c]) m'')
               else Ok m'')) as Heq.
    { by destruct second. }
    rewrite Heq in Hitem. clear Heq.
    destruct (attach_spec m2 c _ (leaf_data second) A2) as (B1 & B2 & B3 & B4 & B5 & B6 & B7).
    rewrite A4 in *.
    set (m'' := appendChild c (S c) _) in *. clearbody m''. simpl in Hitem.
    assert (forall i, i < c -> i <> r -> nodes m'' !! i = nodes m !! i) as Hframe.
    { intros i Hi Hne. rewrite B3 by lia. by apply A3. }
    assert (nodes m'' !! r = Some (with_children (children nr ++ [c]) nr)) as Hr''.
    { rewrite B3 by lia. done. }
    destruct (decide (k = "type")) as [Hk|Hk]; injection Hitem as <-.
    + exists [c]. simpl. split; [done|]. split.
      { split; [done|]. eexists. split; [exact B1|]. simpl.
        split; [done|]. split; [done|]. split; [done|]. split.
        - split; [done|]. intros _. apply elem_of_app. right. apply list_elem_of_here.
        - eexists. split; [exact B2|]. done. }
      split; [done|]. split; [lia|]. split; [congruence|]. split; [congruence|].
      split; [congruence|]. split; [apply NoDup_singleton|].
      intros t Ht. apply list_elem_of_singleton in Ht as ->. split; [done|].
      eexists _, _. simpl. split; [exact B1|]. split; [done|]. split; [exact B2|].
      simpl. by rewrite Hk.
    + exists []. rewrite app_nil_r. split; [done|]. split.
      { split; [done|]. eexists. split; [exact B1|]. simpl.
        split; [done|]. split; [done|]. split; [done|]. split.
        - rewrite B5, A5. split; [|done]. intros Hin. by apply Hold in Hin.
        - eexists. split; [exact B2|]. done. }
      split; [done|]. split; [lia|]. split; [congruence|]. split; [congruence|].
      split; [congruence|]. split; [apply NoDup_nil_2|].
      intros t Ht. inversion Ht.
  - (* a nested dict: the recursive call *)
    destruct (IH c m2 m3 Hitem) as (sub' & Hsub & Hpost).
    { rewrite A4. lia. }
    { intros t Ht. rewrite A5 in Ht. apply Hts in Ht. rewrite A4. unfold c. lia. }
    injection Hsub as <-.
    destruct Hpost as (nc & cs & ts & Hc & Hc' & Hitems & Hframe & Hlen & Hroot & Hdis
                       & Htn & Hnd & Hlinked).
    rewrite A2 in Hc. injection Hc as <-. rewrite A4 in *. simpl in Hc'.
    exists ts. split_and!; try done; try congruence.
    + rewrite Hframe by lia. done.
    + apply key_built_dict. split; [done|]. eexists. split; [exact Hc'|].
      simpl. split_and!; try done.
      * rewrite Htn, A5. intros Hin. apply elem_of_app in Hin as [Hin|Hin].
        -- by apply (Hold c).
        -- apply Hlinked in Hin as [Hin _]. lia.
      * eapply items_built_stable; [exact Hitems | lia | done | done].
    + intros i Hi Hne. rewrite Hframe by lia. by apply A3.
    + intros t Ht. destruct (Hlinked t Ht) as [Hge Hl]. split; [lia | done].
Qed.
Lemma with_children_app nr cs1 cs2 :
  with_children (children (with_children (children nr ++ cs1) nr) ++ cs2)
    (with_children (children nr ++ cs1) nr)
  = with_children (children nr ++ cs1 ++ cs2) nr.
Proof. unfold with_children. simpl. by rewrite app_assoc. Qed.

Lemma tree_loop items :
  Forall (fun kv => forall r m m', treeFromNode (snd kv) r m = Ok m' ->
            r < length (nodes m) ->
            (forall t, t ∈ typenodes m -> t < length (nodes m)) ->
            exists sub, snd kv = PDict sub /\ tree_post r m m' sub) items ->
  forall r m m',
  for_each (tree_item r) items m = Ok m' ->
  r < length (nodes m) ->
  (forall t, t ∈ typenodes m -> t < length (nodes m)) ->
  tree_post r m m' items.
Proof.
  induction items as [|[k v] items IHl]; intros HIH r m m' Hrun Hr Hts.
  - simpl in Hrun. injection Hrun as <-.
    destruct (lookup_lt_is_Some_2 (nodes m) r Hr) as [nr Hnr].
    exists nr, [], []. rewrite !app_nil_r. split_and!; try done.
    + rewrite Hnr. f_equal. by destruct nr.
    + apply NoDup_nil_2.
    + intros t Ht. inversion Ht.
  - apply Forall_cons in HIH as [IH0 HIH]. cbn [for_each] in Hrun.
    apply bind_Ok in Hrun as (m3 & Hitem & Hrest).
    destruct (lookup_lt_is_Some_2 (nodes m) r Hr) as [nr Hnr].
    destruct (tree_item_spec k v r m m3 nr IH0 Hitem Hnr Hts)
      as (ts1 & I1 & I2 & I3 & I4 & I5 & I6 & I7 & I8 & I9).
    set (c := length (nodes m)) in *.
    assert (forall t, t ∈ typenodes m3 -> t < length (nodes m3)) as Hts3.
    { intros t Ht. rewrite I7 in Ht. apply elem_of_app in Ht as [Ht|Ht].
      - apply Hts in Ht. lia.
      - destruct (I9 t Ht) as [_ (nt & nl & Hnt & _)]. by eapply lookup_lt_Some. }
    destruct (IHl HIH r m3 m' Hrest) as
      (nr3 & cs & ts2 & J1 & J2 & J3 & J4 & J5 & J6 & J7 & J8 & J9 & J10); [lia | done |].
    rewrite I1 in J1. injection J1 as <-. rewrite with_children_app in J2.
    assert (forall i, c <= i -> i < length (nodes m3) -> nodes m' !! i = nodes m3 !! i)
      as Hkeep.
    { intros i Hi Hlt. apply J4; [done | lia]. }
    assert (forall t, t < length (nodes m3) -> t ∈ typenodes m' <-> t ∈ typenodes m3)
      as Hkeept.
    { intros t Ht. rewrite J8, elem_of_app. split; [|by left].
      intros [|Hin]; [done|]. apply J10 in Hin as [Hge _]. lia. }
    exists nr, (c :: cs), (ts1 ++ ts2). split_and!; try done; try congruence.
    + split.
      * by eapply key_built_stable.
      * eapply items_built_stable; [exact J3 | lia | done | done].
    + intros i Hi Hne. rewrite J4 by (done || lia). by apply I3.
    + lia.
    + rewrite J8, I7. by rewrite app_assoc.
    + apply NoDup_app. split_and!; try done. intros t Ht1 Ht2.
      destruct (I9 t Ht1) as [_ (nt & nl & Hnt & _)]. apply lookup_lt_Some in Hnt.
      apply J10 in Ht2 as [Hge _]. lia.
    + intros t Ht. apply elem_of_app in Ht as [Ht|Ht].
      * destruct (I9 t Ht) as [Hge Hl]. split; [done|].
        eapply typenode_linked_frame; [exact Hl|].
        destruct Hl as (nt & nl & Hnt & _ & Hnl & _).
        apply lookup_lt_Some in Hnt. apply lookup_lt_Some in Hnl.
        intros i [->| ->]; apply Hkeep; lia.
      * destruct (J10 t Ht) as [Hge Hl]. split; [lia | done].
Qed.

(** What [treeFromNode] builds. *)
Lemma treeFromNode_post v : forall r m m',
  treeFromNode v r m = Ok m' ->
  r < length (nodes m) ->
  (forall t, t ∈ typenodes m -> t < length (nodes m)) ->
  exists items, v = PDict items /\ tree_post r m m' items.
Proof.
  induction v as [| | | | | |items IH] using pyval_nested_ind;
    intros r m m' Hrun Hr Hts; try discriminate.
  exists items. split; [done|]. rewrite treeFromNode_items in Hrun.
  by apply (tree_loop items IH).
Qed.

(** ** After construction *)

Lemma typenode_linked_leaf m t : typenode_linked m t -> leaf_id m t = Some (S t).
Proof.
  intros (nt & nl & Hnt & Hc & Hnl & _). unfold leaf_id, typesleaf_of.
  rewrite Hnt, Hc. simpl. by rewrite Hnl.
Qed.

(** Construction is [treeFromNode] on the fresh root followed by the loop
    over the type nodes it registered. *)
Lemma TreeModel_init_inv dictionary m :
  TreeModel_init dictionary = Ok m ->
  exists items mb,
    dictionary = PDict items /\
    tree_post 0 (mkModel [Node_init [PStr "column A"]] 0 [] []) mb items /\
    for_each link_typenode (typenodes mb) mb = Ok m /\
    disabledNodes mb = [] /\
    NoDup (typenodes mb) /\
    (forall t, t ∈ typenodes mb -> 1 <= t /\ typenode_linked mb t).
Proof.
  unfold TreeModel_init, dictToTree. intros H. apply bind_Ok in H as (mb & Hb & Hl).
  destruct (treeFromNode_post _ _ _ _ Hb) as (items & -> & Hpost).
  { simpl. lia. }
  { intros t Ht. inversion Ht. }
  exists items, mb. split_and!; try done.
  - by destruct Hpost as (nr & cs & ts & _ & _ & _ & _ & _ & _ & -> & _).
  - destruct Hpost as (nr & cs & ts & _ & _ & _ & _ & _ & _ & _ & -> & Hnd & _). done.
  - destruct Hpost as (nr & cs & ts & _ & _ & _ & _ & _ & _ & _ & -> & _ & Hl'). done.
Qed.

(** The disabled list after construction, exactly: for every type node in
    the order of registration, the siblings recorded for the options of its
    choice leaf other than the first, one entry for every time such an option
    names the node. *)
Lemma disabled_after_construction dictionary m :
  TreeModel_init dictionary = Ok m ->
  disabledNodes m = flat_map (unselected_of m) (typenodes m).
Proof.
  intros H. destruct (TreeModel_init_inv _ _ H) as (items & mb & _ & _ & Hl & Hd & Hnd & Hlinked).
  destruct (link_loop_exact _ _ _ Hl) as [HD _].
  - assert (leaf_id mb <$> typenodes mb = (fun t => Some (S t)) <$> typenodes mb) as ->.
    { apply list_fmap_ext. intros i t Ht. apply typenode_linked_leaf, Hlinked.
      by eapply list_elem_of_lookup_2. }
    apply NoDup_fmap_2; [|done]. intros x y [= ->]. done.
  - destruct (link_loop _ _ _ Hl) as ((-> & _) & _). by rewrite HD, Hd.
Qed.

(** ** The choice leaves of a built tree *)

(** The second inner loop records an entry of [siblings] under every option
    name it writes, and no entry is lost in a later round. *)
Lemma split_options_ready_loop sibsdict len : forall a leaf leaf',
  for_each
    (fun i leaf =>
       let* sibstrings := split_field (getData leaf i) in
       let name := hd "" sibstrings in
       let leaf' := snd (setData leaf i (PStr name)) in
       let sibslist := make_sibslist sibsdict (tl sibstrings) in
       Ok (with_siblings (dict_set name sibslist (siblings leaf')) leaf'))
    (map Z.of_nat (seq a len)) leaf = Ok leaf' ->
  a + len <= numColumns leaf ->
  (forall s, is_Some (dict_get s (siblings leaf)) ->
     is_Some (dict_get s (siblings leaf'))) /\
  (forall i x, a <= i < a + len -> data leaf' !! i = Some x ->
     exists name, x = PStr name /\ is_Some (dict_get name (siblings leaf'))).
Proof.
  induction len as [|len IH]; intros a leaf leaf' Hrun Hlen; simpl in Hrun.
  - inv_ok. split; [done|]. intros i x Hi. lia.
  - apply bind_Ok in Hrun as (leaf1 & Hstep & Hrun).
    apply bind_Ok in Hstep as (sibstrings & Hsplit & Hstep).
    injection Hstep as <-.
    destruct (lookup_lt_is_Some_2 (data leaf) a) as [xa Hxa]; [unfold numColumns in Hlen; lia|].
    rewrite (getData_nat _ _ _ Hxa) in Hsplit.
    destruct xa as [| | | |sa| |]; try discriminate. injection Hsplit as <-.
    set (leaf1 := with_siblings _ _) in Hrun.
    destruct (setData_rest leaf (Z.of_nat a) (PStr (hd "" (py_split delim sa))))
      as (Hp & Hc & Hs & Hn).
    assert (data leaf1 = <[a := PStr (hd "" (py_split delim sa))]> (data leaf)) as Hd1.
    { unfold leaf1. simpl. rewrite setData_data.
      destruct (Z.ltb_spec (Z.of_nat a) 0); [lia|].
      destruct (Z.leb_spec (Z.of_nat (numColumns leaf)) (Z.of_nat a)); [lia|].
      simpl. by rewrite Nat2Z.id. }
    assert (numColumns leaf1 = numColumns leaf) as Hn1.
    { unfold numColumns. rewrite Hd1. apply length_insert. }
    assert (siblings leaf1 =
            dict_set (hd "" (py_split delim sa))
              (make_sibslist sibsdict (tl (py_split delim sa))) (siblings leaf)) as Hs1.
    { unfold leaf1. simpl. by rewrite Hs. }
    destruct (IH (S a) leaf1 leaf' Hrun) as (Hmono & Hin); [lia|].
    destruct (split_options_loop sibsdict len (S a) leaf1 leaf' Hrun)
      as (_ & _ & _ & Hout & _); [lia|].
    split.
    + intros s Hs0. apply Hmono. rewrite Hs1.
      destruct (decide (hd "" (py_split delim sa) = s)) as [<-|Hne].
      * rewrite dict_get_set_eq. eauto.
      * by rewrite dict_get_set_ne.
    + intros i x Hi Hx. destruct (decide (i = a)) as [->|Hne].
      * rewrite Hout in Hx by lia. rewrite Hd1 in Hx.
        rewrite list_lookup_insert_eq in Hx by (unfold numColumns in Hlen; lia).
        injection Hx as <-. eexists. split; [done|]. apply Hmono.
        rewrite Hs1, dict_get_set_eq. eauto.
      * apply (Hin i x); [lia | done].
Qed.

Lemma split_options_ready sibsdict leaf leaf' :
  split_options sibsdict leaf = Ok leaf' -> choice_ready leaf'.
Proof.
  unfold split_options, py_range. rewrite Nat.sub_0_r. intros H i x Hx.
  destruct (split_options_loop sibsdict _ 0 leaf leaf' H) as (_ & _ & Hn & _); [lia|].
  destruct (split_options_ready_loop sibsdict _ 0 leaf leaf' H) as (_ & Hin); [lia|].
  destruct (Hin i x) as (name & -> & [sibs Hs]); [|done|by exists name, sibs].
  apply lookup_lt_Some in Hx. unfold numColumns in *. lia.
Qed.

Lemma link_typenode_ready t m m' :
  link_typenode t m = Ok m' ->
  exists l leaf', typesleaf_of m' t = Some (l, leaf') /\ choice_ready leaf'.
Proof.
  intros H. destruct (link_typenode_step _ _ _ H)
    as (l & leaf & leaf2 & Hleaf & Hleaf' & _).
  exists l, leaf2. split; [done|].
  apply typesleaf_of_leaf_id in Hleaf' as [_ Hl2].
  revert H. unfold link_typenode, node_at. intros H.
  destruct (nodes m !! t) as [nt|] eqn:Hnt; [|done]. simpl in H.
  apply bind_Ok in H as (pn & _ & H). apply bind_Ok in H as (sibsdict & _ & H).
  apply bind_Ok in H as (leafref & Href & H). apply bind_Ok in H as (leaf0 & Hleaf0 & H).
  apply bind_Ok in H as (leaf' & Hsplit & H). apply bind_Ok in H as (D & HD & H).
  injection H as <-.
  apply (getChild_nat nt 0) in Href. apply deref_Ok in Hleaf0 as (l' & -> & Hl).
  unfold typesleaf_of in Hleaf. rewrite Hnt, <- Href, Hl in Hleaf.
  injection Hleaf as <- <-. simpl in Hl2. rewrite list_lookup_alter_eq, Hl in Hl2.
  injection Hl2 as <-. by eapply split_options_ready.
Qed.

(** After the loop over the type nodes, the choice leaf of every type node
    of the list holds option names, each with its entry in [siblings]. *)
Lemma link_loop_ready ts : forall m m',
  for_each link_typenode ts m = Ok m' ->
  forall t l leaf, t ∈ ts -> typesleaf_of m' t = Some (l, leaf) -> choice_ready leaf.
Proof.
  induction ts as [|t0 ts IH]; intros m m' Hrun t l leaf Ht Hleaf; simpl in Hrun.
  - inversion Ht.
  - apply bind_Ok in Hrun as (m1 & Hstep & Hrun).
    apply elem_of_cons in Ht as [->|Ht]; [|by apply (IH m1 m' Hrun t l leaf)].
    destruct (link_typenode_ready _ _ _ Hstep) as (l0 & leaf0 & Hleaf0 & Hready).
    destruct (link_loop _ _ _ Hrun) as (Hsame & Hframe & _).
    apply typesleaf_of_leaf_id in Hleaf as [Hid Hl].
    apply typesleaf_of_leaf_id in Hleaf0 as [Hid0 Hl0].
    rewrite (same_tree_leaf_id_eq m1 m' t0 Hsame), Hid0 in Hid. injection Hid as <-.
    destruct (decide (Some l0 ∈ leaf_id m1 <$> ts)) as [Hin|Hnin].
    + apply list_elem_of_fmap in Hin as (t & Ht & Hin).
      apply (IH m1 m' Hrun t l0 leaf Hin). apply typesleaf_of_leaf_id. split; [|done].
      by rewrite (same_tree_leaf_id_eq m1 m' t Hsame).
    + rewrite (Hframe l0 Hnin), Hl0 in Hl. by injection Hl as <-.
Qed.

(** In a built tree every registered type node [t] has one child, the
    choice leaf [S t]: a leaf under a node called 'type' whose fields are
    option names, each with an entry in [siblings].  These are the nodes on
    which the selection change of the delegate takes its 'type' branch. *)
Lemma built_choice_leaf dictionary m t :
  TreeModel_init dictionary = Ok m -> t ∈ typenodes m ->
  exists leaf,
    typesleaf_of m t = Some (S t, leaf) /\
    parent leaf = Some t /\ children leaf = [] /\
    under_type m leaf = Ok true /\ choice_ready leaf.
Proof.
  intros H Ht.
  destruct (TreeModel_init_inv _ _ H) as (items & mb & _ & _ & Hl & _ & _ & Hlinked).
  destruct (link_loop _ _ _ Hl) as (Hsame & Hframe & _ & _ & _).
  pose proof Hsame as (Hts & _ & _ & Hn).
  assert (t ∈ typenodes mb) as Ht' by congruence.
  destruct (Hlinked t Ht') as [_ Hlk].
  pose proof Hlk as (nt & nl & Hnt & Hc & Hnl & Hp & Hd & Hcl & _).
  destruct (Hn (S t) nl Hnl) as (leaf & Hleaf & Hcl' & Hp').
  assert (nodes m !! t = Some nt) as Hnt'.
  { rewrite Hframe; [done|]. intros Hin.
    apply list_elem_of_fmap in Hin as (t' & Heq & Hin).
    destruct (Hlinked t' Hin) as [_ Hlk'].
    rewrite (typenode_linked_leaf _ _ Hlk') in Heq. injection Heq as ->.
    destruct Hlk' as (nt2 & nl2 & _ & _ & Hnl2 & _ & _ & Hcl2 & _).
    rewrite Hnt in Hnl2. injection Hnl2 as <-. rewrite Hc in Hcl2. discriminate. }
  assert (typesleaf_of m t = Some (S t, leaf)) as Htl.
  { apply typesleaf_of_leaf_id. split; [|done].
    rewrite (same_tree_leaf_id_eq mb m t Hsame). by apply typenode_linked_leaf. }
  exists leaf. split_and!.
  - done.
  - congruence.
  - congruence.
  - apply (under_type_parent m leaf t nt); [congruence | done |].
    unfold getData. by rewrite Hd.
  - by apply (link_loop_ready _ _ _ Hl t (S t) leaf).
Qed.

(** ** What the sibling lists record *)

(** [sibslist] holds the nodes that the parameters name in [sibsdict]. *)
Lemma make_sibslist_elem (sibsdict : list (string * nat)) params x :
  x ∈ make_sibslist sibsdict params <->
  exists param, param ∈ params /\ dict_get param sibsdict = Some x.
Proof.
  induction params as [|p params IH]; simpl.
  - split; [intros H; inversion H | intros (q & H & _); inversion H].
  - destruct (dict_get p sibsdict) as [nd|] eqn:Hp.
    + rewrite elem_of_cons, IH. split.
      * intros [->|(q & Hq & Hx)].
        -- exists p. split; [apply list_elem_of_here | done].
        -- exists q. split; [by apply list_elem_of_further | done].
      * intros (q & Hq & Hx). apply elem_of_cons in Hq as [->|Hq].
        -- left. congruence.
        -- right. eauto.
    + rewrite IH. split.
      * intros (q & Hq & Hx). exists q. split; [by apply list_elem_of_further | done].
      * intros (q & Hq & Hx). apply elem_of_cons in Hq as [->|Hq]; [congruence | eauto].
Qed.

(** [sibsdict] maps a name to a child of [parent] with that first field. *)
Lemma make_sibsdict_spec m parent sibsdict :
  make_sibsdict m parent = Ok sibsdict ->
  forall param c, dict_get param sibsdict = Some c ->
    c ∈ children parent /\
    exists nc, nodes m !! c = Some nc /\ getData nc 0 = PStr param.
Proof.
  intros H.
  refine (for_each_invariant _
            (fun sd : list (string * nat) => forall param c, dict_get param sd = Some c ->
               c ∈ children parent /\
               exists nc, nodes m !! c = Some nc /\ getData nc 0 = PStr param)
            _ _ [] sibsdict _ H).
  - intros i sd sd' Hi Hsd Hbody param c Hget.
    unfold py_range in Hi. apply list_elem_of_fmap in Hi as (j & -> & _).
    apply bind_Ok in Hbody as (c1 & Hc1 & Hbody).
    apply bind_Ok in Hbody as (n1 & Hn1 & Hbody).
    apply bind_Ok in Hbody as (c2 & Hc2 & Hbody).
    rewrite Hc1 in Hc2. injection Hc2 as <-.
    apply deref_Ok in Hn1 as (c0 & -> & Hn1).
    apply getChild_nat in Hc1. symmetry in Hc1.
    unfold sibsdict_set in Hbody.
    destruct (getData n1 0) as [| | | |s| |] eqn:Hd; try discriminate;
      injection Hbody as <-; try by apply Hsd.
    destruct (decide (s = param)) as [->|Hne].
    + rewrite dict_get_set_eq in Hget. injection Hget as <-. split.
      * by eapply list_elem_of_lookup_2.
      * eauto.
    + rewrite dict_get_set_ne in Hget by done. by apply Hsd.
  - intros param c Hget. discriminate.
Qed.

(** Every entry of [siblings] after the second inner loop was there before
    or is the sibling list of one of the option strings. *)
Lemma split_options_entries_loop sibsdict len : forall a leaf leaf',
  for_each
    (fun i leaf =>
       let* sibstrings := split_field (getData leaf i) in
       let name := hd "" sibstrings in
       let leaf' := snd (setData leaf i (PStr name)) in
       let sibslist := make_sibslist sibsdict (tl sibstrings) in
       Ok (with_siblings (dict_set name sibslist (siblings leaf')) leaf'))
    (map Z.of_nat (seq a len)) leaf = Ok leaf' ->
  a + len <= numColumns leaf ->
  forall name sibs, dict_get name (siblings leaf') = Some sibs ->
    dict_get name (siblings leaf) = Some sibs \/
    exists i s, a <= i < a + len /\ data leaf !! i = Some (PStr s) /\
                name = hd "" (py_split delim s) /\
                sibs = make_sibslist sibsdict (tl (py_split delim s)).
Proof.
  induction len as [|len IH]; intros a leaf leaf' Hrun Hlen name sibs Hget; simpl in Hrun.
  - inv_ok. by left.
  - apply bind_Ok in Hrun as (leaf1 & Hstep & Hrun).
    apply bind_Ok in Hstep as (sibstrings & Hsplit & Hstep).
    injection Hstep as <-.
    destruct (lookup_lt_is_Some_2 (data leaf) a) as [xa Hxa]; [unfold numColumns in Hlen; lia|].
    rewrite (getData_nat _ _ _ Hxa) in Hsplit.
    destruct xa as [| | | |sa| |]; try discriminate. injection Hsplit as <-.
    set (leaf1 := with_siblings _ _) in Hrun.
    destruct (setData_rest leaf (Z.of_nat a) (PStr (hd "" (py_split delim sa))))
      as (Hp & Hc & Hs & Hn).
    assert (data leaf1 = <[a := PStr (hd "" (py_split delim sa))]> (data leaf)) as Hd1.
    { unfold leaf1. simpl. rewrite setData_data.
      destruct (Z.ltb_spec (Z.of_nat a) 0); [lia|].
      destruct (Z.leb_spec (Z.of_nat (numColumns leaf)) (Z.of_nat a)); [lia|].
      simpl. by rewrite Nat2Z.id. }
    assert (numColumns leaf1 = numColumns leaf) as Hn1.
    { unfold numColumns. rewrite Hd1. apply length_insert. }
    assert (siblings leaf1 =
            dict_set (hd "" (py_split delim sa))
              (make_sibslist sibsdict (tl (py_split delim sa))) (siblings leaf)) as Hs1.
    { unfold leaf1. simpl. by rewrite Hs. }
    destruct (IH (S a) leaf1 leaf' Hrun) with (name := name) (sibs := sibs)
      as [Hold|(i & s & Hrange & Hi & Hname & Hsibs)]; [lia | done | |].
    + rewrite Hs1 in Hold.
      destruct (decide (hd "" (py_split delim sa) = name)) as [Heq|Hne].
      * rewrite Heq, dict_get_set_eq in Hold. injection Hold as <-.
        right. exists a, sa. split; [lia | done].
      * rewrite dict_get_set_ne in Hold by done. by left.
    + right. rewrite Hd1, list_lookup_insert_ne in Hi by lia.
      exists i, s. split; [lia | done].
Qed.

Lemma split_options_entries sibsdict leaf leaf' name sibs :
  split_options sibsdict leaf = Ok leaf' ->
  siblings leaf = [] ->
  dict_get name (siblings leaf') = Some sibs ->
  exists i s, data leaf !! i = Some (PStr s) /\
              name = hd "" (py_split delim s) /\
              sibs = make_sibslist sibsdict (tl (py_split delim s)).
Proof.
  unfold split_options, py_range. rewrite Nat.sub_0_r. intros H Hnil Hget.
  destruct (split_options_entries_loop sibsdict _ 0 leaf leaf' H) with (name := name) (sibs := sibs)
    as [Hold|(i & s & _ & Hi)]; [lia | done | |].
  - by rewrite Hnil in Hold.
  - by exists i, s.
Qed.
(** ** Invariants of the construction *)

Lemma attach_length m r d :
  length (nodes (appendChild r (length (nodes m))
                   (with_nodes (nodes m ++ [Node_init d]) m)))
  = S (length (nodes m)).
Proof.
  unfold appendChild, update_node. simpl. rewrite !length_alter, length_app. simpl. lia.
Qed.

(** A property of the model that allocating a node under an existing one
    and registering type nodes keep is kept by [treeFromNode]. *)
Section TreeInvariant.
Variable I : TreeModel -> Prop.
Hypothesis I_attach : forall m r d, I m -> r < length (nodes m) ->
  I (appendChild r (length (nodes m)) (with_nodes (nodes m ++ [Node_init d]) m)).
Hypothesis I_typenodes : forall m ts, I m -> I (with_typenodes ts m).

Lemma tree_item_invariant k v r m m3 :
  (forall r m m', treeFromNode v r m = Ok m' -> r < length (nodes m) -> I m ->
     I m' /\ length (nodes m) <= length (nodes m')) ->
  tree_item r (k, v) m = Ok m3 -> r < length (nodes m) -> I m ->
  I m3 /\ length (nodes m) <= length (nodes m3).
Proof.
  intros IHv Hitem Hr HI. unfold tree_item, new_node in Hitem.
  pose proof (I_attach m r [PStr k] HI Hr) as HI2.
  pose proof (attach_length m r [PStr k]) as Hlen2.
  set (c := length (nodes m)) in *.
  set (m2 := appendChild r c _) in *. clearbody m2.
  destruct v as [| | | | |entry|sub]; try (injection Hitem as <-; split; [done|lia]).
  - apply bind_Ok in Hitem as (second & _ & Hitem).
    assert ((let (leaf, m') :=
               match second with
               | PList options => (length (nodes m2), with_nodes (nodes m2 ++ [Node_init options]) m2)
               | _ => (length (nodes m2), with_nodes (nodes m2 ++ [Node_init [second]]) m2)
               end in
             if decide (k = "type")
             then Ok (with_typenodes (typenodes (appendChild c leaf m') ++ [c]) (appendChild c leaf m'))
             else Ok (appendChild c leaf m'))
            = (let m'' := appendChild c (length (nodes m2))
                            (with_nodes (nodes m2 ++ [Node_init (leaf_data second)]) m2) in
               if decide (k = "type")
               then Ok (with_typenodes (typenodes m'' ++ [c]) m'')
               else Ok m'')) as Heq.
    { by destruct second. }
    rewrite Heq in Hitem. clear Heq.
    assert (c < length (nodes m2)) as Hc by lia.
    pose proof (I_attach m2 c (leaf_data second) HI2 Hc) as HI3.
    pose proof (attach_length m2 c (leaf_data second)) as Hlen3.
    set (m'' := appendChild c (length (nodes m2)) _) in *. clearbody m''. simpl in Hitem.
    destruct (decide (k = "type")); injection Hitem as <-.
    + split; [by apply I_typenodes | simpl; lia].
    + split; [done | lia].
  - destruct (IHv c m2 m3 Hitem) as [HI3 Hlen3]; [lia | done |]. split; [done | lia].
Qed.

Lemma tree_loop_invariant items :
  Forall (fun kv => forall r m m', treeFromNode (snd kv) r m = Ok m' ->
            r < length (nodes m) -> I m ->
            I m' /\ length (nodes m) <= length (nodes m')) items ->
  forall r m m',
  for_each (tree_item r) items m = Ok m' -> r < length (nodes m) -> I m ->
  I m' /\ length (nodes m) <= length (nodes m').
Proof.
  induction 1 as [|[k v] items Hv _ IH]; intros r m m' Hrun Hr HI; cbn [for_each] in Hrun.
  - inv_ok. done.
  - apply bind_Ok in Hrun as (m3 & Hitem & Hrun).
    destruct (tree_item_invariant k v r m m3 Hv Hitem Hr HI) as [HI3 Hlen3].
    destruct (IH r m3 m' Hrun) as [HI' Hlen']; [lia | done |]. split; [done | lia].
Qed.

Lemma treeFromNode_invariant v : forall r m m',
  treeFromNode v r m = Ok m' -> r < length (nodes m) -> I m ->
  I m' /\ length (nodes m) <= length (nodes m').
Proof.
  induction v as [| | | | | |items IH] using pyval_nested_ind;
    intros r m m' Hrun Hr HI; try discriminate.
  rewrite treeFromNode_items in Hrun. by apply (tree_loop_invariant items IH r m m').
Qed.
End TreeInvariant.

Lemma attach_consistent m r d :
  tree_consistent m -> r < length (nodes m) ->
  tree_consistent (appendChild r (length (nodes m))
                     (with_nodes (nodes m ++ [Node_init d]) m)).
Proof.
  intros [Ha Hb] Hr. destruct (lookup_lt_is_Some_2 _ _ Hr) as [nr Hnr].
  destruct (attach_spec m r nr d Hnr) as (A1 & A2 & A3 & A4 & _).
  set (m2 := appendChild r (length (nodes m)) (with_nodes (nodes m ++ [Node_init d]) m)) in *.
  clearbody m2.
  assert (forall i n, nodes m !! i = Some n -> i < length (nodes m)) as Hlt.
  { intros i n Hi. by apply lookup_lt_Some in Hi. }
  assert (forall i n, nodes m2 !! i = Some n ->
            i = length (nodes m) \/ i = r \/ (i <> r /\ nodes m !! i = Some n)) as Hcases.
  { intros i n Hi. destruct (decide (i = length (nodes m))); [by left|].
    destruct (decide (i = r)); [by right; left|]. right; right.
    pose proof (lookup_lt_Some _ _ _ Hi) as Hi'. rewrite A4 in Hi'.
    rewrite A3 in Hi by lia. done. }
  assert (forall p np x, nodes m !! p = Some np -> x ∈ children np ->
            exists np', nodes m2 !! p = Some np' /\ x ∈ children np') as Hup.
  { intros p np x Hp Hx. destruct (decide (p = r)) as [->|Hne].
    - rewrite Hnr in Hp. injection Hp as <-. eexists. split; [exact A1|].
      simpl. apply elem_of_app. by left.
    - exists np. split; [|done]. rewrite A3; [done | by eapply Hlt | done]. }
  assert (forall x nx p, nodes m !! x = Some nx -> parent nx = Some p ->
            exists nx', nodes m2 !! x = Some nx' /\ parent nx' = Some p) as Hdown.
  { intros x nx p Hx Hp. destruct (decide (x = r)) as [->|Hne].
    - rewrite Hnr in Hx. injection Hx as <-. eexists. split; [exact A1|]. done.
    - exists nx. split; [|done]. rewrite A3; [done | by eapply Hlt | done]. }
  split.
  - intros x nx p Hx Hp. destruct (Hcases x nx Hx) as [->|[->|(Hne & Hx')]].
    + rewrite A2 in Hx. injection Hx as <-. simpl in Hp. injection Hp as <-.
      eexists. split; [exact A1|]. simpl. apply elem_of_app. right.
      apply list_elem_of_here.
    + rewrite A1 in Hx. injection Hx as <-. simpl in Hp.
      destruct (Ha r nr p Hnr Hp) as (np & Hnp & Hin). by apply (Hup p np r).
    + destruct (Ha x nx p Hx' Hp) as (np & Hnp & Hin). by apply (Hup p np x).
  - intros p np x Hp Hx. destruct (Hcases p np Hp) as [->|[->|(Hne & Hp')]].
    + rewrite A2 in Hp. injection Hp as <-. simpl in Hx. inversion Hx.
    + rewrite A1 in Hp. injection Hp as <-. simpl in Hx.
      apply elem_of_app in Hx as [Hx|Hx].
      * destruct (Hb r nr x Hnr Hx) as (nx & Hnx & Hpx). by apply (Hdown x nx r).
      * apply list_elem_of_singleton in Hx as ->. eexists. split; [exact A2|]. done.
    + destruct (Hb p np x Hp' Hx) as (nx & Hnx & Hpx). by apply (Hdown x nx p).
Qed.

(** The tree as [treeFromNode] leaves it, before the type nodes are
    linked. *)
Lemma built_tree_facts dictionary mb :
  treeFromNode dictionary 0 (mkModel [Node_init [PStr "column A"]] 0 [] []) = Ok mb ->
  tree_consistent mb /\ NoDup (typenodes mb) /\
  NoDup (leaf_id mb <$> typenodes mb) /\
  (forall t, t ∈ typenodes mb -> typenode_linked mb t).
Proof.
  intros Hb.
  destruct (treeFromNode_invariant tree_consistent attach_consistent
              (fun m ts H => H) _ _ _ _ Hb) as [Hcons _].
  { simpl. lia. }
  { split.
    - intros [|c] nc p Hc Hp; [|done]. injection Hc as <-. done.
    - intros [|p] np c Hp Hc; [|done]. injection Hp as <-. inversion Hc. }
  destruct (treeFromNode_post _ _ _ _ Hb) as (items & -> & Hpost).
  { simpl. lia. }
  { intros t Ht. inversion Ht. }
  destruct Hpost as (nr & cs & ts & _ & _ & _ & _ & _ & _ & _ & Hts & Hnd & Hl').
  simpl in Hts. rewrite Hts.
  assert (forall t, t ∈ ts -> typenode_linked mb t) as Hlinked.
  { intros t Ht. by apply Hl'. }
  split_and!; try done.
  assert (leaf_id mb <$> ts = (fun t => Some (S t)) <$> ts) as ->.
  { apply list_fmap_ext. intros i t Ht. apply typenode_linked_leaf, Hlinked.
    by eapply list_elem_of_lookup_2. }
  apply NoDup_fmap_2; [|done]. intros x y [= ->]. done.
Qed.




(** Every child of [parent] with a string for its first field has its name
    in [sibsdict]. *)
Lemma make_sibsdict_loop m parent len : forall a sibsdict sibsdict',
  for_each
    (fun i sibsdict =>
       let* c1 := getChild parent i in
       let* n1 := deref m c1 in
       let* c2 := getChild parent i in
       match c2 with
       | Some c => sibsdict_set (getData n1 0) c sibsdict
       | None => Ok sibsdict
       end)
    (map Z.of_nat (seq a len)) sibsdict = Ok sibsdict' ->
  (forall p, is_Some (dict_get p sibsdict) -> is_Some (dict_get p sibsdict')) /\
  (forall j c nc p, a <= j < a + len ->
     children parent !! j = Some c -> nodes m !! c = Some nc -> getData nc 0 = PStr p ->
     is_Some (dict_get p sibsdict')).
Proof.
  induction len as [|len IH]; intros a sd sd' Hrun; simpl in Hrun.
  - inv_ok. split; [done|]. intros j c nc p Hj. lia.
  - apply bind_Ok in Hrun as (sd1 & Hbody & Hrun).
    apply bind_Ok in Hbody as (c1 & Hc1 & Hbody).
    apply bind_Ok in Hbody as (n1 & Hn1 & Hbody).
    apply bind_Ok in Hbody as (c2 & Hc2 & Hbody).
    rewrite Hc1 in Hc2. injection Hc2 as <-.
    apply deref_Ok in Hn1 as (c0 & -> & Hn1).
    apply getChild_nat in Hc1. symmetry in Hc1.
    destruct (IH (S a) sd1 sd' Hrun) as [Hmono Hin].
    assert (forall p, is_Some (dict_get p sd) -> is_Some (dict_get p sd1)) as Hmono1.
    { intros p Hp. unfold sibsdict_set in Hbody.
      destruct (getData n1 0) as [| | | |s| |]; try discriminate;
        injection Hbody as <-; try done.
      destruct (decide (s = p)) as [->|Hne].
      - rewrite dict_get_set_eq. eauto.
      - by rewrite dict_get_set_ne. }
    split; [by auto|].
    intros j c nc p Hj Hc Hnc Hd. destruct (decide (j = a)) as [->|Hne].
    + rewrite Hc1 in Hc. injection Hc as <-. rewrite Hn1 in Hnc. injection Hnc as <-.
      apply Hmono. unfold sibsdict_set in Hbody. rewrite Hd in Hbody.
      injection Hbody as <-. rewrite dict_get_set_eq. eauto.
    + apply (Hin j c nc p); [lia | done | done | done].
Qed.

Lemma make_sibsdict_complete m parent sibsdict c nc param :
  make_sibsdict m parent = Ok sibsdict ->
  c ∈ children parent -> nodes m !! c = Some nc -> getData nc 0 = PStr param ->
  is_Some (dict_get param sibsdict).
Proof.
  unfold make_sibsdict, py_range. rewrite Nat.sub_0_r. intros H Hc Hnc Hd.
  apply list_elem_of_lookup_1 in Hc as [j Hj].
  destruct (make_sibsdict_loop m parent _ 0 [] sibsdict H) as [_ Hin].
  apply (Hin j c nc param); [|done|done|done].
  apply lookup_lt_Some in Hj. unfold numChildren. lia.
Qed.
(** One round of the loop over the type nodes, step by step. *)
Lemma link_typenode_inv t m m' :
  link_typenode t m = Ok m' ->
  exists nt p np sibsdict l leaf leaf',
    nodes m !! t = Some nt /\ parent nt = Some p /\ nodes m !! p = Some np /\
    make_sibsdict m np = Ok sibsdict /\
    children nt !! 0 = Some l /\ nodes m !! l = Some leaf /\
    split_options sibsdict leaf = Ok leaf' /\
    nodes m' !! l = Some leaf'.
Proof.
  unfold link_typenode, node_at. intros H.
  destruct (nodes m !! t) as [nt|] eqn:Hnt; [|done]. simpl in H.
  apply bind_Ok in H as (np & Hnp & H). apply bind_Ok in H as (sibsdict & Hsd & H).
  apply bind_Ok in H as (leafref & Href & H). apply bind_Ok in H as (leaf & Hleaf & H).
  apply bind_Ok in H as (leaf' & Hsplit & H). apply bind_Ok in H as (D & HD & H).
  injection H as <-.
  apply (getChild_nat nt 0) in Href. apply deref_Ok in Hleaf as (l & -> & Hl).
  apply deref_Ok in Hnp as (p & Hp & Hnp).
  exists nt, p, np, sibsdict, l, leaf, leaf'. split_and!; try done.
  simpl. by rewrite list_lookup_alter_eq, Hl.
Qed.

(** The round of a type node within the loop: the state it starts from has
    the tree and every node but the choice leaves of the list as the loop
    found them, the choice leaf of the type node too, and no later round
    touches that leaf. *)
Lemma link_loop_round ts : forall m m' t,
  for_each link_typenode ts m = Ok m' ->
  NoDup (leaf_id m <$> ts) -> t ∈ ts ->
  exists mk mk',
    link_typenode t mk = Ok mk' /\
    (forall x, Some x ∉ leaf_id m <$> ts -> nodes mk !! x = nodes m !! x) /\
    (forall l, leaf_id m t = Some l ->
       nodes mk !! l = nodes m !! l /\ nodes m' !! l = nodes mk' !! l).
Proof.
  induction ts as [|t0 ts IH]; intros m m' t Hrun Hnd Ht; simpl in Hrun.
  - inversion Ht.
  - apply bind_Ok in Hrun as (m1 & Hstep & Hrun).
    destruct (link_typenode_step _ _ _ Hstep)
      as (l0 & leaf0 & leaf0' & Hleaf0 & Hleaf0' & Hsame1 & Hother & _).
    rewrite fmap_cons in Hnd. apply NoDup_cons in Hnd as [Hfresh Hnd].
    assert (leaf_id m1 <$> ts = leaf_id m <$> ts) as Hids.
    { apply list_fmap_ext. intros _ t' _. by apply same_tree_leaf_id_eq. }
    apply typesleaf_of_leaf_id in Hleaf0 as [Hid0 Hl0].
    destruct (link_loop _ _ _ Hrun) as (_ & Hframe & _).
    apply elem_of_cons in Ht as [->|Ht].
    + exists m, m1. split_and!; try done. intros l Hl. split; [done|].
      apply Hframe. rewrite Hids, <- Hl. exact Hfresh.
    + destruct (IH m1 m' t Hrun) as (mk & mk' & Hk & Hframek & Hleafk);
        [by rewrite Hids | done |].
      exists mk, mk'. split_and!; try done.
      * intros x Hx. rewrite fmap_cons in Hx. apply not_elem_of_cons in Hx as [Hx0 Hx].
        rewrite Hframek by (by rewrite Hids). apply Hother. congruence.
      * intros l Hl. destruct (Hleafk l) as [Hk1 Hk2].
        { by rewrite (same_tree_leaf_id_eq m m1 t Hsame1). }
        split; [|done]. rewrite Hk1. apply Hother. intros ->. apply Hfresh.
        rewrite Hid0, <- Hl. apply list_elem_of_fmap. eauto.
Qed.

(** In the tree as [treeFromNode] leaves it, a node with a child, and a
    child of the parent of a type node, is not the choice leaf of a type
    node. *)
Lemma parent_is_no_choice_leaf mb y ny :
  (forall t, t ∈ typenodes mb -> typenode_linked mb t) ->
  nodes mb !! y = Some ny -> children ny <> [] ->
  Some y ∉ leaf_id mb <$> typenodes mb.
Proof.
  intros Hlinked Hy Hc Hin. apply list_elem_of_fmap in Hin as (t' & Heq & Hin).
  pose proof (Hlinked t' Hin) as Hlk.
  rewrite (typenode_linked_leaf _ _ Hlk) in Heq. injection Heq as ->.
  destruct Hlk as (nt2 & nl2 & _ & _ & Hnl2 & _ & _ & Hcl2 & _).
  rewrite Hy in Hnl2. injection Hnl2 as <-. done.
Qed.

Lemma sibling_is_no_choice_leaf mb t nt p np x :
  tree_consistent mb ->
  (forall t, t ∈ typenodes mb -> typenode_linked mb t) ->
  t ∈ typenodes mb ->
  nodes mb !! t = Some nt -> parent nt = Some p -> nodes mb !! p = Some np ->
  x ∈ children np ->
  Some x ∉ leaf_id mb <$> typenodes mb.
Proof.
  intros [Ha Hb] Hlinked Ht Hnt Hp Hnp Hx Hin.
  apply list_elem_of_fmap in Hin as (t' & Heq & Hin).
  pose proof (Hlinked t' Hin) as Hlk'.
  rewrite (typenode_linked_leaf _ _ Hlk') in Heq. injection Heq as ->.
  destruct Hlk' as (nt' & nl' & Hnt' & Hc' & Hnl' & Hp' & _ & Hcl' & _).
  destruct (Hb p np (S t') Hnp Hx) as (nx & Hnx & Hpx).
  rewrite Hnl' in Hnx. injection Hnx as <-.
  assert (p = t') as -> by congruence.
  rewrite Hnt' in Hnp. injection Hnp as <-.
  destruct (Ha t nt t' Hnt Hp) as (np2 & Hnp2 & Hin2).
  rewrite Hnt' in Hnp2. injection Hnp2 as <-. rewrite Hc' in Hin2.
  apply list_elem_of_singleton in Hin2 as ->.
  destruct (Hlinked (S t') Ht) as (nt2 & _ & Hnt2 & Hc2 & _).
  rewrite Hnl' in Hnt2. injection Hnt2 as <-. by rewrite Hcl' in Hc2.
Qed.

(** The round of the loop for a type node [t] of a built tree: its choice
    leaf is the one [treeFromNode] made, its name-to-node map holds the
    siblings of [t], and the leaf after the round is the leaf of the built
    tree. *)
Lemma built_round dictionary mb m t :
  treeFromNode dictionary 0 (mkModel [Node_init [PStr "column A"]] 0 [] []) = Ok mb ->
  TreeModel_init dictionary = Ok m ->
  t ∈ typenodes m ->
  exists nt p np sibsdict leafb leaf,
    nodes m !! t = Some nt /\ children nt = [S t] /\ parent nt = Some p /\
    nodes m !! p = Some np /\
    nodes mb !! S t = Some leafb /\ siblings leafb = [] /\
    nodes m !! S t = Some leaf /\
    split_options sibsdict leafb = Ok leaf /\
    (forall param x, dict_get param sibsdict = Some x -> sibling_called m t param x) /\
    (forall param x, sibling_called m t param x -> is_Some (dict_get param sibsdict)).
Proof.
  intros Hb Hinit Ht.
  unfold TreeModel_init, dictToTree in Hinit. simpl in Hinit.
  apply bind_Ok in Hinit as (mb' & Hb' & Hl). rewrite Hb in Hb'. injection Hb' as <-.
  destruct (built_tree_facts _ _ Hb) as (Hcons & _ & Hnd & Hlinked).
  destruct (link_loop _ _ _ Hl) as (Hsame & Hframe & _).
  assert (t ∈ typenodes mb) as Ht'.
  { destruct Hsame as (Hts & _). congruence. }
  pose proof (Hlinked t Ht') as Hlk.
  pose proof Hlk as (nt & nl & Hnt & Hc & Hnl & Hpl & Hd & Hcl & Hsib).
  destruct (link_loop_round _ _ _ t Hl Hnd Ht') as (mk & mk' & Hstep & Hframek & Hleafk).
  destruct (Hleafk (S t) (typenode_linked_leaf _ _ Hlk)) as [Hk1 Hk2].
  destruct (link_typenode_inv _ _ _ Hstep)
    as (ntk & p & npk & sd & l & leafk & leafk' & Hntk & Hpk & Hnpk & Hsd & Hl0 &
        Hleafk0 & Hsplit & Hleafk').
  assert (Some t ∉ leaf_id mb <$> typenodes mb) as Hnt_leaf.
  { apply (parent_is_no_choice_leaf mb t nt); [done | done | by rewrite Hc]. }
  rewrite (Hframek t Hnt_leaf), Hnt in Hntk. injection Hntk as <-.
  rewrite Hc in Hl0. injection Hl0 as <-.
  rewrite Hk1, Hnl in Hleafk0. injection Hleafk0 as <-.
  pose proof Hcons as [Ha Hbk].
  destruct (Ha t nt p Hnt Hpk) as (np & Hnp & Htp).
  assert (Some p ∉ leaf_id mb <$> typenodes mb) as Hp_leaf.
  { apply (parent_is_no_choice_leaf mb p np); [done | done |].
    intros Hnil. rewrite Hnil in Htp. inversion Htp. }
  rewrite (Hframek p Hp_leaf), Hnp in Hnpk. injection Hnpk as <-.
  assert (forall x, x ∈ children np -> Some x ∉ leaf_id mb <$> typenodes mb) as Hx_leaf.
  { intros x Hx. by apply (sibling_is_no_choice_leaf mb t nt p np x). }
  exists nt, p, np, sd, nl, leafk'. split_and!; try done.
  - by rewrite Hframe.
  - by rewrite Hframe.
  - by rewrite Hk2.
  - intros param x Hget.
    destruct (make_sibsdict_spec _ _ _ Hsd param x Hget) as (Hxc & nx & Hnx & Hdx).
    rewrite (Hframek x (Hx_leaf x Hxc)) in Hnx.
    exists nt, p, np, nx. rewrite !Hframe by auto. done.
  - intros param x (nt' & p' & np' & nx & Hnt' & Hp' & Hnp' & Hxc & Hnx & Hdx).
    rewrite Hframe, Hnt in Hnt' by done. injection Hnt' as <-.
    assert (p' = p) as -> by congruence.
    rewrite Hframe, Hnp in Hnp' by done. injection Hnp' as <-.
    apply (make_sibsdict_complete mk np sd x nx param); try done.
    rewrite (Hframek x (Hx_leaf x Hxc)). by rewrite <- (Hframe x (Hx_leaf x Hxc)).
Qed.

(** What a choice leaf of a built tree records: every node in the entry of
    [siblings] under an option name is a sibling of the type node, and its
    first field is a parameter of an option string with that name, a field
    of the leaf as [treeFromNode] made it. *)
Lemma recorded_siblings_named dictionary mb m t leaf name sibs x :
  treeFromNode dictionary 0 (mkModel [Node_init [PStr "column A"]] 0 [] []) = Ok mb ->
  TreeModel_init dictionary = Ok m ->
  t ∈ typenodes m ->
  nodes m !! S t = Some leaf ->
  dict_get name (siblings leaf) = Some sibs ->
  x ∈ sibs ->
  exists leafb i s param,
    nodes mb !! S t = Some leafb /\ data leafb !! i = Some (PStr s) /\
    name = hd "" (py_split delim s) /\ param ∈ tl (py_split delim s) /\
    sibling_called m t param x.
Proof.
  intros Hb Hinit Ht Hleaf Hname Hx.
  destruct (built_round _ _ _ _ Hb Hinit Ht)
    as (nt & p & np & sd & leafb & leaf' & Hnt & Hc & Hp & Hnp & Hleafb & Hsib & Hleaf' &
        Hsplit & Hsound & _).
  rewrite Hleaf in Hleaf'. injection Hleaf' as <-.
  destruct (split_options_entries _ _ _ _ _ Hsplit Hsib Hname) as (i & s & Hi & -> & ->).
  apply make_sibslist_elem in Hx as (param & Hparam & Hget).
  exists leafb, i, s, param. split_and!; try done. by apply Hsound.
Qed.


(** On a built tree the selection of any option of a choice leaf with more
    than one option is handled by the 'type' branch of [setModelData] and
    returns. *)
Lemma built_leaf_selection dictionary m t leaf i :
  TreeModel_init dictionary = Ok m -> t ∈ typenodes m ->
  nodes m !! S t = Some leaf -> 1 < numColumns leaf -> i < numColumns leaf ->
  exists editor m',
    choose leaf i = Some editor /\ setModelData editor m (S t) = Ok (Some m').
Proof.
  intros Hinit Ht Hleaf Hcols Hi.
  destruct (built_choice_leaf _ _ _ Hinit Ht) as (leaf' & Htl & Hp & Hc & Htype & Hready).
  apply typesleaf_of_leaf_id in Htl as [_ Hl]. rewrite Hleaf in Hl. injection Hl as <-.
  destruct (lookup_lt_is_Some_2 (data leaf) 0) as [x0 H0]; [unfold numColumns in Hcols; lia|].
  destruct (lookup_lt_is_Some_2 (data leaf) i) as [xi Hxi]; [done|].
  destruct (Hready 0 x0 H0) as (old & sibs0 & -> & Hold).
  destruct (Hready i xi Hxi) as (name & sibsi & -> & Hnew).
  exists (mkCombo (Z.of_nat i) name). eexists. split.
  - unfold choose. by rewrite Hxi.
  - by apply (setModelData_choice (mkCombo (Z.of_nat i) name) m (S t) leaf old sibs0 sibsi).
Qed.

Lemma map_result_lookup {A B} (f : A -> result B) xs : forall ys,
  length xs = length ys ->
  (forall i x y, xs !! i = Some x -> ys !! i = Some y -> f x = Ok y) ->
  map_result f xs = Ok ys.
Proof.
  induction xs as [|x xs IH]; intros [|y ys] Hlen H; simpl in *; try done.
  rewrite (H 0 x y eq_refl eq_refl). simpl.
  rewrite (IH ys); [done | lia |]. intros i x' y' Hx Hy. by apply (H (S i)).
Qed.

(** The list comprehension of [dictFromNode] collects the children. *)
Lemma child_list n :
  map_result (getChild n) (py_range 0 (numChildren n)) = Ok (Some <$> children n).
Proof.
  apply map_result_lookup.
  - unfold py_range, numChildren. by rewrite !length_fmap, length_seq, Nat.sub_0_r.
  - intros i x y Hx Hy. unfold py_range in Hx.
    apply list_lookup_fmap_Some in Hx as (j & -> & Hj).
    apply lookup_seq in Hj as [-> _]. simpl.
    apply list_lookup_fmap_Some in Hy as (c & -> & Hc).
    unfold getChild. pose proof (lookup_lt_Some _ _ _ Hc) as Hlt. unfold numChildren.
    destruct (Z.ltb_spec (Z.of_nat i) (Z.of_nat (length (children n)))); [|lia].
    by rewrite (py_index_nat _ _ _ Hc).
Qed.



(** ** Serialising the tree *)

Lemma node_at_deref m c n : nodes m !! c = Some n -> deref m (Some c) = Ok n.
Proof. intros H. unfold deref, node_at. by rewrite H. Qed.


Lemma key_built_node m lo r c k v :
  key_built m lo r c k v ->
  lo <= c /\ exists nc, nodes m !! c = Some nc /\ data nc = [PStr k] /\ parent nc = Some r.
Proof. destruct v; intros (Hc & nc & Hnc & Hd & Hp & _); eauto. Qed.

Section SerialTotal.
Variables mb m : TreeModel.
Hypothesis Hsame : same_tree mb m.
Hypothesis Hkeyed : forall x nx s,
    nodes mb !! x = Some nx -> data nx = [PStr s] ->
    exists nx' s', nodes m !! x = Some nx' /\ getData nx' 0 = PStr s'.



End SerialTotal.


Lemma elem_of_flat_map {A B} (f : A -> list B) (l : list A) (y : B) :
  y ∈ flat_map f l <-> exists x, x ∈ l /\ y ∈ f x.
Proof.
  rewrite list_elem_of_In, in_flat_map. split; intros (x & Hx & Hy); exists x.
  - by rewrite !list_elem_of_In.
  - by rewrite <- !list_elem_of_In.
Qed.




(** Membership in a list that is given by a computation. *)
Ltac in_computed_list :=
  match goal with
  | |- ?x ∈ ?l =>
      let l' := eval vm_compute in l in
      change (x ∈ l'); rewrite !elem_of_cons; tauto
  end.
Ltac computed_list_in H :=
  match type of H with
  | ?x ∈ ?l => let l' := eval vm_compute in l in change (x ∈ l') in H
  end.

(** C3.  The code departs from the claim on the editor's own tree, built
    from the template with an empty user configuration.  The choice leaf of
    [montecarlo/convergence_strategy/type] has [damped] selected, and
    construction leaves the nodes of all six parameters of [damped] in the
    disabled list: the unselected option [specific] names them too, and the
    third inner loop of [dictToTree] appends the siblings of every option
    but the first without a look at those of the first.  So no sibling of
    the selected option is enabled: [flags] gives each of them no flags, and
    the serialisation of [convergence_strategy] holds the key [type] and
    none of the parameters of the selection. *)
Theorem editor_disables_selected_option :
  exists m leaf,
    ConfigEditor_init (PDict []) = Ok m /\
    102 ∈ typenodes m /\
    typesleaf_of m 102 = Some (103, leaf) /\
    data leaf = [PStr "damped"; PStr "specific"] /\
    selected_siblings leaf = [112; 116; 121; 126; 106; 104] /\
    (fun x => (fun n => getData n 0) <$> nodes m !! x) <$> selected_siblings leaf
    = [Some (PStr "damping_constant"); Some (PStr "t_inner"); Some (PStr "t_rad");
       Some (PStr "w"); Some (PStr "lock_t_inner_cycles");
       Some (PStr "t_inner_update_exponent")] /\
    (forall x, x ∈ selected_siblings leaf -> x ∈ disabledNodes m) /\
    ~ selected_siblings_enabled m /\
    (forall x, x ∈ selected_siblings leaf ->
       TreeModel_flags m (createIndex 0 0 (Some x)) = Ok NoItemFlags) /\
    dictFromNode 3 m (Some 101) = Ok (PDict [("type", PStr "damped")]).
Proof.
  eexists _, _. split; [vm_compute; reflexivity|].
  split; [in_computed_list|].
  split; [vm_compute; reflexivity|]. split; [reflexivity|].
  split; [vm_compute; reflexivity|]. split; [vm_compute; reflexivity|].
  split_and!.
  - intros x Hx. computed_list_in Hx. rewrite !elem_of_cons in Hx.
    destruct Hx as [->|[->|[->|[->|[->|[->|Hx]]]]]];
      [in_computed_list..|inversion Hx].
  - intros H.
    apply (H 102 103
             (mkNode (Some 102) [] [PStr "damped"; PStr "specific"]
                [("damped", [112; 116; 121; 126; 106; 104]);
                 ("specific", [114; 110; 108; 116; 121; 126; 106; 112; 104])]) 112).
    + in_computed_list.
    + vm_compute. reflexivity.
    + in_computed_list.
    + in_computed_list.
  - intros x Hx. computed_list_in Hx. rewrite !elem_of_cons in Hx.
    destruct Hx as [->|[->|[->|[->|[->|[->|Hx]]]]]];
      [vm_compute; reflexivity..|inversion Hx].
  - vm_compute. reflexivity.
Qed.


(** ** The round trip *)

Lemma dict_set_fresh {V} (d : list (string * V)) k v :
  k ∉ dict_keys d -> dict_set k v d = d ++ [(k, v)].
Proof.
  induction d as [|[k' v'] d IH]; simpl; [done|]. intros [Hne Hk]%not_elem_of_cons.
  rewrite decide_False by done. by rewrite IH.
Qed.

Lemma roundtrip_ok_items items :
  roundtrip_ok (PDict items) = true ->
  2 <= length items /\ NoDup (dict_keys items) /\
  Forall (fun kv => entry_ok (fst kv) (snd kv) = true) items.
Proof.
  intros H.
  change (roundtrip_ok (PDict items))
    with ((2 <=? length items) && bool_decide (NoDup (dict_keys items))
          && forallb (fun kv => entry_ok (fst kv) (snd kv)) items) in H.
  apply andb_prop in H as [H Hall]. apply andb_prop in H as [Hlen Hnd]. split_and!.
  - by apply Nat.leb_le in Hlen.
  - by apply bool_decide_eq_true in Hnd.
  - apply Forall_forall. intros kv Hkv. apply list_elem_of_In in Hkv.
    apply (proj1 (forallb_forall _ _) Hall kv Hkv).
Qed.

(** A node with at least two children, none of them disabled, each
    serialising to the value listed for it under its first field, serialises
    to the dict of these, when the fields are distinct. *)
Lemma dict_node_serial depth m r n vals :
  nodes m !! r = Some n ->
  disabledNodes m = [] ->
  2 <= length (children n) ->
  NoDup (dict_keys vals) ->
  Forall2 (fun c kv => dictFromNode depth m (Some c) = Ok (snd kv) /\
                       exists nc, nodes m !! c = Some nc /\ getData nc 0 = PStr (fst kv))
          (children n) vals ->
  dictFromNode (S depth) m (Some r) = Ok (PDict vals).
Proof.
  intros Hn Hdis Hlen Hnd Hvals. cbn [dictFromNode].
  rewrite (node_at_deref _ _ _ Hn). cbn [bind]. rewrite child_list. cbn [bind].
  rewrite length_fmap. destruct (Nat.ltb_spec 1 (length (children n))); [|lia].
  assert (forall acc, NoDup (dict_keys acc ++ dict_keys vals) ->
    for_each
      (fun nd dictionary =>
         if is_disabled m nd then Ok dictionary
         else
           let* v := dictFromNode depth m nd in
           let* child := deref m nd in
           pydict_set (getData child 0) v dictionary)
      (Some <$> children n) acc = Ok (acc ++ vals)) as Hloop.
  { clear Hlen Hnd H. revert Hvals. generalize (children n). intros cs Hvals.
    induction Hvals as [|c [k v] cs vals [Hv (nc & Hnc & Hk)] Hrest IH]; intros acc Hnd.
    - simpl. by rewrite app_nil_r.
    - simpl. rewrite Hdis. rewrite bool_decide_eq_false_2 by apply not_elem_of_nil.
      simpl in Hv, Hk. rewrite Hv. simpl. unfold node_at. rewrite Hnc. simpl.
      rewrite Hk. simpl. simpl in Hnd.
      apply NoDup_app in Hnd as (Hacc & Hdisj & Hvals'). apply NoDup_cons in Hvals' as [Hk' Hvals'].
      rewrite dict_set_fresh.
      + rewrite IH; [by rewrite <- app_assoc|].
        unfold dict_keys. rewrite map_app. simpl. rewrite <- app_assoc. simpl.
        apply NoDup_app. split_and!; try done. by apply NoDup_cons.
      + intros Hin. apply (Hdisj k Hin). apply list_elem_of_here. }
  rewrite (Hloop []); [done | done].
Qed.

Lemma items_built_length m lo r items : forall cs,
  items_built m lo r items cs -> length cs = length items.
Proof.
  induction items as [|[k v] items IH]; intros cs H; simpl in H; [by subst|].
  destruct cs as [|c cs]; [done|]. destruct H as [_ H]. simpl. f_equal. by apply IH.
Qed.

Section RoundTrip.
Variables mb m : TreeModel.
Hypothesis Hdis : disabledNodes m = [].
Hypothesis Hframe : forall x,
  (forall t, t ∈ typenodes mb -> x <> S t) -> nodes m !! x = nodes mb !! x.
Hypothesis Hleaf : forall t leaf,
  t ∈ typenodes mb -> nodes mb !! S t = Some leaf ->
  exists leaf', nodes m !! S t = Some leaf' /\
    forall i x, data leaf !! i = Some x ->
      exists s, x = PStr s /\ data leaf' !! i = Some (PStr (hd "" (py_split delim s))).
Hypothesis Hlinked : forall t, t ∈ typenodes mb -> typenode_linked mb t.

(** A key node below a node that is no type node is no choice leaf, so the
    loop over the type nodes left it alone. *)
Lemma key_unchanged c nc r :
  nodes mb !! c = Some nc -> parent nc = Some r -> r ∉ typenodes mb ->
  nodes m !! c = Some nc.
Proof.
  intros Hc Hp Hr. rewrite Hframe; [done|]. intros t Ht ->.
  destruct (Hlinked t Ht) as (nt & nl & _ & _ & Hnl & Hpl & _).
  rewrite Hnl in Hc. injection Hc as <-. congruence.
Qed.

Lemma items_serial items :
  Forall (fun kv => forall lo r c k depth,
            key_built mb lo r c k (snd kv) -> r ∉ typenodes mb ->
            entry_ok k (snd kv) = true -> height (snd kv) <= depth ->
            dictFromNode depth m (Some c) = Ok (template_shape (snd kv))) items ->
  forall lo r nr depth,
  nodes m !! r = Some nr ->
  r ∉ typenodes mb ->
  items_built mb lo r items (children nr) ->
  roundtrip_ok (PDict items) = true ->
  list_max (map (fun kv => height (snd kv)) items) <= depth ->
  dictFromNode (S depth) m (Some r) = Ok (template_shape (PDict items)).
Proof.
  intros IH lo r nr depth Hr Hrt Hitems Hok Hdepth.
  apply roundtrip_ok_items in Hok as (Hlen & Hnd & Hentries).
  cbn [template_shape].
  apply (dict_node_serial depth m r nr); try done.
  - rewrite (items_built_length _ _ _ _ _ Hitems). done.
  - unfold dict_keys in *. rewrite map_map. simpl. done.
  - clear Hr Hlen Hnd. revert Hitems Hdepth. generalize (children nr). intros cs. revert cs.
    induction items as [|[k v] items IHitems]; intros cs Hitems Hdepth.
    + simpl in Hitems. subst. constructor.
    + apply Forall_cons in IH as [IH0 IH]. apply Forall_cons in Hentries as [He0 He].
      destruct cs as [|c cs]; [done|]. destruct Hitems as [Hk Hrest]. simpl in Hdepth.
      constructor.
      * split.
        -- apply (IH0 lo r c k depth Hk Hrt He0). simpl. lia.
        -- apply key_built_node in Hk as (_ & nc & Hnc & Hd & Hp).
           exists nc. split; [by eapply key_unchanged|].
           apply (getData_nat nc 0). by rewrite Hd.
      * apply IHitems; try done. lia.
Qed.

Lemma key_serial v : forall lo r c k depth,
  key_built mb lo r c k v -> r ∉ typenodes mb ->
  entry_ok k v = true -> height v <= depth ->
  dictFromNode depth m (Some c) = Ok (template_shape v).
Proof.
  induction v as [| | | | |entry _|items IH] using pyval_nested_ind;
    intros lo r c k depth Hb Hr Hok Hdepth; try discriminate;
    (destruct depth as [|depth]; [simpl in Hdepth; lia|]).
  - (* a list entry *)
    destruct entry as [|a [|second rest]]; try discriminate.
    destruct Hb as (_ & nc & Hnc & _ & Hp & Hcs & Htype & nl & Hnl & _ & _ & Hdata).
    pose proof (key_unchanged c nc r Hnc Hp Hr) as Hnc'.
    cbn [dictFromNode]. rewrite (node_at_deref _ _ _ Hnc'). cbn [bind].
    rewrite child_list. cbn [bind]. rewrite Hcs. simpl.
    destruct second as [| | | | |options|];
      try (simpl in Hok; apply negb_true_iff, bool_decide_eq_false in Hok;
           assert (nodes m !! S c = Some nl) as Hnl';
           [ rewrite Hframe; [done|]; intros t Ht [= ->]; by apply Hok, Htype
           | unfold node_at; rewrite Hnl'; simpl; f_equal;
             apply (getData_nat nl 0); by rewrite Hdata ]).
    destruct options as [|[| | | |s| |] options]; try discriminate.
    simpl in Hok. apply andb_prop in Hok as [Hk _]. apply bool_decide_eq_true in Hk.
    apply Htype in Hk. destruct (Hleaf c nl Hk Hnl) as (leaf' & Hleaf' & Hd').
    destruct (Hd' 0 (PStr s)) as (s' & [= <-] & Hd0); [by rewrite Hdata|].
    unfold node_at. rewrite Hleaf'. simpl. f_equal. by apply (getData_nat leaf' 0).
  - (* a nested dict *)
    apply key_built_dict in Hb as (_ & nc & Hnc & _ & Hp & Hc & Hitems).
    pose proof (key_unchanged c nc r Hnc Hp Hr) as Hnc'.
    apply (items_serial items IH lo c nc depth Hnc' Hc Hitems Hok).
    simpl in Hdepth. lia.
Qed.

End RoundTrip.

(** C2, as the code has it.  For a template in which every dict, the top
    level included, has at least two keys, every other entry is a list
    [[required, value]], and a list of options is a non-empty list of strings
    under a key named [type], which holds nothing else: when the tree built
    from it has no disabled node, serialising the root returns the
    key-to-value shape of the template, with the selected option name for a
    choice. *)
Theorem roundtrip_of_built_tree (template : pyval) (m : TreeModel) (depth : nat) :
  roundtrip_ok template = true ->
  TreeModel_init template = Ok m ->
  disabledNodes m = [] ->
  height template <= depth ->
  toMapping depth m = Ok (template_shape template).
Proof.
  intros Hok Hinit Hdis Hdepth.
  destruct (TreeModel_init_inv _ _ Hinit) as (items & mb & -> & Hpost & Hl & _ & Hnd & Hlinked).
  destruct Hpost as (nr & cs & ts & Hnr & Hnr' & Hitems & _ & _ & Hroot & _).
  simpl in Hnr. injection Hnr as <-. simpl in Hnr', Hitems, Hroot.
  assert (leaf_id mb <$> typenodes mb = (fun t => Some (S t)) <$> typenodes mb) as Hids.
  { apply list_fmap_ext. intros i t Ht. apply typenode_linked_leaf, Hlinked.
    by eapply list_elem_of_lookup_2. }
  destruct (link_loop _ _ _ Hl) as ((_ & Hroot' & _) & Hframe & _).
  destruct (link_loop_exact _ _ _ Hl) as [_ Hleaf].
  { rewrite Hids. apply NoDup_fmap_2; [|done]. intros x y [= ->]. done. }
  assert (forall x, (forall t, t ∈ typenodes mb -> x <> S t) ->
                    nodes m !! x = nodes mb !! x) as Hframe'.
  { intros x Hx. apply Hframe. rewrite Hids. intros Hin.
    apply list_elem_of_fmap in Hin as (t & [= ->] & Ht). by apply (Hx t). }
  assert (forall t leaf, t ∈ typenodes mb -> nodes mb !! S t = Some leaf ->
            exists leaf', nodes m !! S t = Some leaf' /\
              forall i x, data leaf !! i = Some x ->
                exists s, x = PStr s /\
                          data leaf' !! i = Some (PStr (hd "" (py_split delim s)))) as Hleaf'.
  { intros t leaf Ht Hleaft. apply (Hleaf t (S t) leaf Ht).
    apply typesleaf_of_leaf_id. split; [|done]. apply typenode_linked_leaf. by apply Hlinked. }
  assert (forall t, t ∈ typenodes mb -> typenode_linked mb t) as Hlinked'.
  { intros t Ht. by apply Hlinked. }
  assert (0 ∉ typenodes mb) as H0.
  { intros Hin. apply Hlinked in Hin as [Hge _]. lia. }
  simpl in Hdepth. destruct depth as [|depth]; [lia|].
  unfold toMapping. rewrite Hroot', Hroot.
  eapply (items_serial mb m Hdis Hframe' Hlinked' items); try done.
  - apply Forall_forall. intros kv _ lo r c k depth'.
    by apply (key_serial mb m Hdis Hframe' Hleaf' Hlinked').
  - rewrite Hframe'; [exact Hnr'|]. intros t Ht. lia.
  - exact Hitems.
  - lia.
Qed.

Lemma roundtrip_of_built_tree_witness :
  toMapping 3 (built roundtrip_template)
  = Ok (PDict [("type", PStr "uniform"); ("value", PInt 5);
               ("nlte", PDict [("coronal_approximation", PBool false);
                               ("classical_nebular", PBool false)])]).
Proof.
  apply (roundtrip_of_built_tree roundtrip_template (built roundtrip_template) 3);
    [vm_compute; reflexivity | vm_compute; reflexivity | vm_compute; reflexivity
    | vm_compute; lia].
Defined.

(** C2 as stated fails: the tree of a template with a single key at the top
    has no disabled node, and its root serialises to the name of that key,
    not to a dict. *)
Lemma single_key_is_not_rebuilt :
  exists m,
    TreeModel_init single_key_template = Ok m /\
    disabledNodes m = [] /\
    toMapping 3 m = Ok (PStr "density") /\
    toMapping 3 m <> Ok (template_shape single_key_template).
Proof.
  eexists. split; [vm_compute; reflexivity|]. split; [reflexivity|].
  split; [vm_compute; reflexivity|]. vm_compute. discriminate.
Qed.

(** ** The disabled nodes as a list *)



(** C10 as stated fails.  In the editor's tree for a user configuration that
    selects [exponential] for [model/structure/density/type], the one
    unselected option [branch85_w7] names its parameter [w7_time_0] three
    times, and construction puts the node of [w7_time_0] into the disabled
    list three times: an entry for every occurrence of the name, not one for
    every option that names it.  The selection of [branch85_w7] then takes
    out three occurrences, one for every entry of its sibling list, and the
    node, which had duplicate entries, is not in the list afterwards. *)
Lemma one_option_names_a_node_thrice :
  exists m leaf editor m',
    ConfigEditor_init
      (PDict [("model", PDict [("structure", PDict [("density",
                PDict [("type", PStr "exponential")])])])]) = Ok m /\
    57 ∈ typenodes m /\
    typesleaf_of m 57 = Some (58, leaf) /\
    data leaf = [PStr "exponential"; PStr "branch85_w7"; PStr "power_law"; PStr "uniform"] /\
    siblings leaf = [("exponential", [65; 67; 69]); ("branch85_w7", [59; 59; 59]);
                     ("power_law", [65; 67; 69; 71]); ("uniform", [73])] /\
    ((fun n => getData n 0) <$> nodes m !! 59) = Some (PStr "w7_time_0") /\
    disabledNodes m
    = [54; 56; 59; 59; 59; 65; 67; 69; 71; 73; 114; 110; 108; 116; 121; 126; 106; 112; 104] /\
    count 59 (disabledNodes m) = 3 /\
    choose leaf 1 = Some editor /\
    setModelData editor m 58 = Ok (Some m') /\
    disabledNodes m'
    = [54; 56; 65; 67; 69; 71; 73; 114; 110; 108; 116; 121; 126; 106; 112; 104; 65; 67; 69] /\
    59 ∉ disabledNodes m'.
Proof.
  eexists _, _, _, _. split; [vm_compute; reflexivity|].
  split; [in_computed_list|]. split; [vm_compute; reflexivity|].
  split; [reflexivity|]. split; [reflexivity|]. split; [vm_compute; reflexivity|].
  split; [vm_compute; reflexivity|]. split; [vm_compute; reflexivity|].
  split; [reflexivity|]. split; [vm_compute; reflexivity|]. split; [reflexivity|].
  apply count_zero. vm_compute. reflexivity.
Qed.





(** * The model interface, the delegate and the table model: properties *)

(** ** Node *)

Lemma py_index_negative {A} (l : list A) (i : Z) :
  (i < 0)%Z ->
  py_index l i = match l !! Z.to_nat (Z.of_nat (length l) + i) with
                 | Some x => if (Z.of_nat (length l) + i <? 0)%Z then Raise IndexError else Ok x
                 | None => Raise IndexError
                 end.
Proof.
  intros Hi. unfold py_index. destruct (Z.ltb_spec i 0); [|lia].
  rewrite (Z.add_comm i). 
  destruct (Z.ltb_spec (Z.of_nat (length l) + i) 0); simpl.
  - by destruct (l !! _).
  - destruct (Z.leb_spec (Z.of_nat (length l)) (Z.of_nat (length l) + i)); [lia|]. done.
Qed.

Lemma getChild_negative (n : Node) (i : Z) :
  (i < 0)%Z ->
  ((- Z.of_nat (numChildren n) <= i)%Z ->
     exists c, children n !! Z.to_nat (Z.of_nat (numChildren n) + i) = Some c /\
               getChild n i = Ok (Some c)) /\
  ((i < - Z.of_nat (numChildren n))%Z -> getChild n i = Raise IndexError).
Proof.
  intros Hi. unfold getChild, numChildren.
  rewrite !(py_index_negative _ i Hi).
  destruct (Z.ltb_spec i (Z.of_nat (length (children n)))); [|lia].
  split.
  - intros Hlo.
    destruct (lookup_lt_is_Some_2 (children n)
                (Z.to_nat (Z.of_nat (length (children n)) + i))) as [c Hc]; [lia|].
    exists c. rewrite Hc. split; [done|].
    by destruct (Z.ltb_spec (Z.of_nat (length (children n)) + i) 0); [lia|].
  - intros Hlo. destruct (children n !! _); [|done].
    by destruct (Z.ltb_spec (Z.of_nat (length (children n)) + i) 0); [|lia].
Qed.

(** [getChild] and [getData] with a negative index count from the end.
    [getData] gives [None] when the node has fewer fields; [getChild] does
    not give [None] but raises [IndexError] when the node has fewer
    children, a node without children included. *)
Theorem negative_index_counts_from_end (n : Node) (i : Z) :
  (i < 0)%Z ->
  ((- Z.of_nat (numChildren n) <= i)%Z ->
     exists c, children n !! Z.to_nat (Z.of_nat (numChildren n) + i) = Some c /\
               getChild n i = Ok (Some c)) /\
  ((i < - Z.of_nat (numChildren n))%Z -> getChild n i = Raise IndexError) /\
  ((- Z.of_nat (numColumns n) <= i)%Z ->
     exists x, data n !! Z.to_nat (Z.of_nat (numColumns n) + i) = Some x /\
               getData n i = x) /\
  ((i < - Z.of_nat (numColumns n))%Z -> getData n i = PNone).
Proof.
  intros Hi. destruct (getChild_negative n i Hi) as [Hin Hout].
  split; [done|]. split; [done|].
  unfold getData, numColumns. rewrite !(py_index_negative _ i Hi).
  split.
  - intros Hlo.
    destruct (lookup_lt_is_Some_2 (data n)
                (Z.to_nat (Z.of_nat (length (data n)) + i))) as [x Hx]; [lia|].
    exists x. rewrite Hx. split; [done|].
    by destruct (Z.ltb_spec (Z.of_nat (length (data n)) + i) 0); [lia|].
  - intros Hlo. destruct (data n !! _); [|done].
    by destruct (Z.ltb_spec (Z.of_nat (length (data n)) + i) 0); [|lia].
Qed.

Lemma negative_index_counts_from_end_witness :
  let n := mkNode None [4; 7] [PStr "uniform"; PStr "exponential"] [] in
  getChild n (-1) = Ok (Some 7) /\ getChild n (-3) = Raise IndexError /\
  getChild (Node_init []) (-1) = Raise IndexError /\
  getData n (-2) = PStr "uniform" /\ getData n (-3) = PNone.
Proof.
  intros n.
  assert ((-1 < 0)%Z) as H1 by lia. assert ((-3 < 0)%Z) as H3 by lia.
  assert ((-2 < 0)%Z) as H2 by lia.
  destruct (negative_index_counts_from_end n (-1) H1) as (Ha & _).
  destruct (negative_index_counts_from_end n (-3) H3) as (_ & Hb & _ & Hd).
  destruct (negative_index_counts_from_end (Node_init []) (-1) H1) as (_ & Hc & _).
  destruct (negative_index_counts_from_end n (-2) H2) as (_ & _ & He & _).
  split_and!.
  - destruct Ha as (c & Hc' & ->); [unfold n, numChildren; simpl; lia|].
    vm_compute in Hc'. by injection Hc' as <-.
  - apply Hb. unfold n, numChildren. simpl. lia.
  - apply Hc. unfold numChildren. simpl. lia.
  - destruct He as (x & Hx & ->); [unfold n, numColumns; simpl; lia|].
    vm_compute in Hx. by injection Hx as <-.
  - apply Hd. unfold n, numColumns. simpl. lia.
Defined.

(** ** The tree of a model *)

Lemma attach_well_formed m r d :
  well_formed_tree m -> r < length (nodes m) ->
  well_formed_tree (appendChild r (length (nodes m))
                      (with_nodes (nodes m ++ [Node_init d]) m)).
Proof.
  intros (Hcons & Hnd & Hroot & Hpar & H0) Hr.
  pose proof (attach_consistent m r d Hcons Hr) as Hcons'.
  destruct (lookup_lt_is_Some_2 _ _ Hr) as [nr Hnr].
  destruct (attach_spec m r nr d Hnr) as (A1 & A2 & A3 & A4 & _ & A6 & _).
  set (m2 := appendChild r (length (nodes m)) (with_nodes (nodes m ++ [Node_init d]) m)) in *.
  clearbody m2.
  assert (forall i n, nodes m2 !! i = Some n ->
            (i = length (nodes m) /\ n = mkNode (Some r) [] d []) \/
            (i = r /\ n = with_children (children nr ++ [length (nodes m)]) nr) \/
            (i <> r /\ nodes m !! i = Some n)) as Hcases.
  { intros i n Hi. destruct (decide (i = length (nodes m))) as [->|Hne].
    - left. split; [done|]. congruence.
    - destruct (decide (i = r)) as [->|Hne'].
      + right; left. split; [done|]. congruence.
      + right; right. split; [done|].
        pose proof (lookup_lt_Some _ _ _ Hi) as Hi'. rewrite A4 in Hi'.
        rewrite A3 in Hi by lia. done. }
  assert (0 < length (nodes m)) as Hpos.
  { destruct H0 as [n0 Hn0]. by apply lookup_lt_Some in Hn0. }
  split; [done|]. split_and!.
  - intros p np Hp. destruct (Hcases p np Hp) as [[_ ->]|[[_ ->]|[_ Hp']]].
    + apply NoDup_nil_2.
    + simpl. apply NoDup_app. split; [by eapply Hnd|]. split; [|apply NoDup_singleton].
      intros x Hx Hx'. apply list_elem_of_singleton in Hx' as ->.
      destruct Hcons as [_ Hb]. destruct (Hb r nr _ Hnr Hx) as (nx & Hnx & _).
      apply lookup_lt_Some in Hnx. lia.
    + by eapply Hnd.
  - by rewrite A6.
  - intros c nc Hc. destruct (Hcases c nc Hc) as [[-> ->]|[[-> ->]|[_ Hc']]].
    + simpl. split; [done | lia].
    + simpl. by apply Hpar.
    + by apply Hpar.
  - destruct H0 as [n0 Hn0]. destruct (decide (r = 0)) as [->|Hne].
    + eauto.
    + rewrite A3 by lia. eauto.
Qed.

Lemma same_tree_node_back m m' x n' :
  same_tree m m' -> nodes m' !! x = Some n' ->
  exists n, nodes m !! x = Some n /\ children n' = children n /\ parent n' = parent n.
Proof.
  intros (_ & _ & Hlen & Hn) Hx. pose proof (lookup_lt_Some _ _ _ Hx) as Hlt.
  rewrite Hlen in Hlt. destruct (lookup_lt_is_Some_2 _ _ Hlt) as [n Hn0].
  destruct (Hn x n Hn0) as (n2 & Hx2 & Hc & Hp). exists n. split; [done|].
  rewrite Hx2 in Hx. injection Hx as <-. done.
Qed.

Lemma same_tree_well_formed m m' :
  same_tree m m' -> well_formed_tree m -> well_formed_tree m'.
Proof.
  intros Hsame ([Ha Hb] & Hnd & Hroot & Hpar & H0).
  pose proof Hsame as (_ & Hr & Hlen & Hn).
  split; [split|split_and!].
  - intros c nc p Hc Hp.
    destruct (same_tree_node_back _ _ _ _ Hsame Hc) as (nc0 & Hc0 & _ & Hp0).
    destruct (Ha c nc0 p Hc0) as (np0 & Hnp0 & Hin); [congruence|].
    destruct (Hn p np0 Hnp0) as (np & Hnp & Hcp & _). exists np. split; [done|].
    by rewrite Hcp.
  - intros p np c Hp Hc.
    destruct (same_tree_node_back _ _ _ _ Hsame Hp) as (np0 & Hp0 & Hc0 & _).
    destruct (Hb p np0 c Hp0) as (nc0 & Hnc0 & Hpc); [by rewrite <- Hc0|].
    destruct (Hn c nc0 Hnc0) as (nc & Hnc & _ & Hpc'). exists nc. split; [done|].
    congruence.
  - intros p np Hp.
    destruct (same_tree_node_back _ _ _ _ Hsame Hp) as (np0 & Hp0 & Hc0 & _).
    rewrite Hc0. by eapply Hnd.
  - congruence.
  - intros c nc Hc.
    destruct (same_tree_node_back _ _ _ _ Hsame Hc) as (nc0 & Hc0 & _ & Hp0).
    rewrite Hp0. by apply Hpar.
  - destruct H0 as [n0 Hn0]. destruct (Hn 0 n0 Hn0) as (n0' & Hn0' & _). eauto.
Qed.

(** The tree of a model is well formed when construction returns. *)
Lemma init_well_formed dictionary m :
  TreeModel_init dictionary = Ok m -> well_formed_tree m.
Proof.
  unfold TreeModel_init, dictToTree. simpl. intros H.
  apply bind_Ok in H as (mb & Hb & Hl).
  destruct (link_loop _ _ _ Hl) as (Hsame & _).
  apply (same_tree_well_formed mb m Hsame).
  destruct (treeFromNode_invariant well_formed_tree attach_well_formed
              (fun m ts H => H) _ _ _ _ Hb) as [Hwf _]; [simpl; lia | | done].
  split; [split|split_and!].
  - intros [|c] nc p Hc Hp; [|done]. injection Hc as <-. done.
  - intros [|p] np c Hp Hc; [|done]. injection Hp as <-. inversion Hc.
  - intros [|p] np Hp; [|done]. injection Hp as <-. apply NoDup_nil_2.
  - done.
  - intros [|c] nc Hc; [|done]. injection Hc as <-. done.
  - simpl. eauto.
Qed.

(** Writing the fields or the sibling map of a node keeps the tree. *)
Lemma update_same_tree m nd n n' :
  nodes m !! nd = Some n -> parent n' = parent n -> children n' = children n ->
  same_tree m (update_node nd (fun _ => n') m).
Proof.
  intros Hnd Hp Hc. unfold same_tree, update_node. simpl. split_and!; try done.
  - apply length_alter.
  - intros x nx Hx. destruct (decide (x = nd)) as [->|Hne].
    + rewrite list_lookup_alter_eq, Hnd. simpl. exists n'.
      rewrite Hnd in Hx. injection Hx as <-. done.
    + rewrite list_lookup_alter_ne by done. eauto.
Qed.

(** ** The interface of the view *)

Lemma index_of_NoDup {A} `{EqDecision A} (l : list A) i x :
  l !! i = Some x -> NoDup l -> index_of x l = Some i.
Proof.
  revert i. induction l as [|y l IH]; intros i Hi Hnd; [done|]. simpl.
  apply NoDup_cons in Hnd as [Hy Hnd].
  destruct i as [|i]; simpl in Hi.
  - injection Hi as ->. by rewrite decide_True.
  - destruct (decide (x = y)) as [->|Hne].
    + exfalso. apply Hy. by eapply list_elem_of_lookup_2.
    + by rewrite (IH i Hi Hnd).
Qed.

Lemma getChild_lookup (n : Node) (i : nat) c :
  children n !! i = Some c -> getChild n (Z.of_nat i) = Ok (Some c).
Proof.
  intros Hc. unfold getChild, numChildren. pose proof (lookup_lt_Some _ _ _ Hc) as Hlt.
  destruct (Z.ltb_spec (Z.of_nat i) (Z.of_nat (length (children n)))); [|lia].
  by rewrite (py_index_nat _ _ _ Hc).
Qed.

Lemma getIndexOfSelf_child m p np i c :
  well_formed_tree m -> nodes m !! p = Some np -> children np !! i = Some c ->
  getIndexOfSelf m c = Found i.
Proof.
  intros ([Ha Hb] & Hnd & _) Hp Hc.
  destruct (Hb p np c Hp) as (nc & Hnc & Hpc); [by eapply list_elem_of_lookup_2|].
  unfold getIndexOfSelf, node_at. rewrite Hnc, Hpc, Hp.
  by rewrite (index_of_NoDup _ _ _ Hc (Hnd p np Hp)).
Qed.

(** In a well-formed tree [getIndexOfSelf] and [getChild] are inverse to
    each other: the child at row [i] of a node reports the row [i], and every
    node reports a row, 0 for the root, at which its parent has it;
    [getIndexOfSelf] raises nothing. *)
Theorem getIndexOfSelf_is_the_row (m : TreeModel) :
  well_formed_tree m ->
  (forall p np i c, nodes m !! p = Some np -> children np !! i = Some c ->
     getChild np (Z.of_nat i) = Ok (Some c) /\ getIndexOfSelf m c = Found i) /\
  (forall c nc, nodes m !! c = Some nc ->
     exists i, getIndexOfSelf m c = Found i /\
       (c = root m -> i = 0) /\
       (forall p, parent nc = Some p ->
          exists np, nodes m !! p = Some np /\ getChild np (Z.of_nat i) = Ok (Some c))).
Proof.
  intros Hwf. split.
  - intros p np i c Hp Hc. split; [by apply getChild_lookup|].
    by apply (getIndexOfSelf_child m p np).
  - intros c nc Hc. pose proof Hwf as ([Ha Hb] & Hnd & Hroot & Hpar & H0).
    destruct (parent nc) as [p|] eqn:Hp.
    + destruct (Ha c nc p Hc Hp) as (np & Hnp & Hin).
      apply list_elem_of_lookup_1 in Hin as [i Hi].
      exists i. split; [by apply (getIndexOfSelf_child m p np)|]. split.
      * intros ->. rewrite Hroot in Hc.
        assert (parent nc = None) as Hnone by (by apply (Hpar 0 nc Hc)). congruence.
      * intros p' [= <-]. exists np. split; [done|]. by apply getChild_lookup.
    + exists 0. split; [|split; [done|intros p' Hp'; discriminate]].
      unfold getIndexOfSelf, node_at. by rewrite Hc, Hp.
Qed.

Lemma getIndexOfSelf_is_the_row_witness :
  let m := built density_template in
  getChild (mkNode (Some 0) [2; 4; 6; 8] [PStr "density"] []) 2 = Ok (Some 6) /\
  getIndexOfSelf m 6 = Found 2.
Proof.
  intros m.
  destruct (getIndexOfSelf_is_the_row m) as [H _].
  { apply (init_well_formed density_template). vm_compute. reflexivity. }
  apply (H 1 (mkNode (Some 0) [2; 4; 6; 8] [PStr "density"] []) 2 6);
    vm_compute; reflexivity.
Defined.

Lemma getChild_in_range (n : Node) (row : Z) :
  (0 <= row < Z.of_nat (numChildren n))%Z ->
  exists c, children n !! Z.to_nat row = Some c /\ getChild n row = Ok (Some c).
Proof.
  intros Hrow. unfold numChildren in Hrow.
  destruct (lookup_lt_is_Some_2 (children n) (Z.to_nat row)) as [c Hc]; [lia|].
  exists c. split; [done|]. rewrite <- (Z2Nat.id row) by lia. by apply getChild_lookup.
Qed.

(** [TreeModel.index] under a parent index that is invalid or has column 0,
    by the row: a row of the parent item gives the valid index of the child
    at that row (the column not being negative); a row at or past
    [rowCount] gives the invalid index; a negative row down to [-rowCount]
    gives an index that is not valid; a row below [-rowCount] raises
    [IndexError]. *)
Theorem index_by_row (m : TreeModel) (row column : Z) (parent : QModelIndex) (rows : nat) :
  isValid parent = false \/ index_column parent = 0%Z ->
  TreeModel_rowCount m parent = Ok rows ->
  ((0 <= row < Z.of_nat rows)%Z ->
     exists n c, nodes m !! TreeModel_getItem m parent = Some n /\
       children n !! Z.to_nat row = Some c /\
       TreeModel_index m row column parent = Ok (createIndex row column (Some c)) /\
       isValid (createIndex row column (Some c)) = (0 <=? column)%Z) /\
  ((Z.of_nat rows <= row)%Z ->
     TreeModel_index m row column parent = Ok QModelIndex_init) /\
  ((- Z.of_nat rows <= row < 0)%Z ->
     exists index, TreeModel_index m row column parent = Ok index /\
                   isValid index = false) /\
  ((row < - Z.of_nat rows)%Z ->
     TreeModel_index m row column parent = Raise IndexError).
Proof.
  intros Hparent Hrows. unfold TreeModel_rowCount, node_at in Hrows.
  destruct (nodes m !! TreeModel_getItem m parent) as [n|] eqn:Hn; [|done].
  simpl in Hrows. injection Hrows as <-.
  assert (isValid parent && negb (index_column parent =? 0)%Z = false) as Hgo.
  { destruct Hparent as [->| ->]; [done|]. simpl. apply andb_false_r. }
  unfold TreeModel_index, node_at. rewrite Hgo, Hn. simpl bind.
  split_and!.
  - intros Hrow. destruct (getChild_in_range n row Hrow) as (c & Hc & Hget).
    exists n, c. rewrite Hget. simpl. split_and!; try done.
    unfold isValid, createIndex. simpl.
    destruct (Z.leb_spec 0 row); [|lia]. simpl. apply andb_true_r.
  - intros Hrow. unfold getChild.
    by destruct (Z.ltb_spec row (Z.of_nat (numChildren n))); [lia|].
  - intros Hrow.
    destruct (getChild_negative n row) as (Hin & _); [lia|].
    destruct Hin as (c & _ & ->); [lia|]. simpl. eexists. split; [done|].
    unfold isValid, createIndex. simpl. by destruct (Z.leb_spec 0 row); [lia|].
  - intros Hrow.
    destruct (getChild_negative n row) as (_ & Hout); [lia|].
    by rewrite Hout.
Qed.

Lemma index_by_row_witness :
  let m := built density_template in
  let density := createIndex 0 0 (Some 1) in
  TreeModel_index m 3 0 density = Ok (createIndex 3 0 (Some 8)) /\
  TreeModel_index m 4 0 density = Ok QModelIndex_init /\
  TreeModel_index m (-5) 0 density = Raise IndexError.
Proof.
  intros m density.
  destruct (index_by_row m 3 0 density 4) as (H1 & _);
    [by right | vm_compute; reflexivity |].
  destruct (index_by_row m 4 0 density 4) as (_ & H2 & _);
    [by right | vm_compute; reflexivity |].
  destruct (index_by_row m (-5) 0 density 4) as (_ & _ & _ & H3);
    [by right | vm_compute; reflexivity |].
  split_and!.
  - destruct H1 as (n & c & Hn & Hc & -> & _); [lia|].
    vm_compute in Hn. injection Hn as <-. vm_compute in Hc. by injection Hc as <-.
  - apply H2. lia.
  - apply H3. lia.
Defined.

Lemma TreeModel_index_valid m row column parent index :
  TreeModel_index m row column parent = Ok index -> isValid index = true ->
  exists n c,
    nodes m !! TreeModel_getItem m parent = Some n /\
    children n !! Z.to_nat row = Some c /\
    index = createIndex row column (Some c) /\
    (0 <= row)%Z /\ (0 <= column)%Z /\
    (isValid parent = false \/ index_column parent = 0%Z).
Proof.
  unfold TreeModel_index, node_at. intros H Hvalid.
  destruct (isValid parent && negb (index_column parent =? 0)%Z) eqn:Hgo.
  { injection H as <-. done. }
  destruct (nodes m !! TreeModel_getItem m parent) as [n|] eqn:Hn; [|done].
  simpl in H. apply bind_Ok in H as (childItem & Hchild & H).
  destruct childItem as [c|]; injection H as <-; [|done].
  unfold isValid, createIndex in Hvalid. simpl in Hvalid.
  apply andb_true_iff in Hvalid as [Hvalid _].
  apply andb_true_iff in Hvalid as [Hrow Hcol].
  apply Z.leb_le in Hrow, Hcol.
  exists n, c. split_and!; try done.
  - rewrite <- (Z2Nat.id row) in Hchild by done.
    apply getChild_nat in Hchild. done.
  - apply andb_false_iff in Hgo as [Hgo|Hgo]; [by left|]. right.
    apply negb_false_iff in Hgo. by apply Z.eqb_eq.
Qed.

(** In a well-formed tree [TreeModel.parent] undoes [TreeModel.index]: the
    parent of a valid index made under an invalid index (the top level) is
    the invalid index, and the parent of a valid index made under an index of
    the model is that index. *)
Theorem parent_of_index (m : TreeModel) (row column : Z) (parent index : QModelIndex) :
  well_formed_tree m ->
  TreeModel_index m row column parent = Ok index ->
  isValid index = true ->
  (isValid parent = false -> TreeModel_parent m index = Found QModelIndex_init) /\
  (index_of_model m parent -> TreeModel_parent m index = Found parent).
Proof.
  intros Hwf Hindex Hvalid.
  destruct (TreeModel_index_valid _ _ _ _ _ Hindex Hvalid)
    as (n & c & Hn & Hc & -> & Hrow & Hcol & Hpar0).
  pose proof Hwf as ([Ha Hb] & Hnd & Hroot & Hpar & H0).
  destruct (Hb _ n c Hn) as (nc & Hnc & Hpc); [by eapply list_elem_of_lookup_2|].
  unfold TreeModel_parent. rewrite Hvalid. simpl negb. cbv iota.
  simpl internalPointer. rewrite (node_at_deref _ _ _ Hnc). unfold getParent. rewrite Hpc.
  split.
  - intros Hinv. unfold TreeModel_getItem. rewrite Hinv. by rewrite decide_True.
  - intros (row' & column' & gp & Hmade & Hpvalid).
    destruct (TreeModel_index_valid _ _ _ _ _ Hmade Hpvalid)
      as (ngp & p & Hngp & Hp & -> & Hrow' & Hcol' & _).
    destruct Hpar0 as [Hinv|Hcol0]; [congruence|]. simpl in Hcol0. subst column'.
    unfold TreeModel_getItem. rewrite Hpvalid. simpl internalPointer.
    destruct (Hb _ ngp p Hngp) as (np & Hnp & Hpp); [by eapply list_elem_of_lookup_2|].
    rewrite decide_False.
    + rewrite (getIndexOfSelf_child m _ ngp (Z.to_nat row') p Hwf Hngp Hp).
      by rewrite Z2Nat.id.
    + intros Heq. rewrite Hroot in Heq. subst p.
      assert (parent np = None) by (by apply (Hpar 0 np Hnp)). congruence.
Qed.

Lemma parent_of_index_witness :
  let m := built density_template in
  let density := createIndex 0 0 (Some 1) in
  TreeModel_parent m density = Found QModelIndex_init /\
  TreeModel_parent m (createIndex 2 0 (Some 6)) = Found density.
Proof.
  intros m density.
  assert (well_formed_tree m) as Hwf.
  { apply (init_well_formed density_template). vm_compute. reflexivity. }
  assert (TreeModel_index m 0 0 QModelIndex_init = Ok density) as Htop
    by (vm_compute; reflexivity).
  split.
  - destruct (parent_of_index m 0 0 QModelIndex_init density Hwf Htop) as [H _];
      [reflexivity|]. apply H. reflexivity.
  - destruct (parent_of_index m 2 0 density (createIndex 2 0 (Some 6)) Hwf) as [_ H];
      [vm_compute; reflexivity | reflexivity |].
    apply H. exists 0%Z, 0%Z, QModelIndex_init. split; [exact Htop | reflexivity].
Defined.

Lemma getData_nonneg (n : Node) (i : Z) :
  (0 <= i)%Z -> getData n i = default PNone (data n !! Z.to_nat i).
Proof.
  intros Hi. unfold getData, py_index.
  destruct (Z.ltb_spec i 0); [lia|]. destruct (Z.ltb_spec i 0); [lia|]. simpl.
  destruct (Z.leb_spec (Z.of_nat (length (data n))) i) as [Hge|Hlt].
  - rewrite lookup_ge_None_2 by lia. done.
  - by destruct (data n !! Z.to_nat i).
Qed.

Lemma with_nodes_id m : with_nodes (nodes m) m = m.
Proof. by destruct m. Qed.

(** [TreeModel.setData] followed by [TreeModel.data]: a write at a column
    of the item returns true, emits [dataChanged] once, and the value is what
    [data] then gives at that index; the tree, the disabled nodes and what
    [data] gives at every other item or column are as before.  A write past
    the fields of the item, or with another role than [EditRole], returns
    false, emits nothing and leaves the model as it was. *)
Theorem setData_then_data (m : TreeModel) (index : QModelIndex) (value : pyval)
    (item : nat) (n : Node) :
  isValid index = true ->
  internalPointer index = Some item ->
  nodes m !! item = Some n ->
  ((index_column index < Z.of_nat (numColumns n))%Z ->
     exists m',
       TreeModel_setData m index value EditRole
       = Ok (true, m', [dataChanged index index]) /\
       TreeModel_data m' index DisplayRole = Ok value /\
       same_tree m m' /\ disabledNodes m' = disabledNodes m /\
       (forall index',
          isValid index' = true ->
          internalPointer index' <> Some item \/ index_column index' <> index_column index ->
          TreeModel_data m' index' DisplayRole = TreeModel_data m index' DisplayRole)) /\
  ((Z.of_nat (numColumns n) <= index_column index)%Z ->
     TreeModel_setData m index value EditRole = Ok (false, m, [])) /\
  (forall role, role <> EditRole ->
     TreeModel_setData m index value role = Ok (false, m, [])).
Proof.
  intros Hvalid Hptr Hn.
  assert ((0 <= index_column index)%Z) as Hcol.
  { unfold isValid in Hvalid. apply andb_true_iff in Hvalid as [Hvalid _].
    apply andb_true_iff in Hvalid as [_ Hvalid]. by apply Z.leb_le. }
  assert (TreeModel_getItem m index = item) as Hitem.
  { unfold TreeModel_getItem. by rewrite Hvalid, Hptr. }
  split_and!.
  - intros Hlt. unfold TreeModel_setData, node_at. simpl negb. cbv iota.
    rewrite Hitem, Hn. simpl bind. unfold setData.
    destruct (Z.ltb_spec (index_column index) 0); [lia|].
    destruct (Z.leb_spec (Z.of_nat (numColumns n)) (index_column index)); [lia|]. simpl.
    set (n' := with_data _ n). eexists. split; [done|].
    assert (nodes (update_node item (fun _ => n') m) !! item = Some n') as Hn'.
    { simpl. by rewrite list_lookup_alter_eq, Hn. }
    split_and!.
    + unfold TreeModel_data. rewrite Hvalid, Hptr. simpl negb. cbv iota.
      rewrite (node_at_deref _ _ _ Hn'). simpl. rewrite (getData_nonneg _ _ Hcol).
      unfold n'. simpl. rewrite list_lookup_insert_eq; [done|].
      unfold numColumns in *. lia.
    + by apply (update_same_tree m item n n').
    + done.
    + intros index' Hvalid' Hother. unfold TreeModel_data. rewrite Hvalid'.
      simpl negb. cbv iota.
      destruct (internalPointer index') as [item'|] eqn:Hptr'; [|done].
      destruct (decide (item' = item)) as [->|Hne].
      * rewrite (node_at_deref _ _ _ Hn'), (node_at_deref _ _ _ Hn). simpl.
        destruct Hother as [Hother|Hother]; [done|].
        assert ((0 <= index_column index')%Z) as Hcol'.
        { unfold isValid in Hvalid'. apply andb_true_iff in Hvalid' as [Hvalid' _].
          apply andb_true_iff in Hvalid' as [_ Hvalid']. by apply Z.leb_le. }
        rewrite !(getData_nonneg _ _ Hcol'). unfold n'. simpl.
        rewrite list_lookup_insert_ne; [done|]. lia.
      * unfold deref, node_at. simpl. by rewrite list_lookup_alter_ne.
  - intros Hge. unfold TreeModel_setData, node_at. simpl negb. cbv iota.
    rewrite Hitem, Hn. simpl bind. unfold setData.
    destruct (Z.ltb_spec (index_column index) 0); [lia|].
    by destruct (Z.leb_spec (Z.of_nat (numColumns n)) (index_column index)); [|lia].
  - intros role Hrole. unfold TreeModel_setData. by destruct role.
Qed.

Lemma setData_then_data_witness :
  let m := built density_template in
  let leaf := createIndex 0 0 (Some 5) in
  exists m',
    TreeModel_setData m leaf (PInt 7) EditRole = Ok (true, m', [dataChanged leaf leaf]) /\
    TreeModel_data m' leaf DisplayRole = Ok (PInt 7) /\
    TreeModel_setData m (createIndex 0 1 (Some 5)) (PInt 7) EditRole = Ok (false, m, []).
Proof.
  intros m leaf.
  destruct (setData_then_data m leaf (PInt 7) 5
              (mkNode (Some 4) [] [PNone] [])) as (H1 & _);
    [reflexivity | reflexivity | vm_compute; reflexivity |].
  destruct (setData_then_data m (createIndex 0 1 (Some 5)) (PInt 7) 5
              (mkNode (Some 4) [] [PNone] [])) as (_ & H2 & _);
    [reflexivity | reflexivity | vm_compute; reflexivity |].
  destruct H1 as (m' & Hset & Hdata & _); [unfold numColumns; simpl; lia|].
  exists m'. split; [exact Hset|]. split; [exact Hdata|].
  apply H2. unfold numColumns. simpl. lia.
Defined.

Lemma unselected_siblings_entry leaf x :
  x ∈ unselected_siblings leaf ->
  exists name sibs, dict_get name (siblings leaf) = Some sibs /\ x ∈ sibs.
Proof.
  unfold unselected_siblings. intros Hx. apply elem_of_flat_map in Hx as (i & _ & Hx).
  unfold siblings_get in Hx.
  destruct (getData leaf i) as [| | | |s| |]; try by inversion Hx.
  destruct (dict_get s (siblings leaf)) as [sibs|] eqn:Hs; [eauto | by inversion Hx].
Qed.

(** After construction the parameters of the options that are not selected
    are greyed out: [flags] gives [NoItemFlags] for every node recorded for
    an option of a type node other than the first, and for each of its
    children. *)
Theorem unselected_parameters_have_no_flags
    (dictionary : pyval) (m : TreeModel) (t x : nat) (row column : Z) :
  TreeModel_init dictionary = Ok m ->
  t ∈ typenodes m ->
  x ∈ unselected_of m t ->
  exists nx, nodes m !! x = Some nx /\
    TreeModel_flags m (createIndex row column (Some x)) = Ok NoItemFlags /\
    forall c, c ∈ children nx ->
      TreeModel_flags m (createIndex row column (Some c)) = Ok NoItemFlags.
Proof.
  intros Hinit Ht Hx.
  assert (x ∈ disabledNodes m) as Hdis.
  { rewrite (disabled_after_construction _ _ Hinit). apply elem_of_flat_map. eauto. }
  pose proof Hinit as Hinit'. unfold TreeModel_init, dictToTree in Hinit'. simpl in Hinit'.
  apply bind_Ok in Hinit' as (mb & Hb & _).
  destruct (built_choice_leaf _ _ _ Hinit Ht) as (leaf & Htl & _).
  unfold unselected_of in Hx. rewrite Htl in Hx.
  apply typesleaf_of_leaf_id in Htl as [_ Hleaf].
  destruct (unselected_siblings_entry _ _ Hx) as (name & sibs & Hname & Hin).
  destruct (recorded_siblings_named _ _ _ _ _ _ _ _ Hb Hinit Ht Hleaf Hname Hin)
    as (_ & _ & _ & param & _ & _ & _ & _ & (nt & p & np & nx & _ & _ & _ & _ & Hnx & _)).
  destruct (init_well_formed _ _ Hinit) as ([_ Hchild] & _).
  assert (forall y ny, nodes m !! y = Some ny ->
            is_disabled m (getParent ny) || is_disabled m (Some y) = true ->
            TreeModel_flags m (createIndex row column (Some y)) = Ok NoItemFlags) as Hflags.
  { intros y ny Hy Hd. unfold TreeModel_flags.
    destruct (isValid (createIndex row column (Some y))); [|done].
    simpl negb. cbv iota.
    change (internalPointer (createIndex row column (Some y))) with (Some y).
    rewrite (node_at_deref _ _ _ Hy). cbn [bind]. by rewrite Hd. }
  exists nx. split; [done|]. split.
  - apply (Hflags x nx Hnx). apply orb_true_iff. right. simpl. by apply bool_decide_eq_true.
  - intros c Hc. destruct (Hchild x nx c Hnx Hc) as (nc & Hnc & Hpc).
    apply (Hflags c nc Hnc). apply orb_true_iff. left. unfold getParent. rewrite Hpc.
    simpl. by apply bool_decide_eq_true.
Qed.

Lemma unselected_parameters_have_no_flags_witness :
  let m := built density_template in
  TreeModel_flags m (createIndex 1 0 (Some 4)) = Ok NoItemFlags /\
  TreeModel_flags m (createIndex 0 0 (Some 5)) = Ok NoItemFlags /\
  TreeModel_flags m (createIndex 0 0 (Some 7)) = Ok (mkFlags true true true).
Proof.
  intros m.
  destruct (unselected_parameters_have_no_flags density_template m 2 4 1 0)
    as (nx & Hnx & Hx & _);
    [vm_compute; reflexivity | apply list_elem_of_here | apply list_elem_of_here |].
  destruct (unselected_parameters_have_no_flags density_template m 2 4 0 0)
    as (nx' & Hnx' & _ & Hc);
    [vm_compute; reflexivity | apply list_elem_of_here | apply list_elem_of_here |].
  split; [exact Hx|]. split; [|vm_compute; reflexivity].
  apply Hc. vm_compute in Hnx'. injection Hnx' as <-. apply list_elem_of_here.
Defined.

(** ** The delegate *)

Lemma update_node_lookup m nd f n :
  nodes m !! nd = Some n -> nodes (update_node nd f m) !! nd = Some (f n).
Proof. intros H. simpl. by rewrite list_lookup_alter_eq, H. Qed.

Lemma update_node_other m nd f x :
  x <> nd -> nodes (update_node nd f m) !! x = nodes m !! x.
Proof. intros H. simpl. by rewrite list_lookup_alter_ne. Qed.

Lemma update_node_id m nd n :
  nodes m !! nd = Some n -> update_node nd (fun _ => n) m = m.
Proof.
  intros H. unfold update_node. rewrite (alter_const_id _ _ _ H). apply with_nodes_id.
Qed.

Lemma update_node_twice m nd (n1 n2 : Node) :
  update_node nd (fun _ => n2) (update_node nd (fun _ => n1) m)
  = update_node nd (fun _ => n2) m.
Proof.
  unfold update_node, with_nodes. simpl. f_equal.
  rewrite list_alter_alter_eq. done.
Qed.

(** A node written to, with its place in the tree kept. *)
Lemma written_node m nd n n' :
  nodes m !! nd = Some n -> parent n' = parent n -> children n' = children n ->
  let m' := update_node nd (fun _ => n') m in
  nodes m' !! nd = Some n' /\
  (forall x, x <> nd -> nodes m' !! x = nodes m !! x) /\
  typenodes m' = typenodes m /\ root m' = root m /\
  (well_formed_tree m -> well_formed_tree m').
Proof.
  intros Hn Hp Hc m'. pose proof (update_same_tree m nd n n' Hn Hp Hc) as Hsame.
  split_and!; try done.
  - unfold m'. simpl. by rewrite list_lookup_alter_eq, Hn.
  - intros x Hx. unfold m'. simpl. by rewrite list_lookup_alter_ne.
  - intros Hwf. by apply (same_tree_well_formed m).
Qed.

Section DelegateFacts.
Variable py_str : pyval -> string.

(** On a choice leaf the whole method does what its choice branch does. *)
Lemma TreeDelegate_setModelData_choice combobox m index nd m' :
  (forall s, py_str (PStr s) = s) ->
  internalPointer index = Some nd ->
  setModelData combobox m nd = Ok (Some m') ->
  TreeDelegate_setModelData py_str (ComboBox combobox) m index = Ok (Done m').
Proof.
  intros Hstr Hptr. unfold setModelData, TreeDelegate_setModelData. rewrite Hptr.
  destruct (node_at m nd) as [n|]; [|done]. simpl bind.
  destruct (1 <? numColumns n); [|done]. simpl negb. cbv iota.
  unfold under_type, getParent. destruct (deref m (parent n)) as [p|]; [|done]. simpl bind.
  intros H.
  assert (exists s, getData p 0 = PStr s /\ bool_decide (s = "type") = true) as (s & Hs & Ht).
  { destruct (getData p 0) as [| | | |s| |]; try done.
    exists s. split; [done|]. by destruct (bool_decide (s = "type")). }
  rewrite Hs, Ht in H |- *. simpl negb in *. cbv iota in *.
  destruct (getData n 0) as [| | | |old| |]; try done. cbn [str_key bind] in H.
  rewrite Hstr.
  apply bind_Ok in H as (itemsToDisable & Hd & H). rewrite Hd. cbn [bind].
  apply bind_Ok in H as (itemsToEnable & He & H). rewrite He. cbn [bind].
  by injection H as <-.
Qed.

(** Whatever branch [setModelData] takes, when it changes the model itself
    it writes to the fields of the node of the index, and on a choice leaf to
    the disabled nodes, and to nothing else: every other node, the parent,
    the children, the sibling map and the number of fields of the node, the
    type nodes and the root are as before, and a well-formed tree stays well
    formed.  Off the choice leaves the disabled nodes are as before too. *)
Theorem setModelData_keeps_the_tree
    (editor : QWidget) (m : TreeModel) (index : QModelIndex) (m' : TreeModel) :
  TreeDelegate_setModelData py_str editor m index = Ok (Done m') ->
  exists nd n n',
    internalPointer index = Some nd /\
    nodes m !! nd = Some n /\ nodes m' !! nd = Some n' /\
    parent n' = parent n /\ children n' = children n /\
    siblings n' = siblings n /\ numColumns n' = numColumns n /\
    (forall x, x <> nd -> nodes m' !! x = nodes m !! x) /\
    typenodes m' = typenodes m /\ root m' = root m /\
    (well_formed_tree m -> well_formed_tree m') /\
    (under_type m n <> Ok true \/ numColumns n <= 1 ->
     disabledNodes m' = disabledNodes m).
Proof.
  unfold TreeDelegate_setModelData, node_at. intros H.
  destruct (internalPointer index) as [nd|]; [|done].
  destruct (nodes m !! nd) as [n|] eqn:Hn; [|done]. simpl bind in H.
  destruct (Nat.ltb_spec 1 (numColumns n)) as [Hcols|Hcols].
  - apply bind_Ok in H as (p & Hp & H).
    destruct editor as [combobox|text]; [|done].
    set (n1 := snd (setData n 0 (PStr (currentText combobox)))) in *.
    set (n2 := snd (setData n1 (currentIndex combobox) (PStr (py_str (getData n 0))))) in *.
    destruct (setData_rest n 0 (PStr (currentText combobox))) as (P1 & C1 & S1 & N1).
    destruct (setData_rest n1 (currentIndex combobox) (PStr (py_str (getData n 0))))
      as (P2 & C2 & S2 & N2).
    fold n1 in P1, C1, S1, N1, P2, C2, S2, N2. fold n2 in P2, C2, S2, N2.
    assert (under_type m n = Ok (match getData p 0 with
                                 | PStr s => bool_decide (s = "type")
                                 | _ => false
                                 end)) as Htype.
    { unfold under_type. unfold getParent in Hp. rewrite Hp. simpl.
      by destruct (getData p 0). }
    exists nd, n, n2.
    destruct (written_node m nd n n2 Hn) as (W1 & W2 & W3 & W4 & W5); try congruence.
    destruct (match getData p 0 with PStr s => bool_decide (s = "type") | _ => false end)
      eqn:His; simpl negb in H; cbv iota in H.
    + apply bind_Ok in H as (itemsToDisable & _ & H).
      apply bind_Ok in H as (itemsToEnable & _ & H). injection H as <-.
      split_and!; try done; try congruence.
      intros [Hno|Hno]; [congruence | lia].
    + injection H as <-. split_and!; try done; congruence.
  - destruct editor as [combobox|text]; [done|]. injection H as <-.
    destruct (setData_rest n 0 (PStr text)) as (P1 & C1 & S1 & N1).
    exists nd, n, (snd (setData n 0 (PStr text))).
    destruct (written_node m nd n (snd (setData n 0 (PStr text))) Hn)
      as (W1 & W2 & W3 & W4 & W5); try done.
Qed.

Lemma insert_swap_back {A} (l : list A) i x0 xi :
  l !! 0 = Some x0 -> l !! i = Some xi ->
  <[i := xi]> (<[0 := x0]> (<[i := x0]> (<[0 := xi]> l))) = l.
Proof.
  intros H0 Hi. apply list_eq. intros j.
  pose proof (lookup_lt_Some _ _ _ H0) as Hl0. pose proof (lookup_lt_Some _ _ _ Hi) as Hli.
  destruct (decide (j = i)) as [->|Hji].
  - rewrite list_lookup_insert_eq by (rewrite !length_insert; lia). done.
  - rewrite list_lookup_insert_ne by done.
    destruct (decide (j = 0)) as [->|Hj0].
    + rewrite list_lookup_insert_eq by (rewrite !length_insert; lia). done.
    + by rewrite !list_lookup_insert_ne by done.
Qed.

Lemma setData_in_range (n : Node) (i : nat) (v : pyval) :
  i < numColumns n ->
  snd (setData n (Z.of_nat i) v) = with_data (<[i := v]> (data n)) n.
Proof.
  intros Hi. unfold setData.
  destruct (Z.ltb_spec (Z.of_nat i) 0); [lia|].
  destruct (Z.leb_spec (Z.of_nat (numColumns n)) (Z.of_nat i)); [lia|]. simpl.
  by rewrite Nat2Z.id.
Qed.

Lemma setData_first (n : Node) (v : pyval) :
  0 < numColumns n -> snd (setData n 0 v) = with_data (<[0 := v]> (data n)) n.
Proof. intros H. by apply (setData_in_range n 0). Qed.

(** The branch for a leaf with several fields under a node that is not
    called 'type'. *)
Lemma TreeDelegate_setModelData_swap m index nd n p i a b :
  (forall s, py_str (PStr s) = s) ->
  internalPointer index = Some nd ->
  nodes m !! nd = Some n -> 1 < numColumns n ->
  deref m (parent n) = Ok p ->
  match getData p 0 with PStr s => bool_decide (s = "type") | _ => false end = false ->
  data n !! 0 = Some (PStr a) -> data n !! i = Some (PStr b) ->
  TreeDelegate_setModelData py_str (ComboBox (mkCombo (Z.of_nat i) b)) m index
  = Ok (Done (update_node nd
                (fun _ => with_data (<[i := PStr a]> (<[0 := PStr b]> (data n))) n) m)).
Proof.
  intros Hstr Hptr Hn Hcols Hp Hnot Ha Hb.
  pose proof (lookup_lt_Some _ _ _ Hb) as Hlb.
  unfold TreeDelegate_setModelData, node_at. rewrite Hptr, Hn. simpl bind.
  destruct (Nat.ltb_spec 1 (numColumns n)) as [_|Hle]; [|lia].
  unfold getParent. rewrite Hp. simpl bind. rewrite Hnot. simpl negb. cbv iota.
  simpl currentText. simpl currentIndex.
  assert (getData n 0 = PStr a) as -> by (by apply (getData_nat n 0)).
  rewrite Hstr, setData_first by lia.
  rewrite setData_in_range by (unfold numColumns; simpl; rewrite length_insert; lia).
  done.
Qed.

(** A selection in the combo box of a leaf with several fields that is no
    choice leaf (its parent is not called 'type') exchanges the first field
    with the selected one and leaves the disabled nodes alone; selecting the
    entry at the same place once more gives the model back as it was. *)
Theorem selection_off_type_swaps_fields
    (m : TreeModel) (index : QModelIndex) (nd : nat) (n : Node)
    (i : nat) (first selected : string) :
  (forall s, py_str (PStr s) = s) ->
  internalPointer index = Some nd ->
  nodes m !! nd = Some n ->
  parent n <> Some nd ->
  1 < numColumns n ->
  under_type m n = Ok false ->
  data n !! 0 = Some (PStr first) ->
  data n !! i = Some (PStr selected) ->
  exists m1,
    TreeDelegate_setModelData py_str (ComboBox (mkCombo (Z.of_nat i) selected)) m index
    = Ok (Done m1) /\
    nodes m1 !! nd
    = Some (with_data (<[i := PStr first]> (<[0 := PStr selected]> (data n))) n) /\
    disabledNodes m1 = disabledNodes m /\
    TreeDelegate_setModelData py_str (ComboBox (mkCombo (Z.of_nat i) first)) m1 index
    = Ok (Done m).
Proof.
  intros Hstr Hptr Hn Hself Hcols Htype H0 Hi.
  pose proof (lookup_lt_Some _ _ _ Hi) as Hlt.
  destruct (deref m (parent n)) as [p|] eqn:Hp;
    [|by unfold under_type in Htype; rewrite Hp in Htype].
  assert (match getData p 0 with PStr s => bool_decide (s = "type") | _ => false end
          = false) as Hnot.
  { unfold under_type in Htype. rewrite Hp in Htype. simpl in Htype.
    destruct (getData p 0); try done. by injection Htype as ->. }
  set (n' := with_data (<[i := PStr first]> (<[0 := PStr selected]> (data n))) n).
  exists (update_node nd (fun _ => n') m). split_and!.
  - by apply (TreeDelegate_setModelData_swap m index nd n p).
  - exact (update_node_lookup m nd (fun _ => n') n Hn).
  - done.
  - rewrite (TreeDelegate_setModelData_swap (update_node nd (fun _ => n') m)
               index nd n' p i selected first); try done.
    + rewrite update_node_twice. simpl data.
      rewrite (insert_swap_back (data n) i (PStr first) (PStr selected) H0 Hi).
      f_equal. f_equal. replace (with_data (data n) n') with n by (by destruct n).
      by apply update_node_id.
    + exact (update_node_lookup m nd (fun _ => n') n Hn).
    + unfold numColumns, n'. simpl. rewrite !length_insert. done.
    + simpl parent. unfold deref in *. destruct (parent n) as [q|]; [|done].
      unfold node_at in *. rewrite update_node_other; [done | congruence].
    + unfold n'. simpl. destruct (decide (i = 0)) as [->|Hne].
      * rewrite list_lookup_insert_eq by (rewrite length_insert; lia). congruence.
      * rewrite list_lookup_insert_ne by done. rewrite list_lookup_insert_eq by lia. done.
    + unfold n'. simpl. rewrite list_lookup_insert_eq by (rewrite length_insert; lia). done.
Qed.

(** A node with one child serialises to the first field of the child. *)
Lemma dictFromNode_only_child depth m key nkey c nc :
  nodes m !! key = Some nkey -> children nkey = [c] -> nodes m !! c = Some nc ->
  dictFromNode (S depth) m (Some key) = Ok (getData nc 0).
Proof.
  intros Hkey Hc Hnc. cbn [dictFromNode]. rewrite (node_at_deref _ _ _ Hkey). cbn [bind].
  rewrite child_list. cbn [bind]. rewrite Hc. simpl.
  unfold node_at. by rewrite Hnc.
Qed.

(** The text of a line edit is stored as a string and is what the key above
    the leaf serialises to, whatever the leaf held before: the text replaces
    the single field of the leaf.  A leaf without fields (the leaf of an
    empty list) is not written to: the model stays as it was. *)
Theorem line_edit_is_serialised_as_text
    (m : TreeModel) (index : QModelIndex) (nd : nat) (n : Node) (text : string) :
  internalPointer index = Some nd ->
  nodes m !! nd = Some n ->
  numColumns n <= 1 ->
  exists m',
    TreeDelegate_setModelData py_str (LineEdit text) m index = Ok (Done m') /\
    (numColumns n = 0 -> m' = m) /\
    (numColumns n = 1 ->
       (exists n', nodes m' !! nd = Some n' /\ data n' = [PStr text]) /\
       forall key nkey depth,
         nodes m !! key = Some nkey -> children nkey = [nd] ->
         dictFromNode (S depth) m' (Some key) = Ok (PStr text)).
Proof.
  intros Hptr Hn Hcols. unfold TreeDelegate_setModelData, node_at. rewrite Hptr, Hn.
  simpl bind. destruct (Nat.ltb_spec 1 (numColumns n)) as [Hlt|_]; [lia|].
  eexists. split; [done|]. split.
  - intros H0. unfold setData. rewrite H0. simpl. by apply update_node_id.
  - intros H1. rewrite setData_first by lia.
    set (n' := with_data (<[0 := PStr text]> (data n)) n).
    assert (data n' = [PStr text]) as Hd.
    { unfold n'. simpl. unfold numColumns in H1.
      destruct (data n) as [|x [|y l]]; simpl in H1; try lia. done. }
    destruct (written_node m nd n n' Hn) as (W1 & W2 & _); [done | done |].
    split; [by exists n'|].
    intros key nkey depth Hkey Hc.
    assert (exists nkey', nodes (update_node nd (fun _ => n') m) !! key = Some nkey' /\
                          children nkey' = [nd]) as (nkey' & Hkey' & Hc').
    { destruct (decide (key = nd)) as [->|Hne].
      - exists n'. split; [done|]. rewrite Hn in Hkey. by injection Hkey as <-.
      - exists nkey. split; [|done]. by rewrite W2. }
    rewrite (dictFromNode_only_child depth _ key nkey' nd n' Hkey' Hc' W1).
    unfold getData. by rewrite Hd.
Qed.

End DelegateFacts.

Lemma setModelData_keeps_the_tree_witness :
  let m := built list_template in
  exists m',
    TreeDelegate_setModelData str_of_field (LineEdit "7") m (createIndex 0 0 (Some 4))
    = Ok (Done m') /\
    nodes m' !! 2 = nodes m !! 2 /\ disabledNodes m' = disabledNodes m /\
    typenodes m' = typenodes m.
Proof.
  intros m. eexists. split; [vm_compute; reflexivity|].
  match goal with
  | |- nodes ?m' !! _ = _ /\ _ =>
      destruct (setModelData_keeps_the_tree str_of_field (LineEdit "7") m
                  (createIndex 0 0 (Some 4)) m')
        as (nd & n & n' & Hptr & Hn & _ & _ & _ & _ & _ & Hframe & Hts & _ & _ & Hdis);
        [vm_compute; reflexivity|]
  end.
  simpl in Hptr. injection Hptr as <-.
  split; [apply Hframe; lia|]. split; [|exact Hts].
  apply Hdis. right. vm_compute in Hn. injection Hn as <-. unfold numColumns. simpl. lia.
Defined.

Lemma selection_off_type_swaps_fields_witness :
  let m := built list_template in
  let leaf := createIndex 0 0 (Some 2) in
  exists m1,
    TreeDelegate_setModelData str_of_field (ComboBox (mkCombo 2 "macroatom")) m leaf
    = Ok (Done m1) /\
    nodes m1 !! 2
    = Some (mkNode (Some 1) [] [PStr "macroatom"; PStr "downbranch"; PStr "scatter"] []) /\
    TreeDelegate_setModelData str_of_field (ComboBox (mkCombo 2 "scatter")) m1 leaf
    = Ok (Done m).
Proof.
  intros m leaf.
  destruct (selection_off_type_swaps_fields str_of_field m leaf 2
              (mkNode (Some 1) [] [PStr "scatter"; PStr "downbranch"; PStr "macroatom"] [])
              2 "scatter" "macroatom")
    as (m1 & H1 & H2 & _ & H3);
    [done | reflexivity | vm_compute; reflexivity | done | vm_compute; lia
    | vm_compute; reflexivity | reflexivity | reflexivity |].
  exists m1. split; [exact H1|]. split; [exact H2 | exact H3].
Defined.

Lemma line_edit_is_serialised_as_text_witness :
  let m := built list_template in
  exists m',
    TreeDelegate_setModelData str_of_field (LineEdit "7") m (createIndex 0 0 (Some 4))
    = Ok (Done m') /\
    dictFromNode 1 m' (Some 3) = Ok (PStr "7") /\
    dictFromNode 1 m (Some 3) = Ok (PInt 1).
Proof.
  intros m.
  destruct (line_edit_is_serialised_as_text str_of_field m (createIndex 0 0 (Some 4)) 4
              (mkNode (Some 3) [] [PInt 1] []) "7")
    as (m' & H1 & _ & H2);
    [reflexivity | vm_compute; reflexivity | vm_compute; lia |].
  exists m'. split; [exact H1|]. split; [|vm_compute; reflexivity].
  destruct H2 as [_ H2]; [reflexivity|].
  apply (H2 3 (mkNode (Some 0) [4] [PStr "seed"] []) 0); [vm_compute; reflexivity | reflexivity].
Defined.

Lemma setModelData_inv editor m nd m' :
  setModelData editor m nd = Ok (Some m') ->
  exists n old D,
    nodes m !! nd = Some n /\ 1 < numColumns n /\ getData n 0 = PStr old /\
    m' = with_disabled D
           (update_node nd
              (fun _ => snd (setData (snd (setData n 0 (PStr (currentText editor))))
                               (currentIndex editor) (PStr old))) m).
Proof.
  unfold setModelData, node_at. intros H.
  destruct (nodes m !! nd) as [n|]; [|done]. simpl bind in H.
  destruct (Nat.ltb_spec 1 (numColumns n)) as [Hcols|_]; [|done].
  simpl negb in H. cbv iota in H.
  apply bind_Ok in H as (is_type & _ & H). destruct is_type; [|done].
  simpl negb in H. cbv iota in H.
  apply bind_Ok in H as (old & Hold & H).
  apply bind_Ok in H as (itemsToDisable & _ & H).
  apply bind_Ok in H as (itemsToEnable & _ & H). injection H as <-.
  exists n, old, (enable_all itemsToEnable (disabledNodes m ++ itemsToDisable)).
  split_and!; try done.
  destruct (getData n 0); try done. simpl in Hold. by injection Hold as ->.
Qed.

(** After a selection on a choice leaf, the node above it (the 'type' key,
    whose only child the leaf is) serialises to the option selected. *)
Theorem selection_is_serialised
    (m : TreeModel) (nd : nat) (n : Node) (i : nat) (editor : QComboBox)
    (m' : TreeModel) (t : nat) (nt : Node) (depth : nat) :
  nodes m !! nd = Some n ->
  choose n i = Some editor ->
  setModelData editor m nd = Ok (Some m') ->
  nodes m !! t = Some nt ->
  children nt = [nd] ->
  dictFromNode (S depth) m' (Some t) = Ok (PStr (currentText editor)).
Proof.
  intros Hn Hchoose Hset Ht Hc.
  destruct (setModelData_inv _ _ _ _ Hset) as (n0 & old & D & Hn0 & Hcols & Hold & ->).
  rewrite Hn in Hn0. injection Hn0 as <-.
  unfold choose in Hchoose. destruct (data n !! i) as [[| | | |text| |]|] eqn:Hi; try done.
  injection Hchoose as <-. simpl currentText. simpl currentIndex.
  pose proof (lookup_lt_Some _ _ _ Hi) as Hlt.
  rewrite setData_first by lia.
  rewrite setData_in_range by (unfold numColumns; simpl; rewrite length_insert; lia).
  set (n2 := with_data _ _).
  assert (getData n2 0 = PStr text) as Hd.
  { apply (getData_nat n2 0). unfold n2. simpl. destruct (decide (i = 0)) as [->|Hne].
    - rewrite list_lookup_insert_eq by (rewrite length_insert; lia).
      assert (getData n 0 = PStr text) by (by apply (getData_nat n 0)). congruence.
    - rewrite list_lookup_insert_ne by done. rewrite list_lookup_insert_eq; [done|].
      unfold numColumns in Hcols. lia. }
  destruct (written_node m nd n n2 Hn) as (W1 & W2 & _); [done | done |].
  assert (exists nt', nodes (update_node nd (fun _ => n2) m) !! t = Some nt' /\
                      children nt' = [nd]) as (nt' & Ht' & Hc').
  { destruct (decide (t = nd)) as [->|Hne].
    - exists n2. split; [done|]. rewrite Hn in Ht. by injection Ht as <-.
    - exists nt. split; [|done]. by rewrite W2. }
  rewrite <- Hd.
  apply (dictFromNode_only_child depth _ t nt' nd n2); done.
Qed.

Lemma selection_is_serialised_witness :
  let m := built density_template in
  exists m',
    setModelData (mkCombo 1 "uniform") m 3 = Ok (Some m') /\
    dictFromNode 1 m (Some 2) = Ok (PStr "exponential") /\
    dictFromNode 1 m' (Some 2) = Ok (PStr "uniform").
Proof.
  intros m. eexists. split; [vm_compute; reflexivity|]. split; [vm_compute; reflexivity|].
  apply (selection_is_serialised m 3
           (mkNode (Some 2) [] [PStr "exponential"; PStr "uniform"]
              [("exponential", [6; 8]); ("uniform", [4])])
           1 (mkCombo 1 "uniform") _ 2 (mkNode (Some 1) [3] [PStr "type"] []) 0);
    vm_compute; reflexivity.
Defined.

(** ** The merge *)








(** ** Selections, one after the other *)

Lemma init_choice_leaves_ready dictionary m :
  TreeModel_init dictionary = Ok m -> choice_leaves_ready m.
Proof. intros H t Ht. by apply (built_choice_leaf dictionary). Qed.

(** A selection on a choice leaf never fails for a missing entry of the
    sibling map, however many selections went before: when every type node
    has its choice leaf ready, as after construction, the selection of any
    entry of the combo box of a choice leaf with several options returns, and
    every type node has its choice leaf ready afterwards. *)
Theorem selection_keeps_choice_leaves_ready
    (m : TreeModel) (t : nat) (leaf : Node) (i : nat) :
  choice_leaves_ready m ->
  t ∈ typenodes m ->
  nodes m !! S t = Some leaf ->
  1 < numColumns leaf ->
  i < numColumns leaf ->
  exists editor m',
    choose leaf i = Some editor /\
    setModelData editor m (S t) = Ok (Some m') /\
    choice_leaves_ready m' /\
    typenodes m' = typenodes m /\
    (exists leaf', nodes m' !! S t = Some leaf' /\ numColumns leaf' = numColumns leaf /\
                   data leaf' !! 0 = Some (PStr (currentText editor))).
Proof.
  intros Hready Ht Hleaf Hcols Hi.
  destruct (Hready t Ht) as (leaf0 & Htl & Hp & Hc & Htype & Hr).
  apply typesleaf_of_leaf_id in Htl as [_ Hl]. rewrite Hleaf in Hl. injection Hl as <-.
  destruct (lookup_lt_is_Some_2 (data leaf) 0) as [x0 H0]; [unfold numColumns in Hcols; lia|].
  destruct (lookup_lt_is_Some_2 (data leaf) i) as [xi Hxi]; [done|].
  destruct (Hr 0 x0 H0) as (old & sibs0 & -> & Hold).
  destruct (Hr i xi Hxi) as (name & sibsi & -> & Hnew).
  exists (mkCombo (Z.of_nat i) name). eexists. split.
  { unfold choose. by rewrite Hxi. }
  split.
  { by apply (setModelData_choice (mkCombo (Z.of_nat i) name) m (S t) leaf old sibs0 sibsi). }
  simpl currentText. simpl currentIndex.
  rewrite setData_first by lia.
  rewrite setData_in_range by (unfold numColumns; simpl; rewrite length_insert; done).
  change (with_data (<[i:=PStr old]> (data (with_data (<[0:=PStr name]> (data leaf)) leaf)))
            (with_data (<[0:=PStr name]> (data leaf)) leaf))
    with (with_data (<[i := PStr old]> (<[0 := PStr name]> (data leaf))) leaf).
  set (leaf' := with_data (<[i := PStr old]> (<[0 := PStr name]> (data leaf))) leaf).
  destruct (written_node m (S t) leaf leaf' Hleaf) as (W1 & W2 & W3 & _); [done | done |].
  assert (data leaf' !! 0 = Some (PStr name)) as Hfirst.
  { unfold leaf'. simpl. destruct (decide (i = 0)) as [->|Hne].
    - rewrite list_lookup_insert_eq by (rewrite length_insert; unfold numColumns in Hi; lia).
      congruence.
    - rewrite list_lookup_insert_ne by done. rewrite list_lookup_insert_eq; [done|].
      unfold numColumns in Hcols. lia. }
  assert (choice_ready leaf') as Hr'.
  { intros j x Hx. unfold leaf' in Hx |- *. simpl in Hx |- *.
    destruct (decide (j = i)) as [->|Hji].
    - rewrite list_lookup_insert_eq in Hx
        by (rewrite length_insert; unfold numColumns in Hi; lia).
      injection Hx as <-. eauto.
    - rewrite list_lookup_insert_ne in Hx by done.
      destruct (decide (j = 0)) as [->|Hj0].
      + rewrite list_lookup_insert_eq in Hx by (unfold numColumns in Hcols; lia).
        injection Hx as <-. eauto.
      + rewrite list_lookup_insert_ne in Hx by done. exact (Hr j x Hx). }
  set (D := enable_all sibsi (disabledNodes m ++ sibs0)).
  set (m1 := update_node (S t) (fun _ => leaf') m) in *.
  assert (typenodes (with_disabled D m1) = typenodes m) as Hts by exact W3.
  clearbody m1.
  assert (forall x, typesleaf_of (with_disabled D m1) x = typesleaf_of m1 x) as Htl_eq by done.
  assert (forall n, under_type (with_disabled D m1) n = under_type m1 n) as Hut_eq by done.
  change (nodes (with_disabled D m1)) with (nodes m1).
  split_and!.
  - intros t' Ht'. change (t' ∈ typenodes m1) in Ht'. rewrite W3 in Ht'.
    destruct (Hready t' Ht') as (leaf1 & Htl1 & Hp1 & Hc1 & Htype1 & Hr1).
    apply typesleaf_of_leaf_id in Htl1 as Htl1'. destruct Htl1' as [Hid1 Hl1].
    assert (t' <> S t) as Hne.
    { intros ->. unfold leaf_id, typesleaf_of in Hid1. rewrite Hleaf, Hc in Hid1. done. }
    assert (forall leafx, nodes m1 !! S t' = Some leafx ->
              typesleaf_of m1 t' = Some (S t', leafx)) as Hid'.
    { intros leafx Hx. unfold leaf_id, typesleaf_of in Hid1 |- *.
      rewrite (W2 t' Hne). destruct (nodes m !! t') as [nt'|]; [|done].
      destruct (children nt' !! 0) as [l|]; [|done].
      destruct (nodes m !! l) as [nl|] eqn:Hnl; [|done]. simpl in Hid1.
      injection Hid1 as ->. by rewrite Hx. }
    destruct (decide (t' = t)) as [->|Hnet].
    + exists leaf'. rewrite Htl_eq, Hut_eq. split_and!; try done.
      * by apply Hid'.
      * unfold under_type in Htype |- *. simpl parent. rewrite Hp in Htype |- *.
        unfold deref, node_at in Htype |- *. by rewrite (W2 t Hne).
    + exists leaf1. rewrite Htl_eq, Hut_eq. split_and!; try done.
      * apply Hid'. rewrite W2; [done | congruence].
      * unfold under_type in Htype1 |- *. rewrite Hp1 in Htype1 |- *.
        unfold deref, node_at in Htype1 |- *. by rewrite (W2 t' Hne).
  - done.
  - exists leaf'. split; [exact W1|]. split; [|done].
    unfold numColumns, leaf'. simpl. by rewrite !length_insert.
Qed.

Lemma selection_keeps_choice_leaves_ready_witness :
  let m := built three_way_template in
  exists m1,
    setModelData (mkCombo 1 "B") m 2 = Ok (Some m1) /\
    choice_leaves_ready m1.
Proof.
  intros m.
  assert (choice_leaves_ready m) as Hready.
  { apply (init_choice_leaves_ready three_way_template). vm_compute. reflexivity. }
  destruct (selection_keeps_choice_leaves_ready m 1
              (mkNode (Some 1) [] [PStr "A"; PStr "B"; PStr "C"]
                 [("A", [3; 5]); ("B", [7]); ("C", [9])]) 1 Hready)
    as (e1 & m1 & He1 & Hm1 & Hready1 & _);
    [apply list_elem_of_here | vm_compute; reflexivity
    | unfold numColumns; simpl; lia | unfold numColumns; simpl; lia |].
  vm_compute in He1. injection He1 as <-.
  exists m1. split; [exact Hm1 | exact Hready1].
Defined.

(** ** Construction *)

(** When construction returns, the model holds a tree: parents and children
    agree, no node is twice among the children of a node, the root is the
    only node without a parent; the type nodes are registered once each, and
    each has its choice leaf ready for selections. *)
Theorem construction_gives_a_tree (dictionary : pyval) (m : TreeModel) :
  TreeModel_init dictionary = Ok m ->
  well_formed_tree m /\ NoDup (typenodes m) /\ choice_leaves_ready m.
Proof.
  intros Hinit. split; [by apply (init_well_formed dictionary)|].
  split; [|by apply (init_choice_leaves_ready dictionary)].
  destruct (TreeModel_init_inv _ _ Hinit) as (items & mb & _ & _ & Hl & _ & Hnd & _).
  destruct (link_loop _ _ _ Hl) as ((Hts & _) & _). by rewrite Hts.
Qed.

Lemma construction_gives_a_tree_witness :
  let m := built density_template in
  well_formed_tree m /\ NoDup (typenodes m) /\ choice_leaves_ready m.
Proof.
  intros m. apply (construction_gives_a_tree density_template). vm_compute. reflexivity.
Defined.

(** What the sibling map of a choice leaf of a built tree holds: every node
    in the entry of an option name is a sibling of the type node, a child of
    the same parent, and its first field is a parameter of an option string
    of that name in the list of options the template gave. *)
Theorem sibling_map_holds_named_siblings
    (dictionary : pyval) (mb m : TreeModel) (t : nat) (leaf : Node)
    (name : string) (sibs : list nat) (x : nat) :
  treeFromNode dictionary 0 (mkModel [Node_init [PStr "column A"]] 0 [] []) = Ok mb ->
  TreeModel_init dictionary = Ok m ->
  t ∈ typenodes m ->
  nodes m !! S t = Some leaf ->
  dict_get name (siblings leaf) = Some sibs ->
  x ∈ sibs ->
  exists leafb i s param,
    nodes mb !! S t = Some leafb /\ data leafb !! i = Some (PStr s) /\
    name = hd "" (py_split delim s) /\ param ∈ tl (py_split delim s) /\
    sibling_called m t param x.
Proof. apply recorded_siblings_named. Qed.

Lemma sibling_map_holds_named_siblings_witness :
  let m := built density_template in
  exists s param,
    "exponential" = hd "" (py_split delim s) /\ param ∈ tl (py_split delim s) /\
    sibling_called m 2 param 8.
Proof.
  intros m.
  destruct (sibling_map_holds_named_siblings density_template
              (match treeFromNode density_template 0
                       (mkModel [Node_init [PStr "column A"]] 0 [] []) with
               | Ok mb => mb
               | Raise _ => mkModel [] 0 [] []
               end)
              m 2
              (mkNode (Some 2) [] [PStr "exponential"; PStr "uniform"]
                 [("exponential", [6; 8]); ("uniform", [4])])
              "exponential" [6; 8] 8)
    as (leafb & i & s & param & _ & Hs & Hname & Hparam & Hcalled);
    [vm_compute; reflexivity | vm_compute; reflexivity | apply list_elem_of_here
    | vm_compute; reflexivity | vm_compute; reflexivity
    | apply list_elem_of_further, list_elem_of_here |].
  exists s, param. done.
Defined.

(** ** The table model *)

Lemma py_index_nonneg {A} (l : list A) (i : Z) :
  (0 <= i)%Z ->
  py_index l i = match l !! Z.to_nat i with
                 | Some x => Ok x
                 | None => Raise IndexError
                 end.
Proof.
  intros Hi. unfold py_index.
  destruct (Z.ltb_spec i 0); [lia|]. destruct (Z.ltb_spec i 0); [lia|]. simpl.
  destruct (Z.leb_spec (Z.of_nat (length l)) i) as [Hge|Hlt]; [|done].
  by rewrite lookup_ge_None_2 by lia.
Qed.

Lemma py_setitem_nonneg {A} (l : list A) (i : Z) (x : A) :
  (0 <= i)%Z ->
  py_setitem l i x = match l !! Z.to_nat i with
                     | Some _ => Ok (<[Z.to_nat i := x]> l)
                     | None => Raise IndexError
                     end.
Proof.
  intros Hi. unfold py_setitem.
  destruct (Z.ltb_spec i 0); [lia|]. destruct (Z.ltb_spec i 0); [lia|]. simpl.
  destruct (Z.leb_spec (Z.of_nat (length l)) i) as [Hge|Hlt].
  - by rewrite lookup_ge_None_2 by lia.
  - destruct (lookup_lt_is_Some_2 l (Z.to_nat i)) as [y ->]; [lia | done].
Qed.

Lemma isValid_nonneg index :
  isValid index = true -> (0 <= index_row index)%Z /\ (0 <= index_column index)%Z.
Proof.
  unfold isValid. intros H. apply andb_true_iff in H as [H _].
  apply andb_true_iff in H as [Hr Hc]. split; by apply Z.leb_le.
Qed.

(** [SimpleTableModel.setData] followed by [SimpleTableModel.data]: a write
    to a cell of the table returns true, emits [dataChanged] once, and the
    value is what [data] then gives for the cell; the other cells and the
    size of the table are as before.  Reading or writing a cell that the
    table does not have raises [IndexError]; no [None] and no [False] is
    returned for it. *)
Theorem table_setData_then_data
    (t : SimpleTableModel) (index : QModelIndex) (value : pyval) :
  isValid index = true ->
  (forall col old,
     arraydata t !! Z.to_nat (index_column index) = Some col ->
     col !! Z.to_nat (index_row index) = Some old ->
     exists t',
       SimpleTableModel_setData t index value EditRole
       = Ok (true, t', [dataChanged index index]) /\
       SimpleTableModel_data t' index DisplayRole = Ok value /\
       SimpleTableModel_columnCount t' = SimpleTableModel_columnCount t /\
       SimpleTableModel_rowCount t' = SimpleTableModel_rowCount t /\
       (forall index',
          isValid index' = true ->
          index_column index' <> index_column index \/ index_row index' <> index_row index ->
          SimpleTableModel_data t' index' DisplayRole
          = SimpleTableModel_data t index' DisplayRole)) /\
  ((forall col, arraydata t !! Z.to_nat (index_column index) = Some col ->
                col !! Z.to_nat (index_row index) = None) ->
   SimpleTableModel_data t index DisplayRole = Raise IndexError /\
   SimpleTableModel_setData t index value EditRole = Raise IndexError).
Proof.
  intros Hvalid. destruct (isValid_nonneg _ Hvalid) as [Hrow Hcol].
  unfold SimpleTableModel_data, SimpleTableModel_setData. rewrite Hvalid.
  simpl negb. cbv iota. rewrite (py_index_nonneg _ _ Hcol). split.
  - intros col old Hc Ho. rewrite Hc. cbn [bind].
    rewrite (py_setitem_nonneg _ _ _ Hrow), Ho. cbn [bind].
    rewrite (py_setitem_nonneg _ _ _ Hcol), Hc. cbn [bind].
    eexists. split; [done|].
    pose proof (lookup_lt_Some _ _ _ Hc) as Hlc. pose proof (lookup_lt_Some _ _ _ Ho) as Hlo.
    split_and!.
    + simpl arraydata.
      rewrite (py_index_nonneg _ _ Hcol), list_lookup_insert_eq by done. cbn [bind].
      by rewrite (py_index_nonneg _ _ Hrow), list_lookup_insert_eq.
    + unfold SimpleTableModel_columnCount. simpl. apply length_insert.
    + unfold SimpleTableModel_rowCount. simpl arraydata.
      change 0%Z with (Z.of_nat 0). rewrite !py_index_nonneg by lia. rewrite Nat2Z.id.
      destruct (decide (Z.to_nat (index_column index) = 0)) as [Heq|Hne].
      * rewrite Heq in *. rewrite list_lookup_insert_eq by done. rewrite Hc. simpl.
        by rewrite length_insert.
      * by rewrite list_lookup_insert_ne.
    + intros index' Hvalid' Hother. destruct (isValid_nonneg _ Hvalid') as [Hrow' Hcol'].
      rewrite Hvalid'. simpl negb. cbv iota. simpl arraydata.
      rewrite !(py_index_nonneg _ _ Hcol').
      destruct (decide (Z.to_nat (index_column index') = Z.to_nat (index_column index)))
        as [Heq|Hne].
      * rewrite Heq, list_lookup_insert_eq, Hc by done. cbn [bind].
        rewrite !(py_index_nonneg _ _ Hrow'). rewrite list_lookup_insert_ne; [done|].
        destruct Hother as [Hother|Hother]; lia.
      * by rewrite list_lookup_insert_ne.
  - intros Hnone. destruct (arraydata t !! Z.to_nat (index_column index)) as [col|] eqn:Hc;
      [|done].
    cbn [bind]. rewrite (py_index_nonneg _ _ Hrow), (py_setitem_nonneg _ _ _ Hrow).
    by rewrite (Hnone col eq_refl).
Qed.

Lemma table_setData_then_data_witness :
  let t := addData [PInt 3; PInt 4] (addData [PInt 1; PInt 2] SimpleTableModel_init) in
  let cell := createIndex 1 0 None in
  exists t',
    SimpleTableModel_setData t cell (PInt 9) EditRole = Ok (true, t', [dataChanged cell cell]) /\
    SimpleTableModel_data t' cell DisplayRole = Ok (PInt 9) /\
    SimpleTableModel_data t (createIndex 2 0 None) DisplayRole = Raise IndexError.
Proof.
  intros t cell.
  destruct (table_setData_then_data t cell (PInt 9)) as [H1 _]; [reflexivity|].
  destruct (table_setData_then_data t (createIndex 2 0 None) (PInt 9)) as [_ H2];
    [reflexivity|].
  destruct (H1 [PInt 1; PInt 2] (PInt 2)) as (t' & Hset & Hdata & _);
    [reflexivity | reflexivity |].
  exists t'. split; [exact Hset|]. split; [exact Hdata|].
  apply H2. intros col Hcol. vm_compute in Hcol. by injection Hcol as <-.
Defined.

Lemma table_eta t : mkTable (arraydata t) = t.
Proof. by destruct t. Qed.

(** The body of the inner loop of [updateTable], at row [r] and column
    [c]. *)
Lemma updateTable_cell_spec t (r c : nat) signals :
  updateTable_cell (Z.of_nat r) (Z.of_nat c) (t, signals)
  = match arraydata t !! c with
    | Some col =>
        match col !! r with
        | Some _ =>
            Ok (t, signals ++ [dataChanged (createIndex (Z.of_nat r) (Z.of_nat c) None)
                                 (createIndex (Z.of_nat r) (Z.of_nat c) None)])
        | None => Raise IndexError
        end
    | None => Raise IndexError
    end.
Proof.
  unfold updateTable_cell.
  rewrite (py_index_nonneg (arraydata t)) by lia. rewrite Nat2Z.id.
  destruct (arraydata t !! c) as [col|] eqn:Hc; [|done]. cbn [bind].
  rewrite (py_index_nonneg col) by lia. rewrite Nat2Z.id.
  destruct (col !! r) as [value|] eqn:Hv; [|done]. cbn [bind].
  unfold SimpleTableModel_setData.
  assert (isValid (createIndex (Z.of_nat r) (Z.of_nat c) None) = true) as ->.
  { unfold isValid. simpl. destruct (Z.leb_spec 0 (Z.of_nat r)); [|lia].
    by destruct (Z.leb_spec 0 (Z.of_nat c)); [|lia]. }
  simpl negb. cbv iota. simpl index_column. simpl index_row.
  rewrite (py_index_nonneg (arraydata t)) by lia. rewrite Nat2Z.id, Hc. cbn [bind].
  rewrite py_setitem_nonneg by lia. rewrite Nat2Z.id, Hv. cbn [bind].
  rewrite py_setitem_nonneg by lia. rewrite Nat2Z.id, Hc. cbn [bind].
  rewrite (list_insert_id col r value Hv), (list_insert_id _ c col Hc), table_eta. done.
Qed.

(** The inner loop over the columns [a], ..., [a + len - 1] at row [r]. *)
Lemma updateTable_columns t (r : nat) len : forall a signals,
  for_each (updateTable_cell (Z.of_nat r)) (map Z.of_nat (seq a len)) (t, signals)
  = if forallb (fun c => match arraydata t !! c with
                         | Some col => bool_decide (r < length col)
                         | None => false
                         end) (seq a len)
    then Ok (t, signals ++ map (fun c => dataChanged (createIndex (Z.of_nat r) c None)
                                           (createIndex (Z.of_nat r) c None))
                               (map Z.of_nat (seq a len)))
    else Raise IndexError.
Proof.
  induction len as [|len IH]; intros a signals; cbn [for_each map seq forallb].
  - by rewrite app_nil_r.
  - rewrite updateTable_cell_spec.
    destruct (arraydata t !! a) as [col|]; [|done].
    destruct (col !! r) as [v|] eqn:Hv.
    + rewrite bool_decide_eq_true_2 by (by eapply lookup_lt_Some). cbn [bind andb].
      rewrite IH. destruct (forallb _ _); [|done]. by rewrite <- app_assoc.
    + rewrite bool_decide_eq_false_2; [done|]. apply lookup_ge_None in Hv. lia.
Qed.

Lemma forallb_seq_ext (f g : nat -> bool) len : forall k,
  (forall c, k <= c -> f c = g c) -> forallb f (seq k len) = forallb g (seq k len).
Proof.
  induction len as [|len IH]; intros k H; simpl; [done|].
  rewrite (H k) by lia. f_equal. apply IH. intros c Hc. apply H. lia.
Qed.

Lemma forallb_seq_lookup {A} (P : A -> bool) (l : list A) :
  forallb (fun c => match l !! c with Some x => P x | None => false end)
          (seq 0 (length l))
  = forallb P l.
Proof.
  assert (forall k, forallb (fun c => match l !! (c - k) with
                                      | Some x => P x
                                      | None => false
                                      end) (seq k (length l))
                    = forallb P l) as Hgen.
  { induction l as [|x l IHl]; intros k; simpl; [done|].
    rewrite Nat.sub_diag. simpl. f_equal. rewrite <- (IHl (S k)).
    apply forallb_seq_ext. intros c Hc.
    replace (c - k) with (S (c - S k)) by lia. done. }
  rewrite <- (Hgen 0). apply forallb_seq_ext. intros c _. by rewrite Nat.sub_0_r.
Qed.

(** The outer loop over the rows [a], ..., [a + len - 1]. *)
Lemma updateTable_rows t len : forall a signals,
  for_each updateTable_row (map Z.of_nat (seq a len)) (t, signals)
  = if forallb (fun r => forallb (fun col => bool_decide (r < length col)) (arraydata t))
               (seq a len)
    then Ok (t, signals ++ flat_map
                  (fun r => map (fun c => dataChanged (createIndex r c None)
                                            (createIndex r c None))
                                (py_range 0 (length (arraydata t))))
                  (map Z.of_nat (seq a len)))
    else Raise IndexError.
Proof.
  induction len as [|len IH]; intros a signals; cbn [for_each map seq forallb flat_map].
  - by rewrite app_nil_r.
  - unfold updateTable_row at 1. simpl fst. unfold SimpleTableModel_columnCount, py_range.
    rewrite Nat.sub_0_r, updateTable_columns.
    rewrite (forallb_seq_lookup (fun col => bool_decide (a < length col))).
    destruct (forallb (fun col => bool_decide (a < length col)) (arraydata t)); [|done].
    cbn [bind andb]. rewrite IH. destruct (forallb _ (seq (S a) len)); [|done].
    rewrite <- app_assoc. unfold py_range. by rewrite ?Nat.sub_0_r.
Qed.

Lemma updateTable_fits t (first : list pyval) :
  forallb (fun r => forallb (fun col => bool_decide (r < length col)) (arraydata t))
          (seq 0 (length first)) = true
  <-> Forall (fun col => length first <= length col) (arraydata t).
Proof.
  rewrite forallb_forall, Forall_forall. split.
  - intros H col Hcol. destruct (length first) as [|k] eqn:Hk; [lia|].
    assert (In k (seq 0 (S k))) as Hin by (apply in_seq; lia).
    specialize (H k Hin). rewrite forallb_forall in H.
    apply list_elem_of_In in Hcol. specialize (H col Hcol).
    apply bool_decide_eq_true in H. lia.
  - intros H r Hr. apply in_seq in Hr. apply forallb_forall. intros col Hcol.
    apply list_elem_of_In in Hcol. specialize (H col Hcol).
    apply bool_decide_eq_true. lia.
Qed.

(** [SimpleTableModel.updateTable] writes to every cell the value it holds:
    when every column is at least as long as the first one, it returns with
    the table as it was and one [dataChanged] emitted for every cell, row by
    row, the rows being those of the first column.  It raises [IndexError]
    on a table without data and on a table with a column shorter than the
    first. *)
Theorem updateTable_rewrites_every_cell (t : SimpleTableModel) :
  (arraydata t = [] -> SimpleTableModel_updateTable t = Raise IndexError) /\
  (forall first, arraydata t !! 0 = Some first ->
     (Forall (fun col => length first <= length col) (arraydata t) ->
      SimpleTableModel_updateTable t
      = Ok (t, cell_signals (length first) (length (arraydata t)))) /\
     (~ Forall (fun col => length first <= length col) (arraydata t) ->
      SimpleTableModel_updateTable t = Raise IndexError)).
Proof.
  unfold SimpleTableModel_updateTable, SimpleTableModel_rowCount. split.
  - intros ->. done.
  - intros first Hfirst. rewrite (py_index_0 _ _ Hfirst). cbn [bind].
    assert (for_each updateTable_row (py_range 0 (length first)) (t, [])
            = if forallb (fun r => forallb (fun col => bool_decide (r < length col))
                                     (arraydata t)) (seq 0 (length first))
              then Ok (t, cell_signals (length first) (length (arraydata t)))
              else Raise IndexError) as ->.
    { unfold cell_signals, py_range. rewrite !Nat.sub_0_r, updateTable_rows.
      unfold py_range. by rewrite Nat.sub_0_r. }
    pose proof (updateTable_fits t first) as Hfits.
    destruct (forallb _ (seq 0 (length first))).
    + split; [done|]. intros Hno. exfalso. apply Hno. by apply Hfits.
    + split; [|done]. intros Hall. apply Hfits in Hall. done.
Qed.

Lemma updateTable_rewrites_every_cell_witness :
  let t := addData [PInt 3; PInt 4] (addData [PInt 1; PInt 2] SimpleTableModel_init) in
  SimpleTableModel_updateTable t = Ok (t, cell_signals 2 2) /\
  SimpleTableModel_updateTable (addData [PInt 5] t) = Raise IndexError /\
  SimpleTableModel_updateTable SimpleTableModel_init = Raise IndexError.
Proof.
  intros t.
  destruct (updateTable_rewrites_every_cell t) as [_ H1].
  destruct (updateTable_rewrites_every_cell (addData [PInt 5] t)) as [_ H2].
  destruct (updateTable_rewrites_every_cell SimpleTableModel_init) as [H3 _].
  split_and!.
  - apply (H1 [PInt 1; PInt 2] eq_refl). repeat constructor.
  - apply (H2 [PInt 1; PInt 2] eq_refl). intros H.
    apply Forall_forall with (x := [PInt 5]) in H; [simpl in H; lia|].
    vm_compute. apply list_elem_of_further, list_elem_of_further, list_elem_of_here.
  - by apply H3.
Defined.

(** [SimpleTableModel.addData] appends a column: the number of columns grows
    by one, the new column is read back cell by cell at the last column, and
    the cells of the columns that were there read as before.  The number of
    rows is the length of the first column ever added, whatever the length of
    the later ones; asking a table without data for it raises
    [IndexError]. *)
Theorem addData_appends_a_column (t : SimpleTableModel) (datain : list pyval) :
  SimpleTableModel_columnCount (addData datain t) = S (SimpleTableModel_columnCount t) /\
  (arraydata t = [] ->
     SimpleTableModel_rowCount t = Raise IndexError /\
     SimpleTableModel_rowCount (addData datain t) = Ok (length datain)) /\
  (arraydata t <> [] ->
     SimpleTableModel_rowCount (addData datain t) = SimpleTableModel_rowCount t) /\
  (forall r x, datain !! r = Some x ->
     SimpleTableModel_data (addData datain t)
       (createIndex (Z.of_nat r) (Z.of_nat (SimpleTableModel_columnCount t)) None)
       DisplayRole = Ok x) /\
  (forall index role,
     isValid index = true ->
     (index_column index < Z.of_nat (SimpleTableModel_columnCount t))%Z ->
     SimpleTableModel_data (addData datain t) index role = SimpleTableModel_data t index role).
Proof.
  unfold SimpleTableModel_columnCount, SimpleTableModel_rowCount, addData. simpl arraydata.
  split_and!.
  - rewrite length_app. simpl. lia.
  - intros ->. done.
  - intros Hne. destruct (arraydata t) as [|first rest]; done.
  - intros r x Hx. unfold SimpleTableModel_data.
    assert (isValid (createIndex (Z.of_nat r) (Z.of_nat (length (arraydata t))) None) = true)
      as ->.
    { unfold isValid. simpl. destruct (Z.leb_spec 0 (Z.of_nat r)); [|lia].
      by destruct (Z.leb_spec 0 (Z.of_nat (length (arraydata t)))); [|lia]. }
    simpl. rewrite py_index_nonneg by lia. rewrite Nat2Z.id, list_lookup_middle by done.
    cbn [bind]. by apply py_index_nat.
  - intros index role Hvalid Hcol. destruct (isValid_nonneg _ Hvalid) as [_ Hcol0].
    unfold SimpleTableModel_data. rewrite Hvalid. simpl negb. cbv iota.
    destruct (is_DisplayRole role); [|done]. simpl negb. cbv iota. simpl arraydata.
    rewrite !(py_index_nonneg _ _ Hcol0). by rewrite lookup_app_l by lia.
Qed.

Lemma addData_appends_a_column_witness :
  let t := addData [PInt 1; PInt 2] SimpleTableModel_init in
  SimpleTableModel_rowCount SimpleTableModel_init = Raise IndexError /\
  SimpleTableModel_rowCount (addData [PInt 3] t) = Ok 2 /\
  SimpleTableModel_data (addData [PInt 3] t) (createIndex 0 1 None) DisplayRole = Ok (PInt 3).
Proof.
  intros t.
  destruct (addData_appends_a_column SimpleTableModel_init [PInt 1; PInt 2])
    as (_ & H1 & _).
  destruct (addData_appends_a_column t [PInt 3]) as (_ & _ & H2 & H3 & _).
  split; [by apply H1|]. split.
  - rewrite H2; [reflexivity | discriminate].
  - apply (H3 0 (PInt 3)). reflexivity.
Defined.

(** ** The header *)

Lemma for_each_ext_in {A S} (f g : A -> S -> result S) xs :
  (forall x st, x ∈ xs -> f x st = g x st) ->
  forall st, for_each f xs st = for_each g xs st.
Proof.
  induction xs as [|x xs IH]; intros H st; simpl; [done|].
  rewrite (H x st) by apply list_elem_of_here.
  destruct (g x st); simpl; [|done]. apply IH. intros y st' Hy. apply H.
  by apply list_elem_of_further.
Qed.

(** The serialisation does not read the fields of the root. *)
Lemma dictFromNode_root_data m nr d depth :
  well_formed_tree m -> nodes m !! root m = Some nr ->
  forall x,
    dictFromNode depth (update_node (root m) (fun _ => with_data d nr) m) x
    = dictFromNode depth m x.
Proof.
  intros Hwf Hr. pose proof Hwf as ([_ Hb] & _ & Hroot & Hpar & _).
  set (m' := update_node (root m) (fun _ => with_data d nr) m).
  assert (forall c p np, nodes m !! p = Some np -> c ∈ children np ->
            deref m' (Some c) = deref m (Some c)) as Hchild.
  { intros c p np Hp Hc. destruct (Hb p np c Hp Hc) as (nc & Hnc & Hpc).
    unfold deref, node_at, m'. rewrite update_node_other; [done|].
    intros ->. rewrite Hroot in Hnc.
    assert (parent nc = None) by (by apply (Hpar 0 nc Hnc)). congruence. }
  induction depth as [|depth IH]; intros x; [done|].
  destruct x as [i|]; [|done].
  destruct (nodes m !! i) as [n|] eqn:Hn.
  2:{ cbn [dictFromNode]. unfold deref, node_at.
      assert (nodes m' !! i = None) as ->; [|by rewrite Hn].
      apply lookup_ge_None. unfold m'. simpl. rewrite length_alter.
      by apply lookup_ge_None. }
  assert (exists n', nodes m' !! i = Some n' /\ children n' = children n) as (n' & Hn' & Hc').
  { destruct (decide (i = root m)) as [->|Hne].
    - exists (with_data d nr). split; [exact (update_node_lookup m _ (fun _ => with_data d nr) nr Hr)|].
      rewrite Hr in Hn. by injection Hn as <-.
    - exists n. split; [|done]. unfold m'. by rewrite update_node_other. }
  cbn [dictFromNode]. rewrite (node_at_deref _ _ _ Hn'), (node_at_deref _ _ _ Hn).
  cbn [bind]. rewrite !child_list. cbn [bind]. rewrite Hc'.
  destruct (1 <? length (Some <$> children n)).
  - f_equal. apply for_each_ext_in. intros nd acc Hnd.
    apply list_elem_of_fmap in Hnd as (c & -> & Hc).
    change (is_disabled m' (Some c)) with (is_disabled m (Some c)).
    destruct (is_disabled m (Some c)); [done|].
    by rewrite IH, (Hchild c i n Hn Hc).
  - destruct (length (Some <$> children n) =? 1); [|done].
    destruct (children n) as [|c cs] eqn:Hcs; [done|]. simpl.
    change (node_at m' c) with (deref m' (Some c)).
    rewrite (Hchild c i n Hn); [done|]. rewrite Hcs. apply list_elem_of_here.
Qed.

Lemma init_root dictionary m :
  TreeModel_init dictionary = Ok m ->
  root m = 0 /\ exists nr, nodes m !! 0 = Some nr /\ data nr = [PStr "column A"].
Proof.
  intros Hinit.
  destruct (TreeModel_init_inv _ _ Hinit) as (items & mb & _ & Hpost & Hl & _ & _ & Hlinked).
  destruct Hpost as (nr & cs & ts & Hnr & Hnr' & _ & _ & _ & Hroot & _).
  simpl in Hnr. injection Hnr as <-. simpl in Hroot.
  destruct (link_loop _ _ _ Hl) as ((_ & Hroot' & _) & Hframe & _).
  split; [congruence|]. eexists. rewrite Hframe; [split; [exact Hnr' | reflexivity]|].
  intros Hin. apply list_elem_of_fmap in Hin as (t & Heq & Hin).
  destruct (Hlinked t Hin) as [_ Hlk]. rewrite (typenode_linked_leaf _ _ Hlk) in Heq. done.
Qed.

(** The header of a built tree is the one field of the root, 'column A'.
    [setHeaderData] replaces it at section 0 and [headerData] gives the new
    value back; the header is not part of the configuration: the
    serialisation of the tree is the same afterwards.  At any other section
    [setHeaderData] returns false and changes nothing, and [headerData] gives
    [None] at the sections from 1 on. *)
Theorem header_of_a_built_tree (dictionary : pyval) (m : TreeModel) (value : pyval) :
  TreeModel_init dictionary = Ok m ->
  TreeModel_headerData m 0 Horizontal DisplayRole = Ok (PStr "column A") /\
  TreeModel_columnCount m QModelIndex_init = Ok 1 /\
  (exists m',
     TreeModel_setHeaderData m 0 Horizontal value EditRole
     = Ok (true, m', [headerDataChanged Horizontal 0 0]) /\
     TreeModel_headerData m' 0 Horizontal DisplayRole = Ok value /\
     forall depth, toMapping depth m' = toMapping depth m) /\
  (forall section, section <> 0%Z ->
     TreeModel_setHeaderData m section Horizontal value EditRole = Ok (false, m, [])) /\
  (forall section, (1 <= section)%Z ->
     TreeModel_headerData m section Horizontal DisplayRole = Ok PNone).
Proof.
  intros Hinit. destruct (init_root _ _ Hinit) as (Hroot & nr & Hnr & Hd).
  pose proof (init_well_formed _ _ Hinit) as Hwf. rewrite <- Hroot in Hnr.
  assert (forall v, setData nr 0 v = (true, with_data [v] nr)) as Hset.
  { intros v. unfold setData, numColumns. rewrite Hd. done. }
  assert (forall v section, section <> 0%Z -> setData nr section v = (false, nr)) as Hset'.
  { intros v section Hs. unfold setData, numColumns. rewrite Hd.
    change (Z.of_nat (length [PStr "column A"])) with 1%Z.
    destruct (Z.ltb_spec section 0); [done|].
    by destruct (Z.leb_spec 1 section); [|lia]. }
  split_and!.
  - unfold TreeModel_headerData, node_at. rewrite Hnr. simpl. unfold getData.
    by rewrite Hd.
  - unfold TreeModel_columnCount, node_at. rewrite Hnr. simpl. unfold numColumns.
    by rewrite Hd.
  - exists (update_node (root m) (fun _ => with_data [value] nr) m). split_and!.
    + unfold TreeModel_setHeaderData, node_at. rewrite Hnr. simpl. by rewrite Hset.
    + unfold TreeModel_headerData, node_at. simpl root.
      rewrite (update_node_lookup m _ (fun _ => with_data [value] nr) nr Hnr). done.
    + intros depth. unfold toMapping. simpl root.
      apply (dictFromNode_root_data m nr [value] depth Hwf Hnr).
  - intros section Hs. unfold TreeModel_setHeaderData, node_at. rewrite Hnr. simpl.
    by rewrite (Hset' value section Hs).
  - intros section Hs. unfold TreeModel_headerData, node_at. rewrite Hnr. simpl.
    rewrite getData_nonneg by lia. rewrite Hd.
    destruct (Z.to_nat section) as [|k] eqn:Hk; [lia | done].
Qed.

Lemma header_of_a_built_tree_witness :
  let m := built density_template in
  TreeModel_headerData m 0 Horizontal DisplayRole = Ok (PStr "column A") /\
  exists m',
    TreeModel_setHeaderData m 0 Horizontal (PStr "key") EditRole
    = Ok (true, m', [headerDataChanged Horizontal 0 0]) /\
    toMapping 3 m' = toMapping 3 m.
Proof.
  intros m.
  destruct (header_of_a_built_tree density_template m (PStr "key"))
    as (H1 & _ & (m' & H2 & _ & H3) & _); [vm_compute; reflexivity|].
  split; [exact H1|]. exists m'. split; [exact H2 | apply H3].
Defined.

(** ** When the tree is built *)

Lemma tree_loop_outcome items :
  Forall (fun kv => forall r k m,
            (entries_paired (snd kv) = true -> exists m3, tree_item r (k, snd kv) m = Ok m3) /\
            (entries_paired (snd kv) = false -> tree_item r (k, snd kv) m = Raise IndexError))
         items ->
  forall r m,
    (forallb (fun kv => entries_paired (snd kv)) items = true ->
     exists m', for_each (tree_item r) items m = Ok m') /\
    (forallb (fun kv => entries_paired (snd kv)) items = false ->
     for_each (tree_item r) items m = Raise IndexError).
Proof.
  induction 1 as [|[k v] items Hv _ IH]; intros r m; cbn [for_each forallb].
  - split; [eauto | done].
  - simpl snd in *. destruct (Hv r k m) as [Hyes Hno].
    destruct (entries_paired v).
    + destruct (Hyes eq_refl) as [m3 ->]. cbn [bind andb]. apply IH.
    + rewrite (Hno eq_refl). split; done.
Qed.

Lemma tree_item_outcome v : forall r k m,
  (entries_paired v = true -> exists m3, tree_item r (k, v) m = Ok m3) /\
  (entries_paired v = false -> tree_item r (k, v) m = Raise IndexError).
Proof.
  induction v as [| | | | |entry _|items IH] using pyval_nested_ind; intros r k m;
    try (split; [intros _; unfold tree_item, new_node; eauto | done]).
  - unfold tree_item, new_node. destruct entry as [|a [|second rest]]; simpl entries_paired.
    + split; [done | intros _; done].
    + split; [done | intros _; done].
    + split; [|done]. intros _. rewrite py_index_1 with (x := second) by done. cbn [bind].
      destruct second; destruct (decide (k = "type")); eauto.
  - unfold tree_item, new_node. rewrite treeFromNode_items.
    apply (tree_loop_outcome items IH).
Qed.

(** [treeFromNode] on a dict returns exactly when every list entry of the
    dict, at any depth, has at least two elements, and raises [IndexError]
    otherwise: the value of a list entry is read at index 1 without a look
    at its length. *)
Theorem treeFromNode_returns_iff_paired
    (items : list (string * pyval)) (r : nat) (m : TreeModel) :
  (entries_paired (PDict items) = true ->
   exists m', treeFromNode (PDict items) r m = Ok m') /\
  (entries_paired (PDict items) = false ->
   treeFromNode (PDict items) r m = Raise IndexError).
Proof.
  rewrite treeFromNode_items. apply tree_loop_outcome.
  apply Forall_forall. intros kv _ r' k m'. apply tree_item_outcome.
Qed.

Lemma treeFromNode_returns_iff_paired_witness :
  (exists m', treeFromNode density_template 0
                (mkModel [Node_init [PStr "column A"]] 0 [] []) = Ok m') /\
  treeFromNode (PDict [("seed", PList [PInt 1])]) 0
    (mkModel [Node_init [PStr "column A"]] 0 [] []) = Raise IndexError.
Proof.
  split.
  - apply (treeFromNode_returns_iff_paired
             [("density", PDict
                [("type", required (PList [PStr "exponential|_:_|time_0|_:_|rho_0";
                                           PStr "uniform|_:_|value"]));
                 ("value", required PNone);
                 ("time_0", required PNone);
                 ("rho_0", required PNone)])]). reflexivity.
  - apply (treeFromNode_returns_iff_paired [("seed", PList [PInt 1])]). reflexivity.
Defined.

(** ** When construction returns *)

Lemma keyed_kept m m' c : data_kept m m' -> keyed m c -> keyed m' c.
Proof.
  intros Hk (nc & k & Hc & Hd). destruct (Hk c nc Hc) as (n' & Hn' & Hd').
  exists n', k. split; [done | congruence].
Qed.

Lemma attach_data_kept m r d :
  r < length (nodes m) ->
  data_kept m (appendChild r (length (nodes m)) (with_nodes (nodes m ++ [Node_init d]) m)).
Proof.
  intros Hr. destruct (lookup_lt_is_Some_2 _ _ Hr) as [nr Hnr].
  destruct (attach_spec m r nr d Hnr) as (A1 & A2 & A3 & _).
  intros i n Hi. destruct (decide (i = r)) as [->|Hne].
  - rewrite Hnr in Hi. injection Hi as <-. eexists. split; [exact A1 | done].
  - exists n. split; [|done]. rewrite A3; [done | by eapply lookup_lt_Some | done].
Qed.

Lemma tree_post_data_kept r m m' items : tree_post r m m' items -> data_kept m m'.
Proof.
  intros (nr & cs & ts & Hr & Hr' & _ & Hframe & _) i n Hi.
  destruct (decide (i = r)) as [->|Hne].
  - rewrite Hr in Hi. injection Hi as <-. eexists. split; [exact Hr' | done].
  - exists n. split; [|done]. rewrite Hframe; [done | by eapply lookup_lt_Some | done].
Qed.

Lemma forallb_ext_elem {A} (f g : A -> bool) (l : list A) :
  (forall x, x ∈ l -> f x = g x) -> forallb f l = forallb g l.
Proof.
  induction l as [|x l IH]; intros H; [done|]. simpl.
  rewrite (H x) by apply list_elem_of_here. f_equal. apply IH.
  intros y Hy. apply H. by apply list_elem_of_further.
Qed.

(** One round of the loop of [treeFromNode]: the children of [r] stay key
    nodes, and the type nodes registered in the round have key nodes for
    siblings. *)
Lemma tree_item_ready k v r m m3 :
  (forall r m m', treeFromNode v r m = Ok m' -> r < length (nodes m) ->
     (forall t, t ∈ typenodes m -> t < length (nodes m)) ->
     keyed_children m r ->
     keyed_children m' r /\
     exists ts, typenodes m' = typenodes m ++ ts /\
       (forall t, t ∈ ts -> parent_keyed m' t) /\
       forallb (leaf_strings m') ts = options_are_strings v) ->
  tree_item r (k, v) m = Ok m3 -> r < length (nodes m) ->
  (forall t, t ∈ typenodes m -> t < length (nodes m)) ->
  keyed_children m r ->
  keyed_children m3 r /\
  exists ts, typenodes m3 = typenodes m ++ ts /\
    (forall t, t ∈ ts -> parent_keyed m3 t) /\
    forallb (leaf_strings m3) ts = item_strings k v.
Proof.
  intros IH Hitem Hr Hts (nr & Hnr & Hkeyed).
  unfold tree_item, new_node in Hitem.
  destruct (attach_spec m r nr [PStr k] Hnr) as (A1 & A2 & A3 & A4 & A5 & _).
  pose proof (attach_data_kept m r [PStr k] Hr) as K2.
  set (c := length (nodes m)) in *.
  set (m2 := appendChild r c (with_nodes (nodes m ++ [Node_init [PStr k]]) m)) in *.
  clearbody m2.
  assert (keyed m2 c) as Hc2.
  { eexists _, k. split; [exact A2 | done]. }
  assert (keyed_children m2 r) as Hopen2.
  { eexists. split; [exact A1|]. simpl. intros x Hx.
    apply elem_of_app in Hx as [Hx|Hx].
    - apply (keyed_kept m m2 x K2). by apply Hkeyed.
    - apply list_elem_of_singleton in Hx as ->. done. }
  destruct v as [| | | | |entry|sub];
    try (injection Hitem as <-; split; [done|]; exists []; rewrite app_nil_r;
         split_and!; [done | intros t Ht; inversion Ht | done]).
  - (* a list entry: the leaf *)
    apply bind_Ok in Hitem as (second & Hsecond & Hitem).
    apply py_index_1_inv in Hsecond as (a & rest & ->).
    assert ((let (leaf, m') :=
               match second with
               | PList options => (length (nodes m2), with_nodes (nodes m2 ++ [Node_init options]) m2)
               | _ => (length (nodes m2), with_nodes (nodes m2 ++ [Node_init [second]]) m2)
               end in
             if decide (k = "type")
             then Ok (with_typenodes (typenodes (appendChild c leaf m') ++ [c]) (appendChild c leaf m'))
             else Ok (appendChild c leaf m'))
            = (let m'' := appendChild c (length (nodes m2))
                            (with_nodes (nodes m2 ++ [Node_init (leaf_data second)]) m2) in
               if decide (k = "type")
               then Ok (with_typenodes (typenodes m'' ++ [c]) m'')
               else Ok m'')) as Heq.
    { by destruct second. }
    rewrite Heq in Hitem. clear Heq.
    destruct (attach_spec m2 c _ (leaf_data second) A2) as (B1 & B2 & B3 & B4 & B5 & _).
    assert (c < length (nodes m2)) as Hc by lia.
    pose proof (attach_data_kept m2 c (leaf_data second) Hc) as K3.
    rewrite A4 in *.
    set (m'' := appendChild c (S c) _) in *. clearbody m''. simpl in Hitem.
    assert (keyed_children m'' r) as Hopen.
    { destruct Hopen2 as (nr2 & Hnr2 & Hk2). exists nr2. split.
      - rewrite B3 by (unfold c; lia). done.
      - intros x Hx. apply (keyed_kept m2 m'' x K3). by apply Hk2. }
    destruct (decide (k = "type")) as [Hk|Hk]; injection Hitem as <-.
    + split; [done|]. exists [c]. simpl. split; [congruence|]. split.
      * intros t Ht. apply list_elem_of_singleton in Ht as ->.
        eexists _, r. split; [exact B1|]. split; [done|]. done.
      * rewrite andb_true_r. unfold leaf_strings. simpl. rewrite B2. simpl.
        by rewrite bool_decide_eq_true_2.
    + split; [done|]. exists []. rewrite app_nil_r. split; [congruence|]. split.
      * intros t Ht. inversion Ht.
      * simpl. by rewrite bool_decide_eq_false_2.
  - (* a nested dict: the recursive call *)
    assert (c < length (nodes m2)) as Hc by lia.
    assert (forall t, t ∈ typenodes m2 -> t < length (nodes m2)) as Hts2.
    { intros t Ht. rewrite A5 in Ht. apply Hts in Ht. lia. }
    destruct (IH c m2 m3 Hitem Hc Hts2) as (_ & ts & Htn & Hready & Hstr).
    { eexists. split; [exact A2|]. simpl. intros x Hx. inversion Hx. }
    destruct (treeFromNode_post _ _ _ _ Hitem Hc Hts2) as (sub' & _ & Hpost).
    pose proof (tree_post_data_kept _ _ _ _ Hpost) as K3.
    destruct Hpost as (_ & _ & _ & _ & _ & _ & Hframe & _).
    split.
    + destruct Hopen2 as (nr2 & Hnr2 & Hk2). exists nr2. split.
      * rewrite Hframe by (unfold c; lia). done.
      * intros x Hx. apply (keyed_kept m2 m3 x K3). by apply Hk2.
    + exists ts. split; [congruence|]. done.
Qed.

Lemma tree_loop_ready items :
  Forall (fun kv => forall r m m', treeFromNode (snd kv) r m = Ok m' ->
            r < length (nodes m) ->
            (forall t, t ∈ typenodes m -> t < length (nodes m)) ->
            keyed_children m r ->
            keyed_children m' r /\
            exists ts, typenodes m' = typenodes m ++ ts /\
              (forall t, t ∈ ts -> parent_keyed m' t) /\
              forallb (leaf_strings m') ts = options_are_strings (snd kv)) items ->
  forall r m m',
  for_each (tree_item r) items m = Ok m' ->
  r < length (nodes m) ->
  (forall t, t ∈ typenodes m -> t < length (nodes m)) ->
  keyed_children m r ->
  keyed_children m' r /\
  exists ts, typenodes m' = typenodes m ++ ts /\
    (forall t, t ∈ ts -> parent_keyed m' t) /\
    forallb (leaf_strings m') ts
    = forallb (fun kv => item_strings (fst kv) (snd kv)) items.
Proof.
  induction items as [|[k v] items IHl]; intros HIH r m m' Hrun Hr Hts Hopen.
  - simpl in Hrun. injection Hrun as <-. split; [done|]. exists [].
    rewrite app_nil_r. split_and!; [done | intros t Ht; inversion Ht | done].
  - apply Forall_cons in HIH as [IH0 HIH]. cbn [for_each] in Hrun.
    apply bind_Ok in Hrun as (m3 & Hitem & Hrest).
    destruct (tree_item_ready k v r m m3 IH0 Hitem Hr Hts Hopen)
      as (Hopen3 & ts1 & Htn1 & Hready1 & Hstr1).
    destruct (lookup_lt_is_Some_2 (nodes m) r Hr) as [nr Hnr].
    destruct (tree_item_spec k v r m m3 nr (treeFromNode_post v) Hitem Hnr Hts)
      as (ts1' & _ & _ & _ & I4 & _ & _ & I7 & _ & I9).
    rewrite Htn1 in I7. apply app_inv_head in I7 as <-.
    set (c := length (nodes m)) in *.
    assert (forall t, t ∈ typenodes m3 -> t < length (nodes m3)) as Hts3.
    { intros t Ht. rewrite Htn1 in Ht. apply elem_of_app in Ht as [Ht|Ht].
      - apply Hts in Ht. lia.
      - destruct (I9 t Ht) as [_ (nt & nl & Hnt & _)]. by eapply lookup_lt_Some. }
    assert (r < length (nodes m3)) as Hr3 by lia.
    destruct (IHl HIH r m3 m' Hrest Hr3 Hts3 Hopen3)
      as (Hopen' & ts2 & Htn2 & Hready2 & Hstr2).
    assert (tree_post r m3 m' items) as Hpost.
    { apply (tree_loop items); try done. apply Forall_forall.
      intros kv _. apply treeFromNode_post. }
    pose proof (tree_post_data_kept _ _ _ _ Hpost) as K.
    destruct Hpost as (_ & _ & _ & _ & _ & _ & Hframe & _).
    split; [done|]. exists (ts1 ++ ts2). split_and!.
    + rewrite Htn2, Htn1. by rewrite app_assoc.
    + intros t Ht. apply elem_of_app in Ht as [Ht|Ht]; [|by apply Hready2].
      destruct (I9 t Ht) as [Hge _].
      destruct (Hready1 t Ht) as (nt & p & Hnt & Hp & np & Hnp & Hk).
      exists nt, p. split_and!; [|done|].
      * rewrite Hframe; [done | by eapply lookup_lt_Some | lia].
      * destruct (decide (p = r)) as [->|Hne]; [done|].
        exists np. split.
        -- rewrite Hframe; [done | by eapply lookup_lt_Some | done].
        -- intros x Hx. apply (keyed_kept m3 m' x K). by apply Hk.
    + rewrite forallb_app. cbn [forallb fst snd]. rewrite <- Hstr1, <- Hstr2. f_equal.
      apply forallb_ext_elem. intros t Ht.
      destruct (I9 t Ht) as [Hge (nt & nl & _ & _ & Hnl & _)].
      unfold leaf_strings. rewrite Hframe; [done | by eapply lookup_lt_Some | lia].
Qed.

(** In the tree that [treeFromNode] builds, the siblings of the new type
    nodes are key nodes, and the fields of their leaves are strings exactly
    when the options of the dict are. *)
Lemma treeFromNode_ready v : forall r m m',
  treeFromNode v r m = Ok m' ->
  r < length (nodes m) ->
  (forall t, t ∈ typenodes m -> t < length (nodes m)) ->
  keyed_children m r ->
  keyed_children m' r /\
  exists ts, typenodes m' = typenodes m ++ ts /\
    (forall t, t ∈ ts -> parent_keyed m' t) /\
    forallb (leaf_strings m') ts = options_are_strings v.
Proof.
  induction v as [| | | | | |items IH] using pyval_nested_ind;
    intros r m m' Hrun Hr Hts Hopen; try discriminate.
  rewrite treeFromNode_items in Hrun.
  by apply (tree_loop_ready items IH).
Qed.

Lemma built_ready items mb :
  treeFromNode (PDict items) 0 (mkModel [Node_init [PStr "column A"]] 0 [] []) = Ok mb ->
  (forall t, t ∈ typenodes mb -> parent_keyed mb t) /\
  forallb (leaf_strings mb) (typenodes mb) = options_are_strings (PDict items).
Proof.
  intros Hb.
  destruct (treeFromNode_ready _ _ _ _ Hb) as (_ & ts & Htn & Hready & Hstr).
  - simpl. lia.
  - intros t Ht. inversion Ht.
  - eexists. split; [done|]. simpl. intros c Hc. inversion Hc.
  - simpl in Htn. by rewrite Htn.
Qed.

(** The first inner loop of [dictToTree] returns when the children are key
    nodes. *)
Lemma make_sibsdict_total_loop m parent len : forall a sibsdict,
  a + len <= numChildren parent ->
  (forall c, c ∈ children parent -> keyed m c) ->
  exists sibsdict',
    for_each
      (fun i sibsdict =>
         let* c1 := getChild parent i in
         let* n1 := deref m c1 in
         let* c2 := getChild parent i in
         match c2 with
         | Some c => sibsdict_set (getData n1 0) c sibsdict
         | None => Ok sibsdict
         end)
      (map Z.of_nat (seq a len)) sibsdict = Ok sibsdict'.
Proof.
  induction len as [|len IH]; intros a sibsdict Hlen Hkeyed; [by eexists|].
  cbn [seq map for_each]. unfold numChildren in Hlen.
  destruct (lookup_lt_is_Some_2 (children parent) a) as [c Hc]; [lia|].
  destruct (Hkeyed c) as (nc & k & Hnc & Hd); [by eapply list_elem_of_lookup_2|].
  rewrite (getChild_lookup parent a c Hc). cbn [bind].
  rewrite (node_at_deref m c nc Hnc). cbn [bind].
  assert (getData nc 0 = PStr k) as ->.
  { apply (getData_nat nc 0). by rewrite Hd. }
  cbn [sibsdict_set bind]. apply IH; [unfold numChildren; lia | done].
Qed.

Lemma make_sibsdict_total m parent :
  (forall c, c ∈ children parent -> keyed m c) ->
  exists sibsdict, make_sibsdict m parent = Ok sibsdict.
Proof.
  intros Hkeyed. unfold make_sibsdict, py_range.
  apply make_sibsdict_total_loop; [lia | done].
Qed.

(** The second inner loop returns when the fields it reads are strings, and
    raises [AttributeError] at the first field that is none. *)
Lemma split_options_outcome_loop sibsdict len : forall a leaf,
  a + len <= numColumns leaf ->
  (forallb is_str (take len (drop a (data leaf))) = true ->
   exists leaf',
     for_each
       (fun i leaf =>
          let* sibstrings := split_field (getData leaf i) in
          let name := hd "" sibstrings in
          let leaf' := snd (setData leaf i (PStr name)) in
          let sibslist := make_sibslist sibsdict (tl sibstrings) in
          Ok (with_siblings (dict_set name sibslist (siblings leaf')) leaf'))
       (map Z.of_nat (seq a len)) leaf = Ok leaf') /\
  (forallb is_str (take len (drop a (data leaf))) = false ->
   for_each
     (fun i leaf =>
        let* sibstrings := split_field (getData leaf i) in
        let name := hd "" sibstrings in
        let leaf' := snd (setData leaf i (PStr name)) in
        let sibslist := make_sibslist sibsdict (tl sibstrings) in
        Ok (with_siblings (dict_set name sibslist (siblings leaf')) leaf'))
     (map Z.of_nat (seq a len)) leaf = Raise AttributeError).
Proof.
  induction len as [|len IH]; intros a leaf Hlen; [split; [by eexists | done]|].
  cbn [seq map for_each]. unfold numColumns in Hlen.
  destruct (lookup_lt_is_Some_2 (data leaf) a) as [x Hx]; [lia|].
  rewrite (drop_S _ _ _ Hx). cbn [take forallb].
  rewrite (getData_nat leaf a x Hx).
  destruct x as [| | | | s | |]; try (split; [done | intros _; done]).
  cbn [split_field is_str bind andb].
  rewrite (setData_in_range leaf a) by (unfold numColumns; lia).
  set (leaf1 := with_siblings _ _).
  assert (data leaf1 = <[a := PStr (hd "" (py_split delim s))]> (data leaf)) as Hd1 by done.
  assert (drop (S a) (data leaf) = drop (S a) (data leaf1)) as ->.
  { rewrite Hd1. by rewrite drop_insert_lt by lia. }
  apply IH. unfold numColumns. rewrite Hd1, length_insert. lia.
Qed.

Lemma split_options_outcome sibsdict leaf :
  (forallb is_str (data leaf) = true ->
   exists leaf', split_options sibsdict leaf = Ok leaf') /\
  (forallb is_str (data leaf) = false ->
   split_options sibsdict leaf = Raise AttributeError).
Proof.
  unfold split_options, py_range. rewrite Nat.sub_0_r.
  destruct (split_options_outcome_loop sibsdict (numColumns leaf) 0 leaf) as [Hyes Hno];
    [lia|].
  unfold numColumns in Hyes, Hno at 1. rewrite drop_0, firstn_all in Hyes, Hno. done.
Qed.

(** The third inner loop returns on a leaf whose fields have their entries. *)
Lemma disable_unselected_total_loop leaf len : forall a disabled,
  choice_ready leaf ->
  a + len <= numColumns leaf ->
  exists disabled',
    for_each
      (fun i disabled =>
         let key := getData leaf i in
         let* sibs := siblings_get leaf key in
         Ok (disabled ++ sibs))
      (map Z.of_nat (seq a len)) disabled = Ok disabled'.
Proof.
  induction len as [|len IH]; intros a disabled Hready Hlen; [by eexists|].
  cbn [seq map for_each]. unfold numColumns in Hlen.
  destruct (lookup_lt_is_Some_2 (data leaf) a) as [x Hx]; [lia|].
  destruct (Hready a x Hx) as (name & sibs & -> & Hsibs).
  rewrite (getData_nat leaf a _ Hx). cbn [siblings_get]. rewrite Hsibs. cbn [bind].
  apply IH; [done | unfold numColumns; lia].
Qed.

Lemma disable_unselected_total leaf disabled :
  choice_ready leaf -> exists disabled', disable_unselected leaf disabled = Ok disabled'.
Proof.
  intros Hready. unfold disable_unselected, py_range.
  destruct (numColumns leaf) as [|n] eqn:Hn; [by eexists|].
  apply disable_unselected_total_loop; [done | lia].
Qed.

(** The body of the loop over the type nodes, on a type node whose siblings
    are key nodes. *)
Lemma link_typenode_outcome m t nt p np leaf :
  nodes m !! t = Some nt -> parent nt = Some p -> nodes m !! p = Some np ->
  (forall c, c ∈ children np -> keyed m c) ->
  children nt = [S t] -> nodes m !! S t = Some leaf ->
  (forallb is_str (data leaf) = true -> exists m', link_typenode t m = Ok m') /\
  (forallb is_str (data leaf) = false -> link_typenode t m = Raise AttributeError).
Proof.
  intros Hnt Hp Hnp Hkeyed Hc Hleaf. unfold link_typenode.
  assert (node_at m t = Ok nt) as -> by (unfold node_at; by rewrite Hnt).
  cbn [bind]. rewrite Hp, (node_at_deref m p np Hnp). cbn [bind].
  destruct (make_sibsdict_total m np Hkeyed) as [sibsdict ->]. cbn [bind].
  assert (getChild nt 0 = Ok (Some (S t))) as ->.
  { apply (getChild_lookup nt 0). by rewrite Hc. }
  cbn [bind].
  rewrite (node_at_deref m (S t) leaf Hleaf). cbn [bind].
  destruct (split_options_outcome sibsdict leaf) as [Hyes Hno].
  destruct (forallb is_str (data leaf)).
  - split; [|done]. intros _. destruct (Hyes eq_refl) as [leaf' Hsplit].
    rewrite Hsplit. cbn [bind].
    destruct (disable_unselected_total leaf'
                (disabledNodes (update_node (S t) (fun _ => leaf') m))) as [disabled ->].
    { by eapply split_options_ready. }
    cbn [bind]. by eexists.
  - split; [done|]. intros _. by rewrite (Hno eq_refl).
Qed.

(** The loop over the type nodes of a built tree: no round touches what a
    later round reads, so the loop returns when the leaves hold strings and
    raises [AttributeError] at the first leaf that does not. *)
Lemma link_loop_outcome mb :
  tree_consistent mb ->
  (forall t, t ∈ typenodes mb -> typenode_linked mb t) ->
  (forall t, t ∈ typenodes mb -> parent_keyed mb t) ->
  forall ts m,
    NoDup ts -> (forall t, t ∈ ts -> t ∈ typenodes mb) ->
    (forall x, Some x ∉ leaf_id mb <$> typenodes mb -> nodes m !! x = nodes mb !! x) ->
    (forall t, t ∈ ts -> nodes m !! S t = nodes mb !! S t) ->
    (forallb (leaf_strings mb) ts = true ->
     exists m', for_each link_typenode ts m = Ok m') /\
    (forallb (leaf_strings mb) ts = false ->
     for_each link_typenode ts m = Raise AttributeError).
Proof.
  intros Hcons Hlinked Hready.
  induction ts as [|t ts IH]; intros m Hnd Hsub Hframe Hleaves.
  - split; [by eexists | done].
  - apply NoDup_cons in Hnd as [Hnotin Hnd].
    assert (t ∈ typenodes mb) as Ht by (apply Hsub, list_elem_of_here).
    destruct (Hlinked t Ht) as (nt & nl & Hnt & Hc & Hnl & _).
    destruct (Hready t Ht) as (nt' & p & Hnt' & Hp & np & Hnp & Hk).
    rewrite Hnt in Hnt'. injection Hnt' as <-.
    destruct Hcons as [Ha Hb]. destruct (Ha t nt p Hnt Hp) as (np' & Hnp' & Hin).
    rewrite Hnp in Hnp'. injection Hnp' as <-.
    assert (nodes m !! t = Some nt) as Hmt.
    { rewrite Hframe; [done|]. apply (parent_is_no_choice_leaf mb t nt Hlinked Hnt).
      by rewrite Hc. }
    assert (nodes m !! p = Some np) as Hmp.
    { rewrite Hframe; [done|]. apply (parent_is_no_choice_leaf mb p np Hlinked Hnp).
      intros Hnil. rewrite Hnil in Hin. inversion Hin. }
    assert (forall c, c ∈ children np -> keyed m c) as Hmk.
    { intros c Hc'. destruct (Hk c Hc') as (nc & k & Hnc & Hd). exists nc, k.
      split; [|done]. rewrite Hframe; [done|].
      by apply (sibling_is_no_choice_leaf mb t nt p np c (conj Ha Hb) Hlinked Ht Hnt Hp Hnp). }
    assert (nodes m !! S t = Some nl) as Hml.
    { rewrite Hleaves; [done | apply list_elem_of_here]. }
    destruct (link_typenode_outcome m t nt p np nl Hmt Hp Hmp Hmk Hc Hml) as [Hyes Hno].
    cbn [for_each forallb]. unfold leaf_strings at 1 3. rewrite Hnl.
    destruct (forallb is_str (data nl)).
    + destruct (Hyes eq_refl) as [m1 Hm1]. rewrite Hm1. cbn [bind andb].
      destruct (link_typenode_step t m m1 Hm1) as (l & leaf & leaf' & Htl & _ & _ & Hother & _).
      unfold typesleaf_of in Htl. rewrite Hmt, Hc in Htl. simpl in Htl.
      rewrite Hml in Htl. injection Htl as <- <-.
      apply IH; try done.
      * intros t' Ht'. apply Hsub. by apply list_elem_of_further.
      * intros x Hx. rewrite Hother; [by apply Hframe|].
        intros ->. apply Hx. apply list_elem_of_fmap. exists t. split; [|done].
        symmetry. by apply typenode_linked_leaf, Hlinked.
      * intros t' Ht'. rewrite Hother.
        -- apply Hleaves. by apply list_elem_of_further.
        -- intros [= ->]. done.
    + rewrite (Hno eq_refl). split; done.
Qed.

(** Construction on a dict whose list entries have their two elements. *)
Lemma TreeModel_init_paired items :
  entries_paired (PDict items) = true ->
  (options_are_strings (PDict items) = true ->
   exists m, TreeModel_init (PDict items) = Ok m) /\
  (options_are_strings (PDict items) = false ->
   TreeModel_init (PDict items) = Raise AttributeError).
Proof.
  intros Hpaired. unfold TreeModel_init, dictToTree. simpl root.
  set (m0 := mkModel [Node_init [PStr "column A"]] 0 [] []).
  assert (exists mb, treeFromNode (PDict items) 0 m0 = Ok mb) as [mb Hb].
  { rewrite treeFromNode_items.
    apply (tree_loop_outcome items); [|done].
    apply Forall_forall. intros kv _ r' k m'. apply tree_item_outcome. }
  rewrite Hb. cbn [bind].
  destruct (built_tree_facts _ _ Hb) as (Hcons & Hnd & _ & Hlinked).
  destruct (built_ready _ _ Hb) as [Hready Hstr].
  destruct (link_loop_outcome mb Hcons Hlinked Hready (typenodes mb) mb)
    as [Hok Hraise]; try done.
  by rewrite Hstr in Hok, Hraise.
Qed.

Lemma TreeModel_init_unpaired items :
  entries_paired (PDict items) = false ->
  TreeModel_init (PDict items) = Raise IndexError.
Proof.
  intros Hpaired. unfold TreeModel_init, dictToTree. simpl root.
  rewrite treeFromNode_items.
  assert (for_each (tree_item 0) items (mkModel [Node_init [PStr "column A"]] 0 [] [])
          = Raise IndexError) as ->; [|done].
  apply (tree_loop_outcome items); [|done].
  apply Forall_forall. intros kv _ r' k m'. apply tree_item_outcome.
Qed.

(** Construction of the tree of a dict has three outcomes.  A list entry
    with fewer than two elements makes [treeFromNode] raise [IndexError].
    Otherwise the tree is built, and a [type] entry whose value is not a
    string or a list of strings makes [dictToTree] raise [AttributeError]
    when it splits the fields of the choice leaf.  In every other case
    construction returns a model. *)
Theorem construction_outcome (items : list (string * pyval)) :
  (entries_paired (PDict items) = false ->
   TreeModel_init (PDict items) = Raise IndexError) /\
  (entries_paired (PDict items) = true ->
   options_are_strings (PDict items) = false ->
   TreeModel_init (PDict items) = Raise AttributeError) /\
  (entries_paired (PDict items) = true ->
   options_are_strings (PDict items) = true ->
   exists m, TreeModel_init (PDict items) = Ok m).
Proof.
  split; [apply TreeModel_init_unpaired|].
  split; intros Hpaired Hstr; by apply (TreeModel_init_paired items Hpaired).
Qed.

Lemma construction_outcome_witness :
  TreeModel_init (PDict [("seed", PList [PInt 1])]) = Raise IndexError /\
  TreeModel_init (PDict [("plasma", PDict [("type", required (PInt 3))])])
  = Raise AttributeError /\
  exists m, TreeModel_init density_template = Ok m.
Proof.
  split_and!.
  - apply (construction_outcome [("seed", PList [PInt 1])]). reflexivity.
  - apply (construction_outcome [("plasma", PDict [("type", required (PInt 3))])]);
      reflexivity.
  - apply (construction_outcome
             [("density", PDict
                [("type", required (PList [PStr "exponential|_:_|time_0|_:_|rho_0";
                                           PStr "uniform|_:_|value"]));
                 ("value", required PNone);
                 ("time_0", required PNone);
                 ("rho_0", required PNone)])]); reflexivity.
Defined.

(** ** From the merge to the tree *)

(** Replacing the entry of a key by one that passes a test when the old
    one did and a further condition holds. *)
Lemma forallb_dict_set_and {V} (f : string * V -> bool) (T : list (string * V)) k e e' X :
  dict_get k T = Some e -> f (k, e') = f (k, e) && X ->
  forallb f (dict_set k e' T) = forallb f T && X.
Proof.
  intros Hk He. induction T as [|[k0 e0] T IH]; simpl in *; [done|].
  destruct (decide (k = k0)) as [->|Hne]; simpl.
  - injection Hk as ->. rewrite He. by destruct (f (k0, e)), X, (forallb f T).
  - rewrite IH by done. by rewrite andb_assoc.
Qed.

Lemma forallb_insert {A} (f : A -> bool) (l : list A) i x :
  forallb f l = true -> f x = true -> forallb f (<[i := x]> l) = true.
Proof.
  intros Hl Hx. revert i. induction l as [|y l IH]; intros i; [done|].
  simpl in Hl. apply andb_prop in Hl as [Hy Hl].
  destruct i as [|i]; simpl; [by rewrite Hx, Hl | by rewrite Hy, IH].
Qed.

Lemma option_names_strings available options :
  map_result option_name available = Ok options -> forallb is_str available = true.
Proof.
  revert options. induction available as [|x l IH]; intros options H; [done|].
  simpl in H. apply bind_Ok in H as (name & Hname & H).
  apply bind_Ok in H as (names & Hnames & _).
  destruct x; try discriminate. simpl. by eapply IH.
Qed.

(** One round of the merge, by what it does to the two conditions of the
    construction: that the list entries have their two elements, and that
    the options of the [type] keys are strings. *)
Lemma merge_item_strings k v1 T T1 :
  (forall sub sub', matchDicts v1 sub = Ok sub' -> wf_dicts v1 = true ->
     entries_paired (PDict sub')
     = entries_paired (PDict sub) && user_paired v1 sub /\
     options_are_strings (PDict sub')
     = options_are_strings (PDict sub) && user_strings v1 sub) ->
  merge_item (k, v1) T = Ok T1 -> wf_dicts v1 = true ->
  entries_paired (PDict T1)
  = entries_paired (PDict T)
    && match dict_get k T with
       | Some (PDict sub) => user_paired v1 sub
       | Some (PList _) => true
       | Some _ => entries_paired v1
       | None => true
       end /\
  options_are_strings (PDict T1)
  = options_are_strings (PDict T)
    && match dict_get k T with
       | Some (PDict sub) => user_strings v1 sub
       | Some (PList _) => true
       | Some _ => item_strings k v1
       | None => negb (bool_decide (k = "type")) || forallb is_str (leaf_data v1)
       end.
Proof.
  intros IH Hitem Hwf. unfold merge_item in Hitem.
  change (entries_paired (PDict T))
    with (forallb (fun kv => entries_paired (snd kv)) T).
  change (options_are_strings (PDict T))
    with (forallb (fun kv => item_strings (fst kv) (snd kv)) T).
  change (entries_paired (PDict T1))
    with (forallb (fun kv => entries_paired (snd kv)) T1).
  change (options_are_strings (PDict T1))
    with (forallb (fun kv => item_strings (fst kv) (snd kv)) T1).
  destruct (dict_get k T) as [e|] eqn:Hk.
  - destruct e as [| | | | |entry|sub2];
      try (injection Hitem as <-; split;
           [by apply (forallb_dict_set_and (fun kv => entries_paired (snd kv)) T k _ v1 _ Hk)
           |by apply (forallb_dict_set_and (fun kv => item_strings (fst kv) (snd kv))
                        T k _ v1 _ Hk)]).
    + (* a list entry *)
      apply bind_Ok in Hitem as (second & Hsecond & Hitem).
      apply py_index_1_inv in Hsecond as (a & rest & ->).
      destruct second as [| | | | |available|];
        try (injection Hitem as <-; rewrite !andb_true_r; done).
      apply bind_Ok in Hitem as (options & Hoptions & Hitem).
      destruct (index_in_names v1 options) as [i|]; [|done].
      apply bind_Ok in Hitem as (temp & Htemp & Hitem).
      apply bind_Ok in Hitem as (chosen & Hchosen & Hitem).
      injection Hitem as <-. simpl.
      apply option_names_strings in Hoptions.
      assert (forall x, x ∈ available -> is_str x = true) as Hstr.
      { intros x Hx. by apply (forallb_elem _ _ _ Hoptions). }
      assert (forallb is_str (<[i := temp]> (<[0 := chosen]> available)) = true) as Hstr'.
      { apply forallb_insert; [apply forallb_insert|]; try done.
        - apply Hstr. apply (py_index_Ok_nat _ i) in Hchosen.
          by eapply list_elem_of_lookup_2.
        - apply Hstr. apply (py_index_Ok_nat _ 0) in Htemp.
          by eapply list_elem_of_lookup_2. }
      split.
      * by apply (forallb_dict_set_and _ T k (PList (a :: PList available :: rest))).
      * apply (forallb_dict_set_and _ T k (PList (a :: PList available :: rest))); [done|].
        unfold item_strings. simpl. by rewrite Hstr', Hoptions, andb_true_r.
    + (* a section *)
      apply bind_Ok in Hitem as (sub2' & Hsub & Hitem). injection Hitem as <-.
      destruct (IH sub2 sub2' Hsub Hwf) as (Hp' & Hs').
      split.
      * by apply (forallb_dict_set_and _ T k (PDict sub2)).
      * by apply (forallb_dict_set_and _ T k (PDict sub2)).
  - injection Hitem as <-.
    rewrite dict_set_fresh by (by apply dict_get_None_keys).
    rewrite !forallb_app. simpl. by rewrite !andb_true_r.
Qed.

Lemma merge_loop_strings items :
  Forall (fun kv => forall sub sub', matchDicts (snd kv) sub = Ok sub' ->
            wf_dicts (snd kv) = true ->
            entries_paired (PDict sub')
            = entries_paired (PDict sub) && user_paired (snd kv) sub /\
            options_are_strings (PDict sub')
            = options_are_strings (PDict sub) && user_strings (snd kv) sub)
         items ->
  forall T T',
  for_each merge_item items T = Ok T' ->
  NoDup (dict_keys items) ->
  forallb (fun kv => wf_dicts (snd kv)) items = true ->
  entries_paired (PDict T')
  = entries_paired (PDict T) && user_paired (PDict items) T /\
  options_are_strings (PDict T')
  = options_are_strings (PDict T) && user_strings (PDict items) T.
Proof.
  induction items as [|[k v1] items IHl]; intros HIH T T' Hrun Hnd Hwf.
  - simpl in Hrun. injection Hrun as <-. simpl. by rewrite !andb_true_r.
  - apply Forall_cons in HIH as [IH0 HIH]. cbn [for_each] in Hrun.
    apply bind_Ok in Hrun as (T1 & Hitem & Hrest).
    simpl in Hnd. apply NoDup_cons in Hnd as [Hk Hnd].
    simpl in Hwf. apply andb_prop in Hwf as [Hwf1 Hwf].
    destruct (merge_item_strings k v1 T T1 IH0 Hitem Hwf1) as (Hp1 & Hs1).
    destruct (IHl HIH T1 T' Hrest Hnd Hwf) as (Hp' & Hs').
    assert (forall kv, kv ∈ items -> dict_get (fst kv) T1 = dict_get (fst kv) T) as Hframe.
    { intros kv Hkv. apply (merge_item_frame k v1 T T1 (fst kv) Hitem).
      intros Heq. apply Hk. rewrite <- Heq. apply list_elem_of_fmap. by exists kv. }
    split.
    + rewrite Hp', Hp1, <- andb_assoc. f_equal.
      change (user_paired (PDict ((k, v1) :: items)) T)
        with (match dict_get k T with
              | Some (PDict sub) => user_paired v1 sub
              | Some (PList _) => true
              | Some _ => entries_paired v1
              | None => true
              end && user_paired (PDict items) T).
      f_equal. cbn [user_paired]. apply forallb_ext_elem. intros kv Hkv.
      by rewrite (Hframe kv Hkv).
    + rewrite Hs', Hs1, <- andb_assoc. f_equal.
      change (user_strings (PDict ((k, v1) :: items)) T)
        with (match dict_get k T with
              | Some (PDict sub) => user_strings v1 sub
              | Some (PList _) => true
              | Some _ => item_strings k v1
              | None => negb (bool_decide (k = "type")) || forallb is_str (leaf_data v1)
              end && user_strings (PDict items) T).
      f_equal. cbn [user_strings]. apply forallb_ext_elem. intros kv Hkv.
      by rewrite (Hframe kv Hkv).
Qed.

(** A loop of [matchDicts] over a str or a list that returns has left the
    template as it was. *)
Lemma merge_unsubscripted_loop keys : forall T T',
  for_each merge_unsubscripted keys T = Ok T' -> T' = T.
Proof.
  induction keys as [|k keys IH]; intros T T' H; simpl in H; [by injection H|].
  apply bind_Ok in H as (T1 & H1 & H). apply IH in H as ->.
  unfold merge_unsubscripted in H1.
  destruct (dict_get k T) as [[| | | | |entry|]|]; try discriminate.
  apply bind_Ok in H1 as (second & _ & H1).
  destruct second as [| | | | |available|]; try (by injection H1).
  by apply bind_Ok in H1 as (options & _ & H1).
Qed.

Lemma merge_list_loop l keys : forall T T',
  for_each (merge_list_item l) keys T = Ok T' -> T' = T.
Proof.
  induction keys as [|x keys IH]; intros T T' H; simpl in H; [by injection H|].
  apply bind_Ok in H as (T1 & H1 & H). apply IH in H as ->.
  destruct x as [|b|i| |k| |]; simpl in H1; try discriminate.
  - by apply bind_Ok in H1 as (v & _ & H1).
  - by apply bind_Ok in H1 as (v & _ & H1).
  - by apply (merge_unsubscripted_loop [k]); simpl; rewrite H1.
Qed.

(** The merge, by what it does to the two conditions of the construction:
    the merged template passes when the template did and the user
    configuration brings nothing that fails. *)
Lemma matchDicts_strings U : forall T T',
  matchDicts U T = Ok T' -> wf_dicts U = true ->
  entries_paired (PDict T') = entries_paired (PDict T) && user_paired U T /\
  options_are_strings (PDict T') = options_are_strings (PDict T) && user_strings U T.
Proof.
  induction U as [| | | | s |l _|items IH] using pyval_nested_ind;
    intros T T' Hrun Hwf; try discriminate.
  - apply merge_unsubscripted_loop in Hrun as ->. simpl. by rewrite !andb_true_r.
  - apply merge_list_loop in Hrun as ->. simpl. by rewrite !andb_true_r.
  - rewrite matchDicts_items in Hrun. simpl in Hwf.
    apply andb_prop in Hwf as [Hnd Hwf]. apply bool_decide_eq_true in Hnd.
    by apply (merge_loop_strings items IH).
Qed.

(** The editor, from the parsed configuration to the tree, when the merge
    into the template returns.  The tree is built unless the configuration
    brings along something the construction cannot take.  A list with fewer
    than two elements, stored as it is in the place of a template entry
    that is neither a section nor a list, makes the construction raise
    [IndexError].  A key called [type] whose value is no string and no list
    of strings, under a key the template does not have in that section or
    in a value stored as it is, makes it raise [AttributeError]. *)
Theorem editor_opens_after_merge (U : pyval) (T' : list (string * pyval)) :
  wf_dicts U = true ->
  matchDicts U templatedictionary = Ok T' ->
  (user_paired U templatedictionary = false ->
   ConfigEditor_init U = Raise IndexError) /\
  (user_paired U templatedictionary = true ->
   user_strings U templatedictionary = false ->
   ConfigEditor_init U = Raise AttributeError) /\
  (user_paired U templatedictionary = true ->
   user_strings U templatedictionary = true ->
   exists m, ConfigEditor_init U = Ok m).
Proof.
  intros Hwf Hmerge. unfold ConfigEditor_init. rewrite Hmerge. cbn [bind].
  destruct (matchDicts_strings U templatedictionary T' Hmerge Hwf) as (Hpaired & Hstr).
  assert (entries_paired (PDict templatedictionary) = true) as Htp by (by vm_compute).
  assert (options_are_strings (PDict templatedictionary) = true) as Hts by (by vm_compute).
  rewrite Htp in Hpaired. rewrite Hts in Hstr. cbn [andb] in Hpaired, Hstr.
  destruct (user_paired U templatedictionary).
  - destruct (TreeModel_init_paired T' Hpaired) as [Hok Hraise].
    rewrite Hstr in Hok, Hraise. split; [done|]. split; intros _; done.
  - split; [|split; done]. intros _. by apply TreeModel_init_unpaired.
Qed.

Lemma editor_opens_after_merge_witness :
  (exists m, ConfigEditor_init
               (PDict [("supernova", PDict [("type", PStr "ia")]);
                       ("plasma", PDict [("type", PStr "nebular")])]) = Ok m) /\
  ConfigEditor_init (PDict [("type", PInt 3)]) = Raise AttributeError /\
  ConfigEditor_init
    (PDict [("montecarlo", PDict [("black_body_sampling",
                                   PDict [("num", PList [PInt 7])])])])
  = Raise IndexError.
Proof.
  split_and!.
  - eapply (editor_opens_after_merge
              (PDict [("supernova", PDict [("type", PStr "ia")]);
                      ("plasma", PDict [("type", PStr "nebular")])]));
      [reflexivity | vm_compute; reflexivity | reflexivity | reflexivity].
  - eapply (editor_opens_after_merge (PDict [("type", PInt 3)]));
      [reflexivity | vm_compute; reflexivity | reflexivity | reflexivity].
  - eapply (editor_opens_after_merge
              (PDict [("montecarlo", PDict [("black_body_sampling",
                                             PDict [("num", PList [PInt 7])])])]));
      [reflexivity | vm_compute; reflexivity | reflexivity].
Defined.

(** ** The view of a built tree *)

Lemma items_built_lookup m lo r items : forall cs i k v,
  items_built m lo r items cs -> items !! i = Some (k, v) ->
  exists c, cs !! i = Some c /\ key_built m lo r c k v.
Proof.
  induction items as [|[k0 v0] items IH]; intros cs i k v Hb Hi; [done|].
  destruct cs as [|c cs]; [done|]. destruct Hb as [Hk Hrest].
  destruct i as [|i]; simpl in Hi.
  - injection Hi as -> ->. by exists c.
  - by apply (IH cs i).
Qed.

Lemma getData_hd (n : Node) : getData n 0 = hd PNone (data n).
Proof. unfold getData, py_index. by destruct (data n). Qed.

Section View.
Variables mb m : TreeModel.
Hypothesis Hlinked : forall t, t ∈ typenodes mb -> typenode_linked mb t.
Hypothesis Hframe : forall x,
  Some x ∉ leaf_id mb <$> typenodes mb -> nodes m !! x = nodes mb !! x.

(** A child of a node that is no type node is no choice leaf. *)
Lemma child_is_no_choice_leaf c nc r :
  nodes mb !! c = Some nc -> parent nc = Some r -> r ∉ typenodes mb ->
  Some c ∉ leaf_id mb <$> typenodes mb.
Proof.
  intros Hc Hp Hr Hin. apply list_elem_of_fmap in Hin as (t & Heq & Ht).
  rewrite (typenode_linked_leaf mb t (Hlinked t Ht)) in Heq. injection Heq as ->.
  destruct (Hlinked t Ht) as (nt & nl & _ & _ & Hnl & Hpl & _).
  rewrite Hnl in Hc. injection Hc as <-. rewrite Hpl in Hp. injection Hp as <-. done.
Qed.

(** Descending by rows from a node whose children are the key nodes of a
    dict leads to the key node of the entry at these rows. *)
Lemma view_walk rows : forall items lo r nr parent k v,
  nodes mb !! r = Some nr -> nodes m !! r = Some nr ->
  items_built mb lo r items (children nr) -> r ∉ typenodes mb ->
  TreeModel_getItem m parent = r ->
  isValid parent = false \/ index_column parent = 0%Z ->
  entry_at items rows = Some (k, v) ->
  exists index c r',
    index_path m rows parent = Ok index /\
    isValid index = true /\ index_column index = 0%Z /\
    internalPointer index = Some c /\
    key_built mb lo r' c k v /\ r' ∉ typenodes mb.
Proof.
  induction rows as [|i rest IH]; intros items lo r nr parent k v Hr Hr' Hb Hnt Hitem Hpar He;
    [done|].
  cbn [entry_at] in He. destruct (items !! i) as [[k0 v0]|] eqn:Hi; [|done].
  destruct (items_built_lookup _ _ _ _ _ _ _ _ Hb Hi) as (c & Hc & Hk).
  assert (TreeModel_index m (Z.of_nat i) 0 parent
          = Ok (createIndex (Z.of_nat i) 0 (Some c))) as Hindex.
  { unfold TreeModel_index, node_at.
    assert (isValid parent && negb (index_column parent =? 0)%Z = false) as ->.
    { destruct Hpar as [->| ->]; [done|]. simpl. apply andb_false_r. }
    rewrite Hitem, Hr'. cbn [bind]. by rewrite (getChild_lookup nr i c Hc). }
  assert (isValid (createIndex (Z.of_nat i) 0 (Some c)) = true) as Hvalid.
  { unfold isValid, createIndex. simpl. by destruct (Z.leb_spec 0 (Z.of_nat i)); [|lia]. }
  cbn [index_path]. rewrite Hindex. cbn [bind].
  destruct rest as [|j rest].
  - injection He as <- <-. exists (createIndex (Z.of_nat i) 0 (Some c)), c, r. done.
  - destruct v0 as [| | | | | |sub]; try done.
    apply key_built_dict in Hk as (_ & nc & Hnc & _ & Hp & Hct & Hsub).
    apply (IH sub lo c nc); try done.
    + rewrite Hframe; [done|]. by apply (child_is_no_choice_leaf c nc r).
    + unfold TreeModel_getItem. by rewrite Hvalid.
    + by right.
Qed.
End View.

(** A view of a built tree shows the template.  The top level has one row
    for every key of the dict.  Descending by rows as [index] makes them,
    the index at the rows of an entry is valid and shows the key of the
    entry in its one column, and below it the view finds the keys of a
    section, or the one leaf of a list entry.  The leaf of a list entry
    under a key that is not called [type] shows the value of the entry, the
    first one of a list of values, and has nothing below it. *)
Theorem view_shows_the_template (items : list (string * pyval)) (m : TreeModel) :
  TreeModel_init (PDict items) = Ok m ->
  TreeModel_rowCount m QModelIndex_init = Ok (length items) /\
  forall rows k v,
    entry_at items rows = Some (k, v) ->
    exists index,
      index_path m rows QModelIndex_init = Ok index /\
      isValid index = true /\
      TreeModel_data m index DisplayRole = Ok (PStr k) /\
      TreeModel_columnCount m index = Ok 1 /\
      TreeModel_rowCount m index = Ok (rows_below v) /\
      (forall a second rest,
         v = PList (a :: second :: rest) -> k <> "type" ->
         exists leaf,
           TreeModel_index m 0 0 index = Ok leaf /\ isValid leaf = true /\
           TreeModel_data m leaf DisplayRole = Ok (hd PNone (leaf_data second)) /\
           TreeModel_columnCount m leaf = Ok (length (leaf_data second)) /\
           TreeModel_rowCount m leaf = Ok 0) /\
      (forall a second rest j x,
         v = PList (a :: second :: rest) -> k = "type" ->
         leaf_data second !! j = Some x ->
         exists leaf,
           TreeModel_index m 0 (Z.of_nat j) index = Ok leaf /\ isValid leaf = true /\
           TreeModel_data m leaf DisplayRole = Ok (PStr (field_name x))).
Proof.
  intros Hinit. unfold TreeModel_init, dictToTree in Hinit. simpl root in Hinit.
  apply bind_Ok in Hinit as (mb & Hbuilt & Hl).
  destruct (built_tree_facts _ _ Hbuilt) as (_ & _ & Hndl & Hlinked').
  destruct (treeFromNode_post _ _ _ _ Hbuilt) as (items' & Heq & Hpost).
  { simpl. lia. }
  { intros t Ht. inversion Ht. }
  injection Heq as <-.
  destruct (link_loop _ _ _ Hl) as ((_ & Hroot & _) & Hframe & _).
  destruct (link_loop_exact _ _ _ Hl Hndl) as [_ Hleaves].
  destruct Hpost as (nr & cs & ts & Hnr & Hnr' & Hb & _ & _ & Hroot' & _ & Hts & _ & Hnew).
  simpl in Hnr. injection Hnr as <-. simpl in Hnr', Hb, Hroot', Hts, Hnew.
  assert (0 ∉ typenodes mb) as H0.
  { rewrite Hts. intros Hin. apply Hnew in Hin as [Hge _]. lia. }
  assert (nodes m !! 0 = nodes mb !! 0) as Hm0.
  { apply Hframe. intros Hin. apply list_elem_of_fmap in Hin as (t & Heq & Ht).
    rewrite (typenode_linked_leaf mb t (Hlinked' t Ht)) in Heq. done. }
  assert (TreeModel_getItem m QModelIndex_init = 0) as Hitem.
  { unfold TreeModel_getItem. simpl. congruence. }
  split.
  { unfold TreeModel_rowCount, node_at. rewrite Hitem, Hm0, Hnr'. simpl.
    unfold numChildren. simpl. by rewrite (items_built_length _ _ _ _ _ Hb). }
  intros rows k v He.
  destruct (view_walk mb m Hlinked' Hframe rows items 1 0 _ QModelIndex_init k v
              Hnr') as (index & c & r' & Hpath & Hvalid & Hcol & Hptr & Hk & Hr');
    try done.
  { by rewrite Hm0. }
  { by left. }
  exists index. split; [done|]. split; [done|].
  destruct (key_built_node _ _ _ _ _ _ Hk) as (_ & nc & Hnc & Hd & Hp).
  assert (nodes m !! c = Some nc) as Hmc.
  { rewrite Hframe; [done|]. by apply (child_is_no_choice_leaf mb Hlinked' c nc r'). }
  assert (TreeModel_getItem m index = c) as Hic.
  { unfold TreeModel_getItem. by rewrite Hvalid, Hptr. }
  split_and!.
  - unfold TreeModel_data. rewrite Hvalid, Hptr. simpl.
    unfold node_at. rewrite Hmc. simpl. rewrite Hcol, getData_hd, Hd. done.
  - unfold TreeModel_columnCount. rewrite Hvalid, Hptr. simpl.
    unfold node_at. rewrite Hmc. simpl. unfold numColumns. by rewrite Hd.
  - unfold TreeModel_rowCount, node_at. rewrite Hic, Hmc. simpl. unfold numChildren.
    destruct v as [| | | | |entry|sub]; simpl;
      try (destruct Hk as (_ & nc' & Hnc' & _ & _ & Hcs & _);
           rewrite Hnc in Hnc'; injection Hnc' as <-; by rewrite Hcs).
    + destruct entry as [|a [|second rest]]; try (by destruct Hk as (_ & ? & _ & _ & _ & [])).
      destruct Hk as (_ & nc' & Hnc' & _ & _ & Hcs & _).
      rewrite Hnc in Hnc'. injection Hnc' as <-. by rewrite Hcs.
    + apply key_built_dict in Hk as (_ & nc' & Hnc' & _ & _ & _ & Hsub).
      rewrite Hnc in Hnc'. injection Hnc' as <-.
      by rewrite (items_built_length _ _ _ _ _ Hsub).
  - intros a second rest -> Hkey.
    destruct Hk as (_ & nc' & Hnc' & _ & _ & Hcs & Htype & nl & Hnl & Hcl & Hpl & Hdl).
    rewrite Hnc in Hnc'. injection Hnc' as <-.
    assert (c ∉ typenodes mb) as Hct by (intros Hin; by apply Htype in Hin).
    assert (nodes m !! S c = Some nl) as Hml.
    { rewrite Hframe; [done|]. by apply (child_is_no_choice_leaf mb Hlinked' (S c) nl c). }
    exists (createIndex 0 0 (Some (S c))).
    assert (isValid (createIndex 0 0 (Some (S c))) = true) as Hvl by done.
    split_and!; try done.
    + unfold TreeModel_index, node_at. rewrite Hcol. simpl. rewrite andb_false_r.
      rewrite Hic, Hmc. cbn [bind].
      assert (getChild nc 0 = Ok (Some (S c))) as ->; [|done].
      apply (getChild_lookup nc 0). by rewrite Hcs.
    + unfold TreeModel_data. rewrite Hvl. simpl. unfold node_at. rewrite Hml. simpl.
      by rewrite getData_hd, Hdl.
    + unfold TreeModel_columnCount. rewrite Hvl. simpl. unfold node_at. rewrite Hml.
      simpl. unfold numColumns. by rewrite Hdl.
    + unfold TreeModel_rowCount, node_at, TreeModel_getItem. rewrite Hvl. simpl.
      rewrite Hml. simpl. unfold numChildren. by rewrite Hcl.
  - intros a second rest j x -> Hkey Hx.
    destruct Hk as (_ & nc' & Hnc' & _ & _ & Hcs & Htype & nl & Hnl & Hcl & Hpl & Hdl).
    rewrite Hnc in Hnc'. injection Hnc' as <-.
    assert (c ∈ typenodes mb) as Hct by (by apply Htype).
    destruct (Hleaves c (S c) nl Hct) as (leaf' & Hleaf' & Hfields).
    { unfold typesleaf_of. rewrite Hnc, Hcs. simpl. by rewrite Hnl. }
    destruct (Hfields j x) as (s & -> & Hj); [by rewrite Hdl|].
    exists (createIndex 0 (Z.of_nat j) (Some (S c))).
    assert (isValid (createIndex 0 (Z.of_nat j) (Some (S c))) = true) as Hvl.
    { unfold isValid, createIndex. simpl. by destruct (Z.leb_spec 0 (Z.of_nat j)); [|lia]. }
    split_and!; try done.
    + unfold TreeModel_index, node_at. rewrite Hcol. simpl. rewrite andb_false_r.
      rewrite Hic, Hmc. cbn [bind].
      assert (getChild nc 0 = Ok (Some (S c))) as ->; [|done].
      apply (getChild_lookup nc 0). by rewrite Hcs.
    + unfold TreeModel_data. rewrite Hvl. simpl. unfold node_at. rewrite Hleaf'. simpl.
      by rewrite (getData_nat leaf' j _ Hj).
Qed.

Lemma view_shows_the_template_witness :
  let m := built density_template in
  TreeModel_rowCount m QModelIndex_init = Ok 1 /\
  exists index,
    index_path m [0; 2] QModelIndex_init = Ok index /\
    TreeModel_data m index DisplayRole = Ok (PStr "time_0") /\
    TreeModel_rowCount m index = Ok 1 /\
    exists leaf, TreeModel_index m 0 0 index = Ok leaf /\
                 TreeModel_data m leaf DisplayRole = Ok PNone.
Proof.
  intros m.
  destruct (view_shows_the_template
              [("density", PDict
                 [("type", required (PList [PStr "exponential|_:_|time_0|_:_|rho_0";
                                            PStr "uniform|_:_|value"]));
                  ("value", required PNone);
                  ("time_0", required PNone);
                  ("rho_0", required PNone)])] m) as [Htop Hrows];
    [vm_compute; reflexivity|].
  split; [exact Htop|].
  destruct (Hrows [0; 2] "time_0" (required PNone))
    as (index & Hpath & _ & Hdata & _ & Hcount & Hleaf & _); [reflexivity|].
  exists index. split; [done|]. split; [done|]. split; [done|].
  destruct (Hleaf (PBool true) PNone []) as (leaf & Hl & _ & Hd & _); [reflexivity|done|].
  by exists leaf.
Defined.
